(** * pybind/cast.h: casting between native values and host objects

    A shallow embedding of the type casters of [include/pybind/cast.h]
    (generic heap caster, numeric and character casters, the sequence and
    tuple casters, and [handle::call]) over an explicit model of the host
    object heap, together with the properties the specification states
    about them. *)

From Stdlib Require Import ZArith Lia Bool.
From stdpp Require Import base gmap strings list.

Local Open Scope Z_scope.

(** ** The host object model

    Pointers are addresses, [nullptr] is address 0.  The host runtime is
    consumed, not built, by cast.h; the primitives below model the part of
    its C API that cast.h calls. *)

Definition nullptr : Z := 0.

(** The three singletons of the host runtime live at fixed addresses. *)
Definition Py_None : Z := 1.
Definition Py_True : Z := 2.
Definition Py_False : Z := 3.

(** Addresses of the built-in type objects. *)
Definition PyLong_Type : Z := 4.
Definition PyUnicode_Type : Z := 5.
Definition PyList_Type : Z := 6.
Definition PyTuple_Type : Z := 7.

(** The addresses the runtime reserves for itself. *)
Definition reserved : list Z :=
  [nullptr; Py_None; Py_True; Py_False;
   PyLong_Type; PyUnicode_Type; PyList_Type; PyTuple_Type].

Inductive return_value_policy :=
| automatic | copy | reference | reference_internal | take_ownership.

Definition policy_eqb (a b : return_value_policy) : bool :=
  match a, b with
  | automatic, automatic | copy, copy | reference, reference
  | reference_internal, reference_internal
  | take_ownership, take_ownership => true
  | _, _ => false
  end.

(** Exception classes of the host that the modelled primitives raise. *)
Inductive PyExc :=
| PyExc_TypeError | PyExc_OverflowError | PyExc_IndexError
| PyExc_SystemError | PyExc_UnicodeEncodeError.

(** Modelled from the spec: [instance<type>], the payload of a host object
    wrapping a native value.  The struct is declared in a header that is not
    part of cast.h; cast.h uses its fields [value], [owned] and [parent].
    [holder] is the slot the holder-initialisation hook fills. *)
Record instance := mk_instance {
  value : Z;
  owned : bool;
  parent : Z;
  holder : Z
}.

Inductive PyVal :=
| V_None
| V_Bool (b : bool)
| V_Long (z : Z)
| V_Unicode (code_points : list Z)
| V_List (ob_item : list Z)
| V_Tuple (ob_item : list Z)
| V_Instance (i : instance)
| V_Type (tp_mro : list Z).

Record PyObject := mk_PyObject {
  ob_refcnt : Z;
  ob_type : Z;
  ob_val : PyVal
}.

(** A C++ exception of class [cast_error] carrying its message. *)
Inductive cast_error := mk_cast_error (what : string).

(** Outcome of a function that returns normally or throws. *)
Inductive result (A : Type) :=
| Returned (a : A)
| Threw (e : cast_error).
Arguments Returned {A} a.
Arguments Threw {A} e.

(** Width of the C type [long] (LP64). *)
Definition LONG_BIT : Z := 64.
Definition LONG_MIN : Z := - 2 ^ (LONG_BIT - 1).
Definition LONG_MAX : Z := 2 ^ (LONG_BIT - 1) - 1.

(** The conversion [(int32_t) x] of a wider integer: wrap-around into
    [-2^31, 2^31). *)
Definition to_int32 (x : Z) : Z := (x + 2 ^ 31) mod 2 ^ 32 - 2 ^ 31.

Definition in_int32 (x : Z) : Prop := - 2 ^ 31 <= x < 2 ^ 31.

(** UTF-8 encoding of one code point; surrogates and values outside the
    Unicode range cannot be encoded. *)
Definition utf8_encode_cp (c : Z) : option (list Z) :=
  if (c <? 0) then None
  else if (c <? 128) then Some [c]
  else if (c <? 2048) then
    Some [Z.lor 192 (Z.shiftr c 6); Z.lor 128 (Z.land c 63)]
  else if (55296 <=? c) && (c <=? 57343) then None
  else if (c <? 65536) then
    Some [Z.lor 224 (Z.shiftr c 12);
          Z.lor 128 (Z.land (Z.shiftr c 6) 63);
          Z.lor 128 (Z.land c 63)]
  else if (c <=? 1114111) then
    Some [Z.lor 240 (Z.shiftr c 18);
          Z.lor 128 (Z.land (Z.shiftr c 12) 63);
          Z.lor 128 (Z.land (Z.shiftr c 6) 63);
          Z.lor 128 (Z.land c 63)]
  else None.

Fixpoint utf8_encode (cps : list Z) : option (list Z) :=
  match cps with
  | [] => Some []
  | c :: rest =>
      match utf8_encode_cp c, utf8_encode rest with
      | Some b, Some bs => Some (b ++ bs)
      | _, _ => None
      end
  end.

Section Core.

(** Contents of a native object of a bound class. *)
Context {Obj : Type}.

(** The mutable world: the host heap, the native heap, the instance
    registry of [internals], the host error indicator, and the log of
    invocations made through [PyObject_CallObject]. *)
Record State := mk_State {
  heap : gmap Z PyObject;
  native : gmap Z Obj;
  registered_instances : gmap Z Z;
  err : option (PyExc * string);
  invoked : list (Z * Z)
}.

Definition set_heap (h : gmap Z PyObject) (s : State) : State :=
  mk_State h (native s) (registered_instances s) (err s) (invoked s).
Definition set_native (n : gmap Z Obj) (s : State) : State :=
  mk_State (heap s) n (registered_instances s) (err s) (invoked s).
Definition set_registered_instances (r : gmap Z Z) (s : State) : State :=
  mk_State (heap s) (native s) r (err s) (invoked s).
Definition set_err (e : option (PyExc * string)) (s : State) : State :=
  mk_State (heap s) (native s) (registered_instances s) e (invoked s).
Definition set_invoked (l : list (Z * Z)) (s : State) : State :=
  mk_State (heap s) (native s) (registered_instances s) (err s) l.

(** *** Reference counts

    The model keeps the reference-count ledger; reclaiming an object whose
    count reached zero is the host's business and is not modelled. *)
Definition incref (o : PyObject) : PyObject :=
  mk_PyObject (ob_refcnt o + 1) (ob_type o) (ob_val o).
Definition decref (o : PyObject) : PyObject :=
  mk_PyObject (ob_refcnt o - 1) (ob_type o) (ob_val o).

Definition Py_INCREF (p : Z) (s : State) : State :=
  set_heap (alter incref p (heap s)) s.
Definition Py_DECREF (p : Z) (s : State) : State :=
  set_heap (alter decref p (heap s)) s.
Definition Py_XINCREF (p : Z) (s : State) : State :=
  if p =? nullptr then s else Py_INCREF p s.
Definition Py_XDECREF (p : Z) (s : State) : State :=
  if p =? nullptr then s else Py_DECREF p s.

Definition Py_REFCNT (p : Z) (s : State) : Z :=
  match heap s !! p with Some o => ob_refcnt o | None => 0 end.

(** *** Error indicator *)
Definition PyErr_Occurred (s : State) : bool :=
  match err s with Some _ => true | None => false end.
Definition PyErr_Clear (s : State) : State := set_err None s.
Definition PyErr_SetString (e : PyExc) (msg : string) (s : State) : State :=
  set_err (Some (e, msg)) s.

(** *** Types *)
Definition Py_TYPE (p : Z) (s : State) : Z :=
  match heap s !! p with Some o => ob_type o | None => nullptr end.

Definition PyType_IsSubtype (a b : Z) (s : State) : bool :=
  (a =? b) ||
  match heap s !! a with
  | Some (mk_PyObject _ _ (V_Type mro)) => existsb (Z.eqb b) mro
  | _ => false
  end.

(** *** Allocation: a fresh address, neither reserved nor in use in either
    heap. *)
Definition in_use (s : State) : gset Z :=
  list_to_set reserved ∪ dom (heap s) ∪ dom (native s).

Definition fresh_addr (s : State) : Z := fresh (in_use s).

Definition alloc_object (tp : Z) (v : PyVal) (s : State) : Z * State :=
  let p := fresh_addr s in
  (p, set_heap (<[p := mk_PyObject 1 tp v]> (heap s)) s).

(** [PyType_GenericAlloc(type, 0)]: a zero-initialised instance of [type]
    with one reference. *)
Definition PyType_GenericAlloc (tp : Z) (s : State) : Z * State :=
  alloc_object tp (V_Instance (mk_instance nullptr false nullptr nullptr)) s.

(** [new T(x)]: a fresh native object holding [x]; when the source of the
    copy is not a live object the new cell is left without contents. *)
Definition native_new (x : option Obj) (s : State) : Z * State :=
  let q := fresh_addr s in
  (q, set_native (partial_alter (fun _ => x) q (native s)) s).

(** Assignment through a native pointer, [*p = x]. *)
Definition native_store (p : Z) (x : Obj) (s : State) : State :=
  set_native (<[p := x]> (native s)) s.

(** *** Instances *)
Definition get_instance (p : Z) (s : State) : option instance :=
  match heap s !! p with
  | Some (mk_PyObject _ _ (V_Instance i)) => Some i
  | _ => None
  end.

(** [((instance<void> * ) p)->value]; reading through a pointer that is not
    an instance yields the null pointer in the model. *)
Definition inst_value (p : Z) (s : State) : Z :=
  match get_instance p s with Some i => value i | None => nullptr end.

Definition update_instance (f : instance -> instance) (o : PyObject) : PyObject :=
  match ob_val o with
  | V_Instance i => mk_PyObject (ob_refcnt o) (ob_type o) (V_Instance (f i))
  | _ => o
  end.

Definition modify_instance (p : Z) (f : instance -> instance) (s : State) : State :=
  set_heap (alter (update_instance f) p (heap s)) s.

Definition set_value (v : Z) (i : instance) : instance :=
  mk_instance v (owned i) (parent i) (holder i).
Definition set_owned (b : bool) (i : instance) : instance :=
  mk_instance (value i) b (parent i) (holder i).
Definition set_parent (p : Z) (i : instance) : instance :=
  mk_instance (value i) (owned i) p (holder i).
Definition set_holder (h : Z) (i : instance) : instance :=
  mk_instance (value i) (owned i) (parent i) h.

(** The native object a host object wraps. *)
Definition wrapped_value (p : Z) (s : State) : option Obj :=
  native s !! inst_value p s.

(** *** Integers *)

(** [PyLong_FromLong]: a new reference to an integer object of value [z].
    The model makes a new object for every value.  The host does so for
    every value outside -5..256; for those it keeps one shared object each
    and hands it out once more, so what is stated about a newly made integer
    object is stated for the other values. *)
Definition PyLong_FromLong (z : Z) (s : State) : Z * State :=
  alloc_object PyLong_Type (V_Long z) s.

(** [PyLong_AsLong]: the value of an integer object (booleans are integers
    of the host); [-1] with the error indicator set when the object is not
    an integer or its value does not fit a C [long].  The host first asks an
    object that is not an integer for one (its [__index__]); the objects of
    the model have no such method, and what is stated about objects other
    than integers and booleans is stated for strings, lists and tuples,
    which have none in the host either. *)
Definition PyLong_AsLong (p : Z) (s : State) : Z * State :=
  match heap s !! p with
  | Some o =>
      match ob_val o with
      | V_Long z =>
          if (LONG_MIN <=? z) && (z <=? LONG_MAX) then (z, s)
          else (-1, PyErr_SetString PyExc_OverflowError
                      "Python int too large to convert to C long" s)
      | V_Bool b => (Z.b2z b, s)
      | _ => (-1, PyErr_SetString PyExc_TypeError "an integer is required" s)
      end
  | None => (-1, PyErr_SetString PyExc_SystemError "bad argument to internal function" s)
  end.

(** *** Lists *)
Definition PyList_Check (p : Z) (s : State) : bool :=
  match heap s !! p with
  | Some (mk_PyObject _ _ (V_List _)) => true
  | _ => false
  end.

Definition list_items (p : Z) (s : State) : list Z :=
  match heap s !! p with
  | Some (mk_PyObject _ _ (V_List items)) => items
  | _ => []
  end.

Definition PyList_GET_SIZE (p : Z) (s : State) : Z :=
  Z.of_nat (length (list_items p s)).

(** A borrowed reference to item [i], or null with [IndexError] set. *)
Definition PyList_GetItem (p : Z) (i : Z) (s : State) : Z * State :=
  if PyList_Check p s then
    if (0 <=? i) && (i <? PyList_GET_SIZE p s) then
      (default nullptr (list_items p s !! Z.to_nat i), s)
    else (nullptr, PyErr_SetString PyExc_IndexError "list index out of range" s)
  else (nullptr, PyErr_SetString PyExc_SystemError "bad argument to internal function" s).

(** A new list of [n] null items. *)
Definition PyList_New (n : Z) (s : State) : Z * State :=
  alloc_object PyList_Type (V_List (replicate (Z.to_nat n) nullptr)) s.

Definition set_ob_val (v : PyVal) (o : PyObject) : PyObject :=
  mk_PyObject (ob_refcnt o) (ob_type o) v.

(** [PyList_SetItem] steals the reference to [v] and releases the item it
    replaces. *)
Definition PyList_SetItem (l : Z) (i : Z) (v : Z) (s : State) : Z * State :=
  if PyList_Check l s then
    if (0 <=? i) && (i <? PyList_GET_SIZE l s) then
      let items := list_items l s in
      let old := default nullptr (items !! Z.to_nat i) in
      let s1 := set_heap (alter (set_ob_val (V_List (<[Z.to_nat i := v]> items))) l (heap s)) s in
      (0, Py_XDECREF old s1)
    else (-1, PyErr_SetString PyExc_IndexError "list assignment index out of range"
                (Py_XDECREF v s))
  else (-1, PyErr_SetString PyExc_SystemError "bad argument to internal function"
              (Py_XDECREF v s)).

(** *** Tuples *)
Definition PyTuple_Check (p : Z) (s : State) : bool :=
  match heap s !! p with
  | Some (mk_PyObject _ _ (V_Tuple _)) => true
  | _ => false
  end.

Definition tuple_items (p : Z) (s : State) : list Z :=
  match heap s !! p with
  | Some (mk_PyObject _ _ (V_Tuple items)) => items
  | _ => []
  end.

(** The length of a tuple; [-1] for an object that is not a tuple (cast.h
    only asks after [PyTuple_Check] succeeded). *)
Definition PyTuple_Size (p : Z) (s : State) : Z :=
  if PyTuple_Check p s then Z.of_nat (length (tuple_items p s)) else -1.

Definition PyTuple_GetItem (p : Z) (i : Z) (s : State) : Z * State :=
  if PyTuple_Check p s then
    if (0 <=? i) && (i <? PyTuple_Size p s) then
      (default nullptr (tuple_items p s !! Z.to_nat i), s)
    else (nullptr, PyErr_SetString PyExc_IndexError "tuple index out of range" s)
  else (nullptr, PyErr_SetString PyExc_SystemError "bad argument to internal function" s).

(** [PyTuple_New]: a new tuple of [n] null slots.  For [n = 0] the host
    hands out its one shared empty tuple instead; what is stated about a
    newly made tuple is stated for tuples of at least one item. *)
Definition PyTuple_New (n : Z) (s : State) : Z * State :=
  alloc_object PyTuple_Type (V_Tuple (replicate (Z.to_nat n) nullptr)) s.

(** [PyTuple_SetItem] steals the reference to [v]; it only fills a tuple
    nobody else references yet. *)
Definition PyTuple_SetItem (t : Z) (i : Z) (v : Z) (s : State) : Z * State :=
  if PyTuple_Check t s && (Py_REFCNT t s =? 1) then
    if (0 <=? i) && (i <? PyTuple_Size t s) then
      let items := tuple_items t s in
      let old := default nullptr (items !! Z.to_nat i) in
      let s1 := set_heap (alter (set_ob_val (V_Tuple (<[Z.to_nat i := v]> items))) t (heap s)) s in
      (0, Py_XDECREF old s1)
    else (-1, PyErr_SetString PyExc_IndexError "tuple assignment index out of range"
                (Py_XDECREF v s))
  else (-1, PyErr_SetString PyExc_SystemError "bad argument to internal function"
              (Py_XDECREF v s)).

(** *** Strings *)

(** [PyUnicode_AsUTF8]: the UTF-8 bytes of a string object (the C string the
    returned pointer designates, without its terminating NUL), or null with
    the error indicator set. *)
Definition PyUnicode_AsUTF8 (p : Z) (s : State) : option (list Z) * State :=
  match heap s !! p with
  | Some (mk_PyObject _ _ (V_Unicode cps)) =>
      match utf8_encode cps with
      | Some bytes => (Some bytes, s)
      | None => (None, PyErr_SetString PyExc_UnicodeEncodeError
                         "surrogates not allowed" s)
      end
  | _ => (None, PyErr_SetString PyExc_TypeError
                  "bad argument type for built-in operation" s)
  end.

(** [PyUnicode_DecodeLatin1(str, size, nullptr)]: each byte is one code
    point.  The host may hand out a shared object for a one-character
    string; nothing below depends on the string being newly made. *)
Definition PyUnicode_DecodeLatin1 (bytes : list Z) (s : State) : Z * State :=
  alloc_object PyUnicode_Type (V_Unicode bytes) s.

(** *** Calling a host callable

    What the callable does is the host's business: [host_call] is its
    effect.  Every invocation is logged in [invoked]. *)
Variable host_call : Z -> Z -> State -> Z * State.

Definition PyObject_CallObject (callable args : Z) (s : State) : Z * State :=
  host_call callable args (set_invoked (invoked s ++ [(callable, args)]) s).

(** ** The type registry *)

(** Modelled from the spec: the type descriptor.  [type_info] is declared in
    a header that is not part of cast.h; cast.h reads its three fields: the
    host type, the implicit conversions in registration order (each maps a
    host value and the target type to a new reference, or to null), and the
    holder-initialisation hook, invoked once on a newly built instance; the
    hook computes what goes into the instance's holder slot and touches
    nothing else. *)
Record type_info := mk_type_info {
  type : Z;
  implicit_conversions : list (Z -> Z -> State -> Z * State);
  init_holder : instance -> Z
}.

End Core.

Arguments State : clear implicits.
Arguments type_info : clear implicits.

(** ** Generic type caster for objects stored on the heap
    ([template <typename type> class type_caster]) *)
Module Generic.
Section Caster.

Context {Obj : Type}.

(** The registry [get_internals().registered_types]. *)
Variable registered_types : gmap string (type_info Obj).
(** [type_id<type>()], the registry key of the bound class. *)
Variable type_id : string.
(** The copy constructor of [type]; [None] when
    [std::is_copy_constructible<type>] is false. *)
Variable copy_constructor : option (Obj -> Obj).

(** The caster object: the loaded pointer, the descriptor found by the
    constructor, and the [object] keeping a conversion result alive. *)
Record type_caster := mk_type_caster {
  value : Z;
  typeinfo : option (type_info Obj);
  temp : Z
}.

Definition with_value (v : Z) (c : type_caster) : type_caster :=
  mk_type_caster v (typeinfo c) (temp c).
Definition with_temp (t : Z) (c : type_caster) : type_caster :=
  mk_type_caster (value c) (typeinfo c) t.

(** [type_caster()] *)
Definition new : type_caster :=
  mk_type_caster nullptr (registered_types !! type_id) nullptr.

(** The loop over [typeinfo->implicit_conversions]; [load_result] is the
    recursive call [load(temp.ptr(), false)].  Assigning to [temp] releases
    the reference it held before. *)
Fixpoint try_conversions
    (load_result : Z -> type_caster -> State Obj -> bool * type_caster * State Obj)
    (src tp : Z) (convs : list (Z -> Z -> State Obj -> Z * State Obj))
    (self : type_caster) (s : State Obj) : bool * type_caster * State Obj :=
  match convs with
  | [] => (false, self, s)
  | converter :: rest =>
      let '(r, s1) := converter src tp s in
      let s2 := Py_XDECREF (temp self) s1 in
      let self1 := with_temp r self in
      let '(ok, self2, s3) := load_result (temp self1) self1 s2 in
      if ok then (true, self2, s3)
      else try_conversions load_result src tp rest self2 s3
  end.

(** The body of [load], with the recursive call abstracted. *)
Definition load_body
    (load_result : Z -> type_caster -> State Obj -> bool * type_caster * State Obj)
    (src : Z) (convert : bool) (self : type_caster) (s : State Obj)
    : bool * type_caster * State Obj :=
  match typeinfo self with
  | None => (false, self, s)
  | Some ti =>
      if src =? nullptr then (false, self, s)
      else if PyType_IsSubtype (Py_TYPE src s) (type ti) s then
        (true, with_value (inst_value src s) self, s)
      else if convert then
        try_conversions load_result src (type ti) (implicit_conversions ti) self s
      else (false, self, s)
  end.

(** [load(src, false)]: with [convert] false the recursive call is never
    reached. *)
Definition load_no_convert (src : Z) (self : type_caster) (s : State Obj)
    : bool * type_caster * State Obj :=
  load_body (fun _ c s' => (false, c, s')) src false self s.

(** [bool load(PyObject *src, bool convert)] *)
Definition load (src : Z) (convert : bool) (self : type_caster) (s : State Obj)
    : bool * type_caster * State Obj :=
  load_body load_no_convert src convert self s.

(** [handle_return_value_policy], overload for copy-constructible [T]. *)
Definition handle_return_value_policy_copyable (copy_T : Obj -> Obj)
    (inst : Z) (policy : return_value_policy) (parent : Z) (s : State Obj)
    : result unit * State Obj :=
  match policy with
  | copy =>
      let '(q, s1) := native_new (copy_T <$> native s !! inst_value inst s) s in
      (Returned tt, modify_instance inst (set_value q) s1)
  | reference => (Returned tt, modify_instance inst (set_owned false) s)
  | reference_internal =>
      let s1 := modify_instance inst (set_owned false) s in
      let s2 := modify_instance inst (set_parent parent) s1 in
      (Returned tt, Py_XINCREF parent s2)
  | _ => (Returned tt, s)
  end.

(** [handle_return_value_policy], overload for [T] that cannot be copied. *)
Definition handle_return_value_policy_noncopyable
    (inst : Z) (policy : return_value_policy) (parent : Z) (s : State Obj)
    : result unit * State Obj :=
  match policy with
  | copy =>
      (Threw (mk_cast_error "return_value_policy = copy, but the object is non-copyable!"), s)
  | reference => (Returned tt, modify_instance inst (set_owned false) s)
  | reference_internal =>
      let s1 := modify_instance inst (set_owned false) s in
      let s2 := modify_instance inst (set_parent parent) s1 in
      (Returned tt, Py_XINCREF parent s2)
  | _ => (Returned tt, s)
  end.

(** Overload resolution on [std::is_copy_constructible<T>]. *)
Definition handle_return_value_policy
    (inst : Z) (policy : return_value_policy) (parent : Z) (s : State Obj)
    : result unit * State Obj :=
  match copy_constructor with
  | Some copy_T => handle_return_value_policy_copyable copy_T inst policy parent s
  | None => handle_return_value_policy_noncopyable inst policy parent s
  end.

(** The self-reference exception of [cast]. *)
Definition dont_cache (src : Z) (policy : return_value_policy) (parent : Z)
    (s : State Obj) : bool :=
  policy_eqb policy reference_internal
  && negb (parent =? nullptr)
  && (inst_value parent s =? src).

(** [static PyObject *cast(const type *_src, return_value_policy policy,
    PyObject *parent)] *)
Definition cast (src : Z) (policy : return_value_policy) (parent : Z)
    (s : State Obj) : result Z * State Obj :=
  if src =? nullptr then (Returned Py_None, Py_INCREF Py_None s)
  else
    let dont_cache := dont_cache src policy parent s in
    match (if dont_cache then None else registered_instances s !! src) with
    | Some inst => (Returned inst, Py_INCREF inst s)
    | None =>
        match registered_types !! type_id with
        | None =>
            (Returned nullptr,
             PyErr_SetString PyExc_TypeError ("Unregistered type : " +:+ type_id) s)
        | Some type_info =>
            let '(inst, s1) := PyType_GenericAlloc (type type_info) s in
            let s2 := modify_instance inst (set_value src) s1 in
            let s3 := modify_instance inst (set_owned true) s2 in
            let s4 := modify_instance inst (set_parent nullptr) s3 in
            let policy :=
              if policy_eqb policy automatic then take_ownership else policy in
            match handle_return_value_policy inst policy parent s4 with
            | (Threw e, s5) => (Threw e, s5)
            | (Returned _, s5) =>
                let s6 := modify_instance inst
                            (fun i => set_holder (init_holder type_info i) i) s5 in
                let s7 :=
                  if dont_cache then s6
                  else set_registered_instances
                         (<[inst_value inst s6 := inst]> (registered_instances s6)) s6 in
                (Returned inst, s7)
            end
        end
    end.

(** [static PyObject *cast(const type &src, return_value_policy policy,
    PyObject *parent)]; [src] is the address of the referenced object. *)
Definition cast_ref (src : Z) (policy : return_value_policy) (parent : Z)
    (s : State Obj) : result Z * State Obj :=
  let policy := if policy_eqb policy automatic then copy else policy in
  cast src policy parent s.

End Caster.
End Generic.

(** ** The caster interface

    Every specialisation of [type_caster] offers [load], a conversion
    operator to the native value, and a static [cast]; the container casters
    are written against this interface ([typedef type_caster<Value>
    value_conv]). *)
Class TypeCaster (Obj : Type) (C V : Type) := {
  (** a default-constructed caster *)
  caster_new : C;
  (** [bool load(PyObject *src, bool convert)] *)
  caster_load : Z -> bool -> C -> State Obj -> bool * C * State Obj;
  (** the conversion operator, [(Value) conv] *)
  caster_get : C -> V;
  (** [static PyObject *cast(src, policy, parent)] *)
  caster_cast : V -> return_value_policy -> Z -> State Obj -> result Z * State Obj
}.

(** The generic caster at a pointer type [type * ]: [operator type*()] and
    the pointer overload of [cast]. *)
Definition generic_pointer_caster {Obj : Type}
    (registered_types : gmap string (type_info Obj)) (type_id : string)
    (copy_constructor : option (Obj -> Obj))
    : TypeCaster Obj (Generic.type_caster (Obj:=Obj)) Z :=
  {| caster_new := Generic.new registered_types type_id;
     caster_load := Generic.load;
     caster_get := Generic.value;
     caster_cast := Generic.cast registered_types type_id copy_constructor |}.

(** ** [PYBIND_TYPE_CASTER_NUMBER(int32_t, long, PyLong_AsLong,
    PyLong_FromLong)] *)
Module Int32.
Section Caster.
Context {Obj : Type}.

(** The member [value]; an [int32_t] not yet loaded reads as 0 here. *)
Record type_caster := mk_type_caster { value : Z }.

Definition new : type_caster := mk_type_caster 0.

Definition load (src : Z) (convert : bool) (self : type_caster) (s : State Obj)
    : bool * type_caster * State Obj :=
  let '(x, s1) := PyLong_AsLong src s in
  let self1 := mk_type_caster (to_int32 x) in
  if (value self1 =? to_int32 (-1)) && PyErr_Occurred s1 then
    (false, self1, PyErr_Clear s1)
  else (true, self1, s1).

(** [(py_type) src] widens an [int32_t] to [long] and keeps its value. *)
Definition cast (src : Z) (policy : return_value_policy) (parent : Z)
    (s : State Obj) : result Z * State Obj :=
  let '(p, s1) := PyLong_FromLong src s in (Returned p, s1).

#[export] Instance caster : TypeCaster Obj type_caster Z :=
  {| caster_new := new; caster_load := load; caster_get := value;
     caster_cast := cast |}.

End Caster.
End Int32.

(** ** [type_caster<char>]

    A [char] is its byte, [0..255].  The member [value] is a [char * ] into
    the UTF-8 buffer of the loaded string: [Some bytes] are the bytes it
    points to (a NUL follows them), [None] is the pointer before any load. *)
Module Char.
Section Caster.
Context {Obj : Type}.

Record type_caster := mk_type_caster { value : option (list Z) }.

Definition new : type_caster := mk_type_caster None.

Definition load (src : Z) (convert : bool) (self : type_caster) (s : State Obj)
    : bool * type_caster * State Obj :=
  match PyUnicode_AsUTF8 src s with
  | (None, s1) => (false, self, PyErr_Clear s1)
  | (Some ptr, s1) => (true, mk_type_caster (Some ptr), s1)
  end.

(** [static PyObject *cast(char src, ...)] *)
Definition cast (src : Z) (policy : return_value_policy) (parent : Z)
    (s : State Obj) : result Z * State Obj :=
  let str := [src] in
  let '(p, s1) := PyUnicode_DecodeLatin1 str s in (Returned p, s1).

(** [operator char() { return *value; }]: the first byte of the buffer,
    which is the terminating NUL when the string is empty. *)
Definition to_char (self : type_caster) : Z :=
  match value self with
  | Some (b :: _) => b
  | _ => 0
  end.

(** [operator char*() { return value; }] *)
Definition to_char_ptr (self : type_caster) : option (list Z) := value self.

#[export] Instance caster : TypeCaster Obj type_caster Z :=
  {| caster_new := new; caster_load := load; caster_get := to_char;
     caster_cast := cast |}.

End Caster.
End Char.

(** ** [type_caster<std::vector<Value>>] *)
Module Vector.
Section Caster.
Context {Obj C V : Type} `{value_conv : TypeCaster Obj C V}.

Record type_caster := mk_type_caster { value : list V }.

Definition new : type_caster := mk_type_caster [].

(** The loop of [load] over the indices still to visit; [value] is the
    vector built so far. *)
Fixpoint load_loop (src : Z) (convert : bool) (indices : list nat)
    (value : list V) (s : State Obj) : bool * list V * State Obj :=
  match indices with
  | [] => (true, value, s)
  | i :: rest =>
      let conv := caster_new in
      let '(item, s1) := PyList_GetItem src (Z.of_nat i) s in
      let '(ok, conv1, s2) := caster_load item convert conv s1 in
      if negb ok then (false, value, s2)
      else load_loop src convert rest (value ++ [caster_get conv1]) s2
  end.

Definition load (src : Z) (convert : bool) (self : type_caster) (s : State Obj)
    : bool * type_caster * State Obj :=
  if negb (PyList_Check src s) then (false, self, s)
  else
    let size := Z.to_nat (PyList_GET_SIZE src s) in
    let '(ok, value, s1) := load_loop src convert (seq 0 size) [] s in
    (ok, mk_type_caster value, s1).

(** The loop of [cast] over the remaining elements; [list_] is the list
    under construction. *)
Fixpoint cast_loop (list_ : Z) (index : Z) (src : list V)
    (policy : return_value_policy) (parent : Z) (s : State Obj)
    : result Z * State Obj :=
  match src with
  | [] => (Returned list_, s)
  | value :: rest =>
      match caster_cast value policy parent s with
      | (Threw e, s1) => (Threw e, s1)
      | (Returned value_, s1) =>
          if value_ =? nullptr then (Returned nullptr, Py_DECREF list_ s1)
          else
            let '(_, s2) := PyList_SetItem list_ index value_ s1 in
            cast_loop list_ (index + 1) rest policy parent s2
      end
  end.

Definition cast (src : list V) (policy : return_value_policy) (parent : Z)
    (s : State Obj) : result Z * State Obj :=
  let '(list_, s1) := PyList_New (Z.of_nat (length src)) s in
  cast_loop list_ 0 src policy parent s1.

#[export] Instance caster : TypeCaster Obj type_caster (list V) :=
  {| caster_new := new; caster_load := load; caster_get := value;
     caster_cast := cast |}.

End Caster.
End Vector.

(** ** [type_caster<std::tuple<Tuple...>>]

    The member [value] is a tuple of casters of different types; each is
    kept with its interface. *)
Module Tuple.
Section Caster.
Context {Obj : Type}.

Record element := mk_element {
  elem_C : Type;
  elem_V : Type;
  elem_caster : TypeCaster Obj elem_C elem_V;
  elem_conv : elem_C
}.

Definition type_caster := list element.

(** [enum { size = sizeof...(Tuple) }] *)
Definition size (self : type_caster) : Z := Z.of_nat (length self).

(** The initialiser of [results]:
    [std::get<Indices>(value).load(PyTuple_GetItem(src, Indices), convert)...],
    evaluated from left to right. *)
Fixpoint load_elements (src : Z) (convert : bool) (index : Z)
    (value : list element) (s : State Obj) : list bool * list element * State Obj :=
  match value with
  | [] => ([], [], s)
  | mk_element C V caster conv :: rest =>
      let '(item, s1) := PyTuple_GetItem src index s in
      let '(r, conv1, s2) := caster_load item convert conv s1 in
      let '(results, rest1, s3) := load_elements src convert (index + 1) rest s2 in
      (r :: results, mk_element C V caster conv1 :: rest1, s3)
  end.

(** [for (bool r : results) if (!r) return false; return true;] *)
Fixpoint check_results (results : list bool) : bool :=
  match results with
  | [] => true
  | r :: rest => if negb r then false else check_results rest
  end.

Definition load (src : Z) (convert : bool) (self : type_caster) (s : State Obj)
    : bool * type_caster * State Obj :=
  if negb (PyTuple_Check src s) then (false, self, s)
  else if negb (PyTuple_Size src s =? size self) then (false, self, s)
  else
    let '(results, value, s1) := load_elements src convert 0 self s in
    (check_results results, value, s1).

End Caster.
End Tuple.

(** ** [template <typename T> T cast(PyObject *object)] *)
Definition cast_to_native {Obj C V : Type} `{TypeCaster Obj C V}
    (object : Z) (s : State Obj) : result V * State Obj :=
  let conv := caster_new in
  let '(ok, conv1, s1) := caster_load object true conv s in
  if negb ok then
    (Threw (mk_cast_error "Unable to cast Python object to C++ type"), s1)
  else (Returned (caster_get conv1), s1).

(** ** [handle::call] *)
Module Handle.
Section Call.
Context {Obj : Type}.
Variable host_call : Z -> Z -> State Obj -> Z * State Obj.

(** One element of the pack expansion that initialises [args]: the static
    [cast] of the argument's caster applied to the argument. *)
Definition argument := return_value_policy -> Z -> State Obj -> result Z * State Obj.

(** The initialiser of [args], evaluated from left to right; an exception
    thrown by one cast leaves the initialisation at once. *)
Fixpoint cast_arguments (args_ : list argument) (s : State Obj)
    : result (list Z) * State Obj :=
  match args_ with
  | [] => (Returned [], s)
  | arg :: rest =>
      match arg automatic nullptr s with
      | (Threw e, s1) => (Threw e, s1)
      | (Returned result, s1) =>
          match cast_arguments rest s1 with
          | (Threw e, s2) => (Threw e, s2)
          | (Returned results, s2) => (Returned (result :: results), s2)
          end
      end
  end.

(** [for (auto result : args) if (result == nullptr) fail = true;] *)
Fixpoint any_failed (args : list Z) (fail : bool) : bool :=
  match args with
  | [] => fail
  | result :: rest => any_failed rest (if result =? nullptr then true else fail)
  end.

(** [for (auto result : args) { Py_XDECREF(result); }] *)
Fixpoint release (args : list Z) (s : State Obj) : State Obj :=
  match args with
  | [] => s
  | result :: rest => release rest (Py_XDECREF result s)
  end.

(** [for (auto result : args) PyTuple_SetItem(tuple, counter++, result);] *)
Fixpoint fill (tuple : Z) (counter : Z) (args : list Z) (s : State Obj) : State Obj :=
  match args with
  | [] => s
  | result :: rest =>
      let '(_, s1) := PyTuple_SetItem tuple counter result s in
      fill tuple (counter + 1) rest s1
  end.

Definition call (m_ptr : Z) (args_ : list argument) (s : State Obj)
    : result Z * State Obj :=
  let size := Z.of_nat (length args_) in
  match cast_arguments args_ s with
  | (Threw e, s1) => (Threw e, s1)
  | (Returned args, s1) =>
      let fail := any_failed args false in
      if fail then
        (Threw (mk_cast_error
           "handle::call(): unable to convert input arguments to Python objects"),
         release args s1)
      else
        let '(tuple, s2) := PyTuple_New size s1 in
        let s3 := fill tuple 0 args s2 in
        let '(result, s4) := PyObject_CallObject host_call m_ptr tuple s3 in
        let s5 := Py_DECREF tuple s4 in
        (Returned result, s5)
  end.

End Call.
End Handle.

(** ** Example worlds

    A registry with one bound class [Foo], whose native objects hold an
    integer, and small heaps to run the casters on. *)
Module Ex.

Definition Foo_type : Z := 100.

(** An implicit conversion to [Foo]: from an integer object it builds a new
    [Foo] instance wrapping the native object at address 50; any other value
    is refused. *)
Definition from_int (src tp : Z) (s : State Z) : Z * State Z :=
  match heap s !! src with
  | Some (mk_PyObject _ _ (V_Long _)) =>
      let '(p, s1) := PyType_GenericAlloc tp s in
      (p, modify_instance p (set_value 50) s1)
  | _ => (nullptr, s)
  end.

Definition Foo_info : type_info Z := mk_type_info Foo_type [from_int] value.

Definition types : gmap string (type_info Z) := {[ "Foo" := Foo_info ]}.

Definition Foo_object : PyObject := mk_PyObject 1 Foo_type (V_Type [Foo_type]).

(** A host heap holding the type object of [Foo] and the given objects; the
    native object at 50 holds 7. *)
Definition world (objects : list (Z * PyObject)) (instances : list (Z * Z))
    : State Z :=
  mk_State (<[Foo_type := Foo_object]> (list_to_map objects))
    {[ 50 := 7 ]} (list_to_map instances) None [].

(** The integer 5 at address 10. *)
Definition five : Z * PyObject := (10, mk_PyObject 1 PyLong_Type (V_Long 5)).

(** A [Foo] instance at address 20 that wraps, without owning it, the
    native object at 50. *)
Definition wrapper : Z * PyObject :=
  (20, mk_PyObject 1 Foo_type (V_Instance (mk_instance 50 false nullptr 50))).

(** The string ["x"] at address 11. *)
Definition str_x : Z * PyObject := (11, mk_PyObject 1 PyUnicode_Type (V_Unicode [120])).

(** The host list [[1, "x", 3]] at address 30. *)
Definition mixed_list : list (Z * PyObject) :=
  [(30, mk_PyObject 1 PyList_Type (V_List [31; 11; 33]));
   (31, mk_PyObject 1 PyLong_Type (V_Long 1));
   str_x;
   (33, mk_PyObject 1 PyLong_Type (V_Long 3))].

(** The host tuple [("x", 5)] at address 40. *)
Definition mixed_tuple : list (Z * PyObject) :=
  [(40, mk_PyObject 1 PyTuple_Type (V_Tuple [11; 10])); str_x; five].

(** A callable whose call returns [None]. *)
Definition returns_none (callable args : Z) (s : State Z) : Z * State Z :=
  (Py_None, Py_INCREF Py_None s).

End Ex.

(** ** Specification-side notions *)

Section Notions.
Context {Obj : Type}.

(** [conversions_fail src tp convs self s self' s']: every conversion of
    [convs] was tried in order from caster [self] and state [s], the load of
    each result with conversion disabled failed, and the search ended in
    [self'] and [s']. *)
Inductive conversions_fail (src tp : Z) :
    list (Z -> Z -> State Obj -> Z * State Obj) ->
    Generic.type_caster -> State Obj -> Generic.type_caster -> State Obj -> Prop :=
| conversions_fail_nil self s :
    conversions_fail src tp [] self s self s
| conversions_fail_cons converter rest self s r s1 self2 s3 self' s' :
    converter src tp s = (r, s1) ->
    Generic.load r false (Generic.with_temp r self)
      (Py_XDECREF (Generic.temp self) s1) = (false, self2, s3) ->
    conversions_fail src tp rest self2 s3 self' s' ->
    conversions_fail src tp (converter :: rest) self s self' s'.

(** The host object at [p] is an integer object of value [v]. *)
Definition holds_long (s : State Obj) (p v : Z) : Prop :=
  exists rc tp, heap s !! p = Some (mk_PyObject rc tp (V_Long v)).

End Notions.

(** [elements_loaded src convert k s vals s']: starting from [s], the
    elements at positions [0..k-1] of the host list [src] were loaded one
    after the other, each into a fresh element caster, every load succeeded,
    [vals] are the native values obtained and [s'] is the state reached. *)
Inductive elements_loaded {Obj C V : Type} `{TypeCaster Obj C V}
    (src : Z) (convert : bool) : nat -> State Obj -> list V -> State Obj -> Prop :=
| elements_loaded_O s : elements_loaded src convert 0 s [] s
| elements_loaded_S k s vals s1 item s2 conv s3 :
    elements_loaded src convert k s vals s1 ->
    PyList_GetItem src (Z.of_nat k) s1 = (item, s2) ->
    caster_load item convert caster_new s2 = (true, conv, s3) ->
    elements_loaded src convert (S k) s (vals ++ [caster_get conv]) s3.

(** [elements_attempted src convert index value s results value' s']: the
    element casters [value] each loaded the item of the host tuple [src] at
    their position (from [index] on), one after the other and whatever the
    earlier loads returned; [results] are the booleans returned, [value'] the
    casters afterwards. *)
Inductive elements_attempted {Obj : Type} (src : Z) (convert : bool) :
    Z -> list (Tuple.element (Obj:=Obj)) -> State Obj ->
    list bool -> list (Tuple.element (Obj:=Obj)) -> State Obj -> Prop :=
| elements_attempted_nil index s :
    elements_attempted src convert index [] s [] [] s
| elements_attempted_cons index C V caster conv rest s item s1 r conv1 s2
    results rest1 s3 :
    PyTuple_GetItem src index s = (item, s1) ->
    @caster_load Obj C V caster item convert conv s1 = (r, conv1, s2) ->
    elements_attempted src convert (index + 1) rest s2 results rest1 s3 ->
    elements_attempted src convert index
      (Tuple.mk_element C V caster conv :: rest) s
      (r :: results) (Tuple.mk_element C V caster conv1 :: rest1) s3.

(** ** Further casters of cast.h *)

(** *** [type_caster<bool>] *)
Module Boolean.
Section Caster.
Context {Obj : Type}.

Record type_caster := mk_type_caster { value : bool }.

Definition new : type_caster := mk_type_caster false.

Definition load (src : Z) (convert : bool) (self : type_caster) (s : State Obj)
    : bool * type_caster * State Obj :=
  if src =? Py_True then (true, mk_type_caster true, s)
  else if src =? Py_False then (true, mk_type_caster false, s)
  else (false, self, s).

Definition cast (src : bool) (policy : return_value_policy) (parent : Z)
    (s : State Obj) : result Z * State Obj :=
  let result := if src then Py_True else Py_False in
  (Returned result, Py_INCREF result s).

#[export] Instance caster : TypeCaster Obj type_caster bool :=
  {| caster_new := new; caster_load := load; caster_get := value;
     caster_cast := cast |}.

End Caster.
End Boolean.

(** *** [type_caster<std::pair<T1, T2>>] *)
Module Pair.
Section Caster.
Context {Obj C1 V1 C2 V2 : Type}
  `{first_conv : TypeCaster Obj C1 V1} `{second_conv : TypeCaster Obj C2 V2}.

(** The members [first] and [second] are the casters of the two
    components. *)
Record type_caster := mk_type_caster { first : C1; second : C2 }.

Definition new : type_caster := mk_type_caster caster_new caster_new.

Definition load (src : Z) (convert : bool) (self : type_caster) (s : State Obj)
    : bool * type_caster * State Obj :=
  if negb (PyTuple_Check src s) || negb (PyTuple_Size src s =? 2) then
    (false, self, s)
  else
    let '(item0, s1) := PyTuple_GetItem src 0 s in
    let '(ok, first1, s2) := caster_load item0 convert (first self) s1 in
    if negb ok then (false, mk_type_caster first1 (second self), s2)
    else
      let '(item1, s3) := PyTuple_GetItem src 1 s2 in
      let '(ok', second1, s4) := caster_load item1 convert (second self) s3 in
      (ok', mk_type_caster first1 second1, s4).

Definition cast (src : V1 * V2) (policy : return_value_policy) (parent : Z)
    (s : State Obj) : result Z * State Obj :=
  match caster_cast (fst src) policy parent s with
  | (Threw e, s1) => (Threw e, s1)
  | (Returned o1, s1) =>
      match caster_cast (snd src) policy parent s1 with
      | (Threw e, s2) => (Threw e, s2)
      | (Returned o2, s2) =>
          if (o1 =? nullptr) || (o2 =? nullptr) then
            (Returned nullptr, Py_XDECREF o2 (Py_XDECREF o1 s2))
          else
            let '(tuple, s3) := PyTuple_New 2 s2 in
            let '(_, s4) := PyTuple_SetItem tuple 0 o1 s3 in
            let '(_, s5) := PyTuple_SetItem tuple 1 o2 s4 in
            (Returned tuple, s5)
      end
  end.

(** [operator type() { return type(first, second); }] *)
Definition to_pair (self : type_caster) : V1 * V2 :=
  (caster_get (first self), caster_get (second self)).

#[export] Instance caster : TypeCaster Obj type_caster (V1 * V2) :=
  {| caster_new := new; caster_load := load; caster_get := to_pair;
     caster_cast := cast |}.

End Caster.
End Pair.

(** *** [type_caster<std::tuple<Tuple...>>::cast]

    The native tuple is a list of values of different types, each kept with
    the caster of its type. *)
Module TupleCast.
Section Caster.
Context {Obj : Type}.

Record component := mk_component {
  comp_C : Type;
  comp_V : Type;
  comp_caster : TypeCaster Obj comp_C comp_V;
  comp_value : comp_V
}.

(** The initialiser of [results]:
    [type_caster<...>::cast(std::get<Indices>(src), policy, parent)...],
    evaluated from left to right. *)
Fixpoint cast_components (src : list component) (policy : return_value_policy)
    (parent : Z) (s : State Obj) : result (list Z) * State Obj :=
  match src with
  | [] => (Returned [], s)
  | mk_component C V caster v :: rest =>
      match caster_cast v policy parent s with
      | (Threw e, s1) => (Threw e, s1)
      | (Returned r, s1) =>
          match cast_components rest policy parent s1 with
          | (Threw e, s2) => (Threw e, s2)
          | (Returned rs, s2) => (Returned (r :: rs), s2)
          end
      end
  end.

(** [for (auto result : results) if (result == nullptr) success = false;] *)
Fixpoint all_succeeded (results : list Z) (success : bool) : bool :=
  match results with
  | [] => success
  | result :: rest =>
      all_succeeded rest (if result =? nullptr then false else success)
  end.

(** [for (auto result : results) PyTuple_SetItem(tuple, counter++, result);] *)
Fixpoint fill (tuple : Z) (counter : Z) (results : list Z) (s : State Obj)
    : State Obj :=
  match results with
  | [] => s
  | result :: rest =>
      let '(_, s1) := PyTuple_SetItem tuple counter result s in
      fill tuple (counter + 1) rest s1
  end.

(** [for (auto result : results) { Py_XDECREF(result); }] *)
Fixpoint release (results : list Z) (s : State Obj) : State Obj :=
  match results with
  | [] => s
  | result :: rest => release rest (Py_XDECREF result s)
  end.

Definition cast (src : list component) (policy : return_value_policy)
    (parent : Z) (s : State Obj) : result Z * State Obj :=
  let size := Z.of_nat (length src) in
  match cast_components src policy parent s with
  | (Threw e, s1) => (Threw e, s1)
  | (Returned results, s1) =>
      let success := all_succeeded results true in
      if success then
        let '(tuple, s2) := PyTuple_New size s1 in
        (Returned tuple, fill tuple 0 results s2)
      else (Returned nullptr, release results s1)
  end.

End Caster.
End TupleCast.

(** *** [type_caster<std::string>::load]

    A [std::string] is its bytes.  [std::string(ptr)] copies the C string
    at [ptr]: the bytes before the first NUL. *)
Module Str.
Section Caster.
Context {Obj : Type}.

Record type_caster := mk_type_caster { value : list Z }.

Definition new : type_caster := mk_type_caster [].

(** The C string that starts at the first of [bytes]. *)
Fixpoint c_string (bytes : list Z) : list Z :=
  match bytes with
  | [] => []
  | b :: rest => if b =? 0 then [] else b :: c_string rest
  end.

Definition load (src : Z) (convert : bool) (self : type_caster) (s : State Obj)
    : bool * type_caster * State Obj :=
  match PyUnicode_AsUTF8 src s with
  | (None, s1) => (false, self, PyErr_Clear s1)
  | (Some ptr, s1) => (true, mk_type_caster (c_string ptr), s1)
  end.

End Caster.
End Str.

(** *** [PYBIND_TYPE_CASTER_NUMBER] at [uint32_t], [int64_t] and [uint64_t]

    The macro is written once for all number types; [Number] is its body
    over the macro's parameters.  The three further integer instantiations
    that every platform has follow ([unsigned long], [long long] and
    [unsigned long long] have 64 bits under LP64). *)

Definition ULONG_MAX : Z := 2 ^ LONG_BIT - 1.
Definition LLONG_MIN : Z := - 2 ^ 63.
Definition LLONG_MAX : Z := 2 ^ 63 - 1.
Definition ULLONG_MAX : Z := 2 ^ 64 - 1.

(** The conversions [(uint32_t) x], [(int64_t) x] and [(uint64_t) x] of an
    integer: wrap-around into the range of the type. *)
Definition to_uint32 (x : Z) : Z := x mod 2 ^ 32.
Definition to_int64 (x : Z) : Z := (x + 2 ^ 63) mod 2 ^ 64 - 2 ^ 63.
Definition to_uint64 (x : Z) : Z := x mod 2 ^ 64.

Definition in_uint32 (x : Z) : Prop := 0 <= x < 2 ^ 32.
Definition in_int64 (x : Z) : Prop := - 2 ^ 63 <= x < 2 ^ 63.
Definition in_uint64 (x : Z) : Prop := 0 <= x < 2 ^ 64.

Section MoreIntegers.
Context {Obj : Type}.

(** The three conversions to an integer object: as [PyLong_FromLong], a new
    object in the model, and in the host for every value outside -5..256. *)
Definition PyLong_FromUnsignedLong (z : Z) (s : State Obj) : Z * State Obj :=
  alloc_object PyLong_Type (V_Long z) s.
Definition PyLong_FromLongLong (z : Z) (s : State Obj) : Z * State Obj :=
  alloc_object PyLong_Type (V_Long z) s.
Definition PyLong_FromUnsignedLongLong (z : Z) (s : State Obj) : Z * State Obj :=
  alloc_object PyLong_Type (V_Long z) s.

(** [PyLong_AsUnsignedLong]: the value of an integer object;
    [(unsigned long) -1] with the error indicator set when the object is
    not an integer, or its value is negative or does not fit. *)
Definition PyLong_AsUnsignedLong (p : Z) (s : State Obj) : Z * State Obj :=
  match heap s !! p with
  | Some o =>
      match ob_val o with
      | V_Long z =>
          if (0 <=? z) && (z <=? ULONG_MAX) then (z, s)
          else if z <? 0 then
            (ULONG_MAX, PyErr_SetString PyExc_OverflowError
                          "can't convert negative value to unsigned int" s)
          else
            (ULONG_MAX, PyErr_SetString PyExc_OverflowError
                          "Python int too large to convert to C unsigned long" s)
      | V_Bool b => (Z.b2z b, s)
      | _ => (ULONG_MAX, PyErr_SetString PyExc_TypeError "an integer is required" s)
      end
  | None =>
      (ULONG_MAX, PyErr_SetString PyExc_SystemError
                    "bad argument to internal function" s)
  end.

(** [PyLong_AsLongLong]: as [PyLong_AsLong], for [long long] (and like it
    stated for integers and booleans). *)
Definition PyLong_AsLongLong (p : Z) (s : State Obj) : Z * State Obj :=
  match heap s !! p with
  | Some o =>
      match ob_val o with
      | V_Long z =>
          if (LLONG_MIN <=? z) && (z <=? LLONG_MAX) then (z, s)
          else (-1, PyErr_SetString PyExc_OverflowError
                      "Python int too large to convert to C long long" s)
      | V_Bool b => (Z.b2z b, s)
      | _ => (-1, PyErr_SetString PyExc_TypeError "an integer is required" s)
      end
  | None => (-1, PyErr_SetString PyExc_SystemError "bad argument to internal function" s)
  end.

(** [PyLong_AsUnsignedLongLong]: as [PyLong_AsUnsignedLong], for
    [unsigned long long]. *)
Definition PyLong_AsUnsignedLongLong (p : Z) (s : State Obj) : Z * State Obj :=
  match heap s !! p with
  | Some o =>
      match ob_val o with
      | V_Long z =>
          if (0 <=? z) && (z <=? ULLONG_MAX) then (z, s)
          else if z <? 0 then
            (ULLONG_MAX, PyErr_SetString PyExc_OverflowError
                           "can't convert negative value to unsigned int" s)
          else
            (ULLONG_MAX, PyErr_SetString PyExc_OverflowError
                           "Python int too large to convert to C unsigned long long" s)
      | V_Bool b => (Z.b2z b, s)
      | _ => (ULLONG_MAX, PyErr_SetString PyExc_TypeError "an integer is required" s)
      end
  | None =>
      (ULLONG_MAX, PyErr_SetString PyExc_SystemError
                     "bad argument to internal function" s)
  end.

End MoreIntegers.

Module Number.
Section Caster.
Context {Obj : Type}.

(** The macro's parameters: the conversions [(type)] and [(py_type)], and
    the host functions [from_type] and [to_pytype]. *)
Variable to_type : Z -> Z.
Variable to_py_type : Z -> Z.
Variable from_type : Z -> State Obj -> Z * State Obj.
Variable to_pytype : Z -> State Obj -> Z * State Obj.

(** The member [value]; a number not yet loaded reads as 0 here. *)
Record type_caster := mk_type_caster { value : Z }.

Definition new : type_caster := mk_type_caster 0.

Definition load (src : Z) (convert : bool) (self : type_caster) (s : State Obj)
    : bool * type_caster * State Obj :=
  let '(x, s1) := from_type src s in
  let self1 := mk_type_caster (to_type x) in
  if (value self1 =? to_type (-1)) && PyErr_Occurred s1 then
    (false, self1, PyErr_Clear s1)
  else (true, self1, s1).

Definition cast (src : Z) (policy : return_value_policy) (parent : Z)
    (s : State Obj) : result Z * State Obj :=
  let '(p, s1) := to_pytype (to_py_type src) s in (Returned p, s1).

Definition caster : TypeCaster Obj type_caster Z :=
  {| caster_new := new; caster_load := load; caster_get := value;
     caster_cast := cast |}.

End Caster.
End Number.

(** [PYBIND_TYPE_CASTER_NUMBER(uint32_t, unsigned long,
    PyLong_AsUnsignedLong, PyLong_FromUnsignedLong)] *)
Definition uint32_t_caster {Obj : Type} : TypeCaster Obj Number.type_caster Z :=
  Number.caster to_uint32 to_uint64 PyLong_AsUnsignedLong PyLong_FromUnsignedLong.

(** [PYBIND_TYPE_CASTER_NUMBER(int64_t, PY_LONG_LONG, PyLong_AsLongLong,
    PyLong_FromLongLong)] *)
Definition int64_t_caster {Obj : Type} : TypeCaster Obj Number.type_caster Z :=
  Number.caster to_int64 to_int64 PyLong_AsLongLong PyLong_FromLongLong.

(** [PYBIND_TYPE_CASTER_NUMBER(uint64_t, unsigned PY_LONG_LONG,
    PyLong_AsUnsignedLongLong, PyLong_FromUnsignedLongLong)] *)
Definition uint64_t_caster {Obj : Type} : TypeCaster Obj Number.type_caster Z :=
  Number.caster to_uint64 to_uint64 PyLong_AsUnsignedLongLong
    PyLong_FromUnsignedLongLong.

(** ** Further specification-side notions *)

(** The integers of which the host keeps one shared object each: converting
    such a value hands out that object once more instead of a new one.  The
    statements below that speak of a newly made integer object are about
    the other values. *)
Definition small_int (v : Z) : Prop := -5 <= v <= 256.

(** An [int32_t] value of which the host makes a new integer object. *)
Definition unshared_int32 (v : Z) : Prop := in_int32 v /\ ~ small_int v.

Section FurtherNotions.
Context {Obj : Type}.

(** From [s] to [s'] every host object of [s] is still there with its type
    and contents; at most it gained references. *)
Definition gains_references (s s' : State Obj) : Prop :=
  forall q o, heap s !! q = Some o ->
    exists n, 0 <= n /\
      heap s' !! q = Some (mk_PyObject (ob_refcnt o + n) (ob_type o) (ob_val o)).

(** The invariant of the instance registry: every key is mapped to a
    non-null instance of the registered host type [tp] that wraps that very
    pointer. *)
Definition registry_consistent (tp : Z) (s : State Obj) : Prop :=
  forall p o, registered_instances s !! p = Some o ->
    o <> nullptr
    /\ exists i, get_instance o s = Some i /\ value i = p
                 /\ PyType_IsSubtype (Py_TYPE o s) tp s = true.

(** What [cast] keeps of the old state [s] while it works on the new instance
    [inst]: every other object up to added references, the native objects,
    the registry and the invocation log. *)
Definition kept (inst : Z) (s s' : State Obj) : Prop :=
  (forall q o, q <> inst -> heap s !! q = Some o ->
     exists n, 0 <= n /\
       heap s' !! q = Some (mk_PyObject (ob_refcnt o + n) (ob_type o) (ob_val o)))
  /\ (forall a x, native s !! a = Some x -> native s' !! a = Some x)
  /\ registered_instances s' = registered_instances s
  /\ invoked s' = invoked s.

(** A list or tuple object is complete when none of its slots is null (a
    container under construction is not); every other object is. *)
Definition complete (o : PyObject) : Prop :=
  match ob_val o with
  | V_List items | V_Tuple items => nullptr ∉ items
  | _ => True
  end.

(** [s'] has every host object of [s] unchanged, and the same error
    indicator. *)
Definition extends (s s' : State Obj) : Prop :=
  err s' = err s /\ forall q o, heap s !! q = Some o -> heap s' !! q = Some o.

(** [s'] has every complete host object of [s] unchanged. *)
Definition keeps_complete (s s' : State Obj) : Prop :=
  forall q o, heap s !! q = Some o -> complete o -> heap s' !! q = Some o.

(** A caster round-trips the native values [valid] admits, through the host
    objects described by [holds]: what holds a value is a non-null complete
    object and keeps holding it as long as complete objects are untouched;
    [cast] of a valid value yields an object that holds it and touches no
    existing object; [load] of an object that holds a value gives that value
    and changes nothing, when no host error is pending. *)
Definition round_trips {C V : Type} (E : TypeCaster Obj C V)
    (valid : V -> Prop) (holds : State Obj -> Z -> V -> Prop) : Prop :=
  (forall s p v, holds s p v ->
     p <> nullptr /\ exists o, heap s !! p = Some o /\ complete o)
  /\ (forall s s' p v, holds s p v -> keeps_complete s s' -> holds s' p v)
  /\ (forall v policy parent s, valid v ->
        exists p s', @caster_cast Obj C V E v policy parent s = (Returned p, s')
                     /\ holds s' p v /\ extends s s')
  /\ (forall p v convert c s, holds s p v -> PyErr_Occurred s = false ->
        exists c', @caster_load Obj C V E p convert c s = (true, c', s)
                   /\ @caster_get Obj C V E c' = v).

(** [s'] has every complete host object of [s] with its type and contents;
    reference counts may differ. *)
Definition keeps_contents (s s' : State Obj) : Prop :=
  forall q o, heap s !! q = Some o -> complete o ->
    exists rc, heap s' !! q = Some (mk_PyObject rc (ob_type o) (ob_val o)).

(** A caster loads back what it casts, for the native values [valid]
    admits, through the host objects described by [holds]: what holds a
    value is a non-null complete object and keeps holding it as long as
    complete objects keep their type and contents; [cast] of a valid value
    returns an object that holds it, be it a new object or an existing one
    handed out once more, sets no host error and changes existing objects
    at most by adding references; [load] of an object that holds a value
    gives that value and changes nothing, when no host error is pending. *)
Definition loads_back {C V : Type} (E : TypeCaster Obj C V)
    (valid : V -> Prop) (holds : State Obj -> Z -> V -> Prop) : Prop :=
  (forall s p v, holds s p v ->
     p <> nullptr /\ exists o, heap s !! p = Some o /\ complete o)
  /\ (forall s s' p v, holds s p v -> keeps_contents s s' -> holds s' p v)
  /\ (forall v policy parent s, valid v ->
        exists p s', @caster_cast Obj C V E v policy parent s = (Returned p, s')
                     /\ holds s' p v /\ err s' = err s
                     /\ gains_references s s')
  /\ (forall p v convert c s, holds s p v -> PyErr_Occurred s = false ->
        exists c', @caster_load Obj C V E p convert c s = (true, c', s)
                   /\ @caster_get Obj C V E c' = v).

(** A non-null integer object whose value is an [int32_t]. *)
Definition holds_int32 (s : State Obj) (p v : Z) : Prop :=
  p <> nullptr /\ in_int32 v /\ holds_long s p v.

(** A non-null list object whose items hold the elements, in order. *)
Definition holds_list {V : Type} (holds : State Obj -> Z -> V -> Prop)
    (s : State Obj) (p : Z) (vs : list V) : Prop :=
  p <> nullptr /\
  exists rc tp ps, heap s !! p = Some (mk_PyObject rc tp (V_List ps))
                   /\ Forall2 (holds s) ps vs.

(** A non-null tuple object of two items that hold the two components. *)
Definition holds_pair {V1 V2 : Type}
    (holds1 : State Obj -> Z -> V1 -> Prop) (holds2 : State Obj -> Z -> V2 -> Prop)
    (s : State Obj) (p : Z) (v : V1 * V2) : Prop :=
  p <> nullptr /\
  exists rc tp p1 p2, heap s !! p = Some (mk_PyObject rc tp (V_Tuple [p1; p2]))
                      /\ holds1 s p1 (fst v) /\ holds2 s p2 (snd v).

(** A non-null integer object whose value is in the range [valid] of a
    number type. *)
Definition holds_number (valid : Z -> Prop) (s : State Obj) (p v : Z) : Prop :=
  p <> nullptr /\ valid v /\ holds_long s p v.

(** What a number caster's [load] makes of an integer object of value [z],
    for a host conversion that accepts the values from [lo] to [hi] and a
    native type that wraps by [wrap]: a value the host conversion accepts
    loads wrapped, and the state is untouched, unless it wraps to the wrapped
    -1 while a host error is pending: then the load fails and the pending
    error is cleared; a value the host conversion refuses fails to load and
    leaves no error pending. *)
Definition loads_range (E : TypeCaster Obj Number.type_caster Z)
    (lo hi : Z) (wrap : Z -> Z) : Prop :=
  forall src convert self s o z,
    heap s !! src = Some o -> ob_val o = V_Long z ->
    (lo <= z <= hi -> PyErr_Occurred s = false \/ wrap z <> wrap (-1) ->
     @caster_load Obj _ _ E src convert self s
     = (true, Number.mk_type_caster (wrap z), s))
    /\ (lo <= z <= hi -> PyErr_Occurred s = true -> wrap z = wrap (-1) ->
        @caster_load Obj _ _ E src convert self s
        = (false, Number.mk_type_caster (wrap z), PyErr_Clear s))
    /\ (~ lo <= z <= hi ->
        @caster_load Obj _ _ E src convert self s
        = (false, Number.mk_type_caster (wrap (-1)), PyErr_Clear s)).

End FurtherNotions.

(** * Properties *)

Lemma policy_eqb_spec a b : policy_eqb a b = true <-> a = b.
Proof. destruct a, b; simpl; split; congruence. Qed.

Section GenericLoad.
Context {Obj : Type}.
Implicit Types (s : State Obj) (self : Generic.type_caster (Obj:=Obj)).

(** [load] satisfies the recursive equation of the source: the recursive
    call is [load] itself with [convert] off. *)
Lemma load_unfold src convert self s :
  Generic.load src convert self s =
  Generic.load_body (fun p => Generic.load p false) src convert self s.
Proof. reflexivity. Qed.

(** With conversion disabled [load] is the direct type test: no conversion
    is called and the state is not touched. *)
Lemma load_no_convert_eq src self s :
  Generic.load src false self s =
  match Generic.typeinfo self with
  | Some ti =>
      if negb (src =? nullptr) && PyType_IsSubtype (Py_TYPE src s) (type ti) s
      then (true, Generic.with_value (inst_value src s) self, s)
      else (false, self, s)
  | None => (false, self, s)
  end.
Proof.
  unfold Generic.load, Generic.load_body.
  destruct (Generic.typeinfo self) as [ti|]; [|reflexivity].
  destruct (src =? nullptr); simpl; [reflexivity|].
  destruct (PyType_IsSubtype _ _ _); reflexivity.
Qed.

Lemma try_conversions_fail src tp convs self s self' s' :
  conversions_fail src tp convs self s self' s' ->
  Generic.try_conversions Generic.load_no_convert src tp convs self s
  = (false, self', s').
Proof.
  induction 1 as [|converter rest self s r s1 self2 s3 self' s' Hc Hl _ IH];
    simpl; [reflexivity|].
  rewrite Hc. change (Generic.load_no_convert ?p ?c ?t) with (Generic.load p false c t).
  simpl. rewrite Hl. exact IH.
Qed.

Lemma try_conversions_app_fail src tp pre post self s self1 s1 :
  conversions_fail src tp pre self s self1 s1 ->
  Generic.try_conversions Generic.load_no_convert src tp (pre ++ post) self s
  = Generic.try_conversions Generic.load_no_convert src tp post self1 s1.
Proof.
  induction 1 as [|converter rest self s r s1 self2 s3 self' s' Hc Hl _ IH];
    simpl; [reflexivity|].
  rewrite Hc. change (Generic.load_no_convert ?p ?c ?t) with (Generic.load p false c t).
  simpl. rewrite Hl. exact IH.
Qed.

(** The search always ends in one of the two ways. *)
Lemma try_conversions_outcome src tp convs self s :
  (exists self' s', conversions_fail src tp convs self s self' s') \/
  (exists pre converter post self1 s1 r s2 self3 s3,
      convs = pre ++ converter :: post /\
      conversions_fail src tp pre self s self1 s1 /\
      converter src tp s1 = (r, s2) /\
      Generic.load r false (Generic.with_temp r self1)
        (Py_XDECREF (Generic.temp self1) s2) = (true, self3, s3)).
Proof.
  revert self s. induction convs as [|converter rest IH]; intros self s.
  - left. eexists _, _. constructor.
  - destruct (converter src tp s) as [r s1] eqn:Hc.
    destruct (Generic.load r false (Generic.with_temp r self)
                (Py_XDECREF (Generic.temp self) s1)) as [[ok self2] s3] eqn:Hl.
    destruct ok.
    + right. exists [], converter, rest, self, s, r, s1, self2, s3.
      repeat split; try assumption. constructor.
    + destruct (IH self2 s3) as [(self' & s' & Hf)|
        (pre & c & post & self1 & s1' & r' & s2 & self3 & s3' & -> & Hf & Hc' & Hl')].
      * left. exists self', s'. econstructor; eassumption.
      * right. exists (converter :: pre), c, post, self1, s1', r', s2, self3, s3'.
        repeat split; try assumption. econstructor; eassumption.
Qed.

End GenericLoad.

Section GenericLoadClaims.
Context {Obj : Type}.
Implicit Types (s : State Obj) (self : Generic.type_caster (Obj:=Obj)).

(** C7. Load contract of the generic heap caster: [load] returns false and
    changes neither the caster nor the state when the host value is null or
    the type has no registry entry (the constructor then found no
    descriptor); when the runtime type of the host value is the registered
    type or a subtype of it, [load] returns true at once, whatever [convert]
    is, without changing the state: afterwards the caster's [value] reads the
    native pointer the instance wraps, and its descriptor and [temp] are as
    before. *)
Theorem generic_load_contract
    (registered_types : gmap string (type_info Obj)) (type_id : string)
    (src : Z) (convert : bool) self s :
  Generic.typeinfo (Generic.new registered_types type_id)
    = registered_types !! type_id
  /\ (src = nullptr \/ Generic.typeinfo self = None ->
      Generic.load src convert self s = (false, self, s))
  /\ (forall ti,
        src <> nullptr -> Generic.typeinfo self = Some ti ->
        PyType_IsSubtype (Py_TYPE src s) (type ti) s = true ->
        exists self',
          Generic.load src convert self s = (true, self', s)
          /\ self' = Generic.with_value (inst_value src s) self
          /\ Generic.value self' = inst_value src s
          /\ (forall i, get_instance src s = Some i ->
                Generic.value self' = value i)
          /\ Generic.typeinfo self' = Generic.typeinfo self
          /\ Generic.temp self' = Generic.temp self).
Proof.
  split; [reflexivity|]. split.
  - intros [-> | Hn]; unfold Generic.load, Generic.load_body.
    + destruct (Generic.typeinfo self); reflexivity.
    + rewrite Hn. reflexivity.
  - intros ti Hsrc Hti Hsub. exists (Generic.with_value (inst_value src s) self).
    split.
    { unfold Generic.load, Generic.load_body.
      rewrite Hti. apply Z.eqb_neq in Hsrc. rewrite Hsrc, Hsub. reflexivity. }
    split; [reflexivity|]. split; [reflexivity|]. split; [|split; reflexivity].
    intros i Hi. unfold inst_value. rewrite Hi. reflexivity.
Qed.

(** C2. Implicit-conversion search of [load]: for a non-null host value
    whose runtime type does not match the registered type, [load] with
    conversion disabled fails and changes nothing; with conversion enabled
    the conversions are tried in registration order, each result being
    loaded with conversion disabled (a load that consults no conversion, so
    conversions are never chained); the first conversion whose result loads
    makes [load] return true, and when all are exhausted [load] returns
    false; one of the two always happens. *)
Theorem generic_load_conversion_search (src : Z) self s (ti : type_info Obj) :
  src <> nullptr ->
  Generic.typeinfo self = Some ti ->
  PyType_IsSubtype (Py_TYPE src s) (type ti) s = false ->
  Generic.load src false self s = (false, self, s)
  /\ (forall pre converter post self1 s1 r s2 self3 s3,
        implicit_conversions ti = pre ++ converter :: post ->
        conversions_fail src (type ti) pre self s self1 s1 ->
        converter src (type ti) s1 = (r, s2) ->
        Generic.load r false (Generic.with_temp r self1)
          (Py_XDECREF (Generic.temp self1) s2) = (true, self3, s3) ->
        Generic.load src true self s = (true, self3, s3))
  /\ (forall self' s',
        conversions_fail src (type ti) (implicit_conversions ti) self s self' s' ->
        Generic.load src true self s = (false, self', s'))
  /\ ((exists self' s',
         conversions_fail src (type ti) (implicit_conversions ti) self s self' s')
      \/ (exists pre converter post self1 s1 r s2 self3 s3,
            implicit_conversions ti = pre ++ converter :: post /\
            conversions_fail src (type ti) pre self s self1 s1 /\
            converter src (type ti) s1 = (r, s2) /\
            Generic.load r false (Generic.with_temp r self1)
              (Py_XDECREF (Generic.temp self1) s2) = (true, self3, s3)))
  /\ (forall r c s',
        Generic.load r false c s' =
        match Generic.typeinfo c with
        | Some ti' =>
            if negb (r =? nullptr) && PyType_IsSubtype (Py_TYPE r s') (type ti') s'
            then (true, Generic.with_value (inst_value r s') c, s')
            else (false, c, s')
        | None => (false, c, s')
        end).
Proof.
  intros Hsrc Hti Hsub. apply Z.eqb_neq in Hsrc.
  assert (Hconv : Generic.load src true self s =
            Generic.try_conversions Generic.load_no_convert src (type ti)
              (implicit_conversions ti) self s).
  { unfold Generic.load, Generic.load_body. rewrite Hti, Hsrc, Hsub. reflexivity. }
  repeat split.
  - unfold Generic.load, Generic.load_body. rewrite Hti, Hsrc, Hsub. reflexivity.
  - intros pre converter post self1 s1 r s2 self3 s3 Hsplit Hpre Hc Hl.
    rewrite Hconv, Hsplit, (try_conversions_app_fail _ _ _ _ _ _ _ _ Hpre).
    simpl. rewrite Hc.
    change (Generic.load_no_convert ?p ?c ?t) with (Generic.load p false c t).
    simpl. rewrite Hl. reflexivity.
  - intros self' s' Hall. rewrite Hconv. apply try_conversions_fail, Hall.
  - apply try_conversions_outcome.
  - intros r c s'. apply load_no_convert_eq.
Qed.

End GenericLoadClaims.

(** ** Facts about the host model *)
Section HostFacts.
Context {Obj : Type}.
Implicit Types (s : State Obj).

Lemma fresh_addr_not_in_use s : fresh_addr s ∉ in_use s.
Proof. apply is_fresh. Qed.

Lemma fresh_addr_heap s : heap s !! fresh_addr s = None.
Proof.
  apply not_elem_of_dom. intros H. apply (fresh_addr_not_in_use s).
  unfold in_use. set_solver.
Qed.

Lemma fresh_addr_native s : native s !! fresh_addr s = None.
Proof.
  apply not_elem_of_dom. intros H. apply (fresh_addr_not_in_use s).
  unfold in_use. set_solver.
Qed.

Lemma fresh_addr_not_reserved s : fresh_addr s ∉ reserved.
Proof.
  intros H. apply (fresh_addr_not_in_use s). unfold in_use.
  apply elem_of_union_l, elem_of_union_l, elem_of_list_to_set, H.
Qed.

Lemma fresh_addr_not_null s : fresh_addr s <> nullptr.
Proof.
  intros H. apply (fresh_addr_not_reserved s). rewrite H.
  unfold reserved. apply list_elem_of_here.
Qed.

Lemma get_instance_modify_eq p f s i :
  get_instance p s = Some i ->
  get_instance p (modify_instance p f s) = Some (f i).
Proof.
  unfold get_instance, modify_instance. simpl. rewrite lookup_alter_eq.
  destruct (heap s !! p) as [[rc tp v]|]; [|discriminate].
  destruct v; try discriminate. intros [= ->]. reflexivity.
Qed.

Lemma get_instance_modify_ne p q f s :
  p <> q -> get_instance q (modify_instance p f s) = get_instance q s.
Proof.
  intros Hne. unfold get_instance, modify_instance. simpl.
  rewrite lookup_alter_ne by exact Hne. reflexivity.
Qed.

Lemma get_instance_alloc tp i s :
  get_instance (fresh_addr s) (snd (alloc_object tp (V_Instance i) s)) = Some i.
Proof. unfold get_instance, alloc_object. simpl. rewrite lookup_insert_eq. reflexivity. Qed.

Lemma get_instance_incref p q s :
  get_instance q (Py_INCREF p s) = get_instance q s.
Proof.
  unfold get_instance, Py_INCREF. simpl.
  destruct (decide (p = q)) as [->|Hne].
  - rewrite lookup_alter_eq. destruct (heap s !! q) as [[rc tp v]|]; reflexivity.
  - rewrite lookup_alter_ne by exact Hne. reflexivity.
Qed.

Lemma get_instance_xincref p q s :
  get_instance q (Py_XINCREF p s) = get_instance q s.
Proof. unfold Py_XINCREF. destruct (p =? nullptr); [reflexivity|apply get_instance_incref]. Qed.

Lemma inst_value_get p s i : get_instance p s = Some i -> inst_value p s = value i.
Proof. unfold inst_value. intros ->. reflexivity. Qed.

Lemma dom_heap_incref p s : dom (heap (Py_INCREF p s)) = dom (heap s).
Proof. unfold Py_INCREF. simpl. apply dom_alter_L. Qed.

Lemma heap_incref_eq p s o :
  heap s !! p = Some o -> heap (Py_INCREF p s) !! p = Some (incref o).
Proof. intros H. unfold Py_INCREF. simpl. rewrite lookup_alter_eq, H. reflexivity. Qed.

Lemma refcnt_incref p s o :
  heap s !! p = Some o -> Py_REFCNT p (Py_INCREF p s) = Py_REFCNT p s + 1.
Proof.
  intros H. unfold Py_REFCNT. rewrite (heap_incref_eq _ _ _ H), H. reflexivity.
Qed.

End HostFacts.

Section GenericCast.
Context {Obj : Type}.
Variable registered_types : gmap string (type_info Obj).
Variable type_id : string.
Variable copy_constructor : option (Obj -> Obj).
Implicit Types (s : State Obj).

Local Abbreviation cast := (Generic.cast registered_types type_id copy_constructor).

(** The instance [cast] builds before it applies the policy. *)
Lemma new_instance_fields tp src s :
  let '(inst, s1) := PyType_GenericAlloc tp s in
  get_instance inst
    (modify_instance inst (set_parent nullptr)
       (modify_instance inst (set_owned true)
          (modify_instance inst (set_value src) s1)))
  = Some (mk_instance src true nullptr nullptr).
Proof.
  unfold PyType_GenericAlloc. simpl.
  pose proof (get_instance_alloc tp (mk_instance nullptr false nullptr nullptr) s) as H.
  apply (get_instance_modify_eq _ (set_value src)) in H.
  apply (get_instance_modify_eq _ (set_owned true)) in H.
  apply (get_instance_modify_eq _ (set_parent nullptr)) in H.
  exact H.
Qed.

(** A cache hit: the registered object comes back with one more
    reference and nothing else changes. *)
Lemma cast_hit src policy parent s inst :
  src <> nullptr ->
  registered_instances s !! src = Some inst ->
  Generic.dont_cache src policy parent s = false ->
  cast src policy parent s = (Returned inst, Py_INCREF inst s).
Proof.
  intros Hsrc Hreg Hdc. unfold Generic.cast.
  apply Z.eqb_neq in Hsrc. rewrite Hsrc, Hdc, Hreg. reflexivity.
Qed.

(** A first cast under [reference] or [take_ownership] registers the new
    wrapper under the pointer itself. *)
Lemma cast_registers src policy parent s ti :
  policy = reference \/ policy = take_ownership ->
  src <> nullptr ->
  registered_instances s !! src = None ->
  registered_types !! type_id = Some ti ->
  exists s', cast src policy parent s = (Returned (fresh_addr s), s')
             /\ registered_instances s' !! src = Some (fresh_addr s).
Proof.
  intros Hpol Hsrc Hreg Hti. unfold Generic.cast.
  apply Z.eqb_neq in Hsrc. rewrite Hsrc.
  assert (Hdc : Generic.dont_cache src policy parent s = false)
    by (unfold Generic.dont_cache; destruct Hpol as [-> | ->]; reflexivity).
  rewrite Hdc, Hreg, Hti.
  pose proof (new_instance_fields (type ti) src s) as Hnew.
  destruct (PyType_GenericAlloc (type ti) s) as [inst s1] eqn:Halloc.
  assert (inst = fresh_addr s) as Hinst by (injection Halloc; intros; subst; reflexivity).
  set (s4 := modify_instance inst (set_parent nullptr) _) in *.
  assert (Hpolicy : exists s5 i,
            Generic.handle_return_value_policy copy_constructor inst
              (if policy_eqb policy automatic then take_ownership else policy)
              parent s4 = (Returned tt, s5)
            /\ get_instance inst s5 = Some i /\ value i = src
            /\ registered_instances s5 = registered_instances s).
  { assert (Hr : registered_instances s4 = registered_instances s)
      by (subst s4; injection Halloc; intros; subst; reflexivity).
    unfold Generic.handle_return_value_policy.
    destruct Hpol as [-> | ->]; destruct copy_constructor; simpl.
    all: eexists _, _; split; [reflexivity|].
    all: try (erewrite get_instance_modify_eq by exact Hnew).
    all: try (split; [reflexivity|split; [reflexivity|exact Hr]]).
    all: split; [exact Hnew|split; [reflexivity|exact Hr]]. }
  destruct Hpolicy as (s5 & i & -> & Hget & Hval & Hr5).
  eexists. split; [subst inst; reflexivity|].
  subst inst. simpl.
  rewrite (inst_value_get _ _ (set_holder (init_holder ti i) i)).
  2:{ erewrite get_instance_modify_eq by exact Hget. reflexivity. }
  simpl. rewrite Hval, lookup_insert_eq. reflexivity.
Qed.

(** C1. Identity preservation of [cast]: for a non-null pointer whose
    wrapper is in the instance registry, a [cast] (through either overload)
    to which the self-reference exception does not apply returns the
    registered object, adds one reference to it, allocates nothing (the domains of both heaps are
    unchanged) and leaves the instance registry unchanged (the type registry
    is read-only); hence casting a pointer twice under [reference] or
    [take_ownership] gives the same object both times, the second call only
    adding a reference to it. *)
Theorem cast_identity_preservation src policy parent s :
  (forall inst,
      src <> nullptr ->
      registered_instances s !! src = Some inst ->
      Generic.dont_cache src policy parent s = false ->
      cast src policy parent s = (Returned inst, Py_INCREF inst s)
      /\ Generic.cast_ref registered_types type_id copy_constructor
           src policy parent s = (Returned inst, Py_INCREF inst s)
      /\ (forall o, heap s !! inst = Some o ->
            heap (Py_INCREF inst s) !! inst = Some (incref o)
            /\ Py_REFCNT inst (Py_INCREF inst s) = Py_REFCNT inst s + 1)
      /\ dom (heap (Py_INCREF inst s)) = dom (heap s)
      /\ native (Py_INCREF inst s) = native s
      /\ registered_instances (Py_INCREF inst s) = registered_instances s)
  /\ (policy = reference \/ policy = take_ownership ->
      forall parent',
        let '(r1, s1) := cast src policy parent s in
        let '(r2, s2) := cast src policy parent' s1 in
        r1 = r2
        /\ (forall inst, r1 = Returned inst -> inst <> nullptr ->
              s2 = Py_INCREF inst s1)).
Proof.
  split.
  - intros inst Hsrc Hreg Hdc. split; [apply cast_hit; assumption|].
    split.
    { unfold Generic.cast_ref. apply cast_hit; try assumption.
      unfold Generic.dont_cache in *. destruct policy; simpl in *; congruence. }
    split; [|split; [apply dom_heap_incref|split; reflexivity]].
    intros o Ho. split; [apply heap_incref_eq, Ho|apply (refcnt_incref _ _ _ Ho)].
  - intros Hpol parent'.
    assert (Hdc : forall par (t : State Obj), Generic.dont_cache src policy par t = false)
      by (intros; unfold Generic.dont_cache; destruct Hpol as [-> | ->]; reflexivity).
    destruct (Z.eqb_spec src nullptr) as [->|Hsrc].
    { unfold Generic.cast. simpl. split; [reflexivity|]. intros inst [= <-] _. reflexivity. }
    destruct (registered_instances s !! src) as [inst|] eqn:Hreg.
    { rewrite (cast_hit _ _ _ _ _ Hsrc Hreg (Hdc _ _)).
      rewrite (cast_hit src policy parent' (Py_INCREF inst s) inst Hsrc Hreg (Hdc _ _)).
      split; [reflexivity|]. intros ? [= <-] _. reflexivity. }
    destruct (registered_types !! type_id) as [ti|] eqn:Hti.
    + destruct (cast_registers src policy parent s ti Hpol Hsrc Hreg Hti)
        as (s' & -> & Hreg').
      rewrite (cast_hit _ _ _ _ _ Hsrc Hreg' (Hdc _ _)).
      split; [reflexivity|]. intros ? [= <-] _. reflexivity.
    + unfold Generic.cast. apply Z.eqb_neq in Hsrc.
      rewrite Hsrc, !Hdc, Hreg, Hti. simpl. rewrite Hdc, Hreg.
      split; [reflexivity|]. intros ? [= <-] Hn. contradiction Hn. reflexivity.
Qed.

(** The state [cast] reaches on a cache miss for a registered type, just
    before it applies the policy. *)
Lemma cast_miss src policy parent s ti :
  src <> nullptr ->
  (if Generic.dont_cache src policy parent s then None
   else registered_instances s !! src) = None ->
  registered_types !! type_id = Some ti ->
  cast src policy parent s =
  let inst := fresh_addr s in
  let s4 :=
    modify_instance inst (set_parent nullptr)
      (modify_instance inst (set_owned true)
         (modify_instance inst (set_value src)
            (snd (PyType_GenericAlloc (type ti) s)))) in
  match Generic.handle_return_value_policy copy_constructor inst
          (if policy_eqb policy automatic then take_ownership else policy)
          parent s4 with
  | (Threw e, s5) => (Threw e, s5)
  | (Returned _, s5) =>
      let s6 := modify_instance inst
                  (fun i => set_holder (init_holder ti i) i) s5 in
      (Returned inst,
       if Generic.dont_cache src policy parent s then s6
       else set_registered_instances
              (<[inst_value inst s6 := inst]> (registered_instances s6)) s6)
  end.
Proof.
  intros Hsrc Hmiss Hti. unfold Generic.cast.
  apply Z.eqb_neq in Hsrc. rewrite Hsrc, Hmiss, Hti. reflexivity.
Qed.

End GenericCast.

Section CopyPolicy.
Context {Obj : Type}.
Variable registered_types : gmap string (type_info Obj).
Variable type_id : string.
Implicit Types (s : State Obj).

(** C5 (amended). Copy policy on a type that cannot be copied: policy
    application under [copy] always throws [cast_error]; so a [cast] under
    [copy] (or a by-reference cast under [automatic], which resolves to
    [copy]) of a non-null pointer that is not yet in the instance registry
    raises an error: when the type is registered [cast_error] is thrown
    (not returned as null) and nothing is registered; when it is not, the
    unregistered-type error is set and null is returned. *)
Theorem cast_copy_noncopyable_throws src parent s :
  src <> nullptr ->
  registered_instances s !! src = None ->
  let e := mk_cast_error "return_value_policy = copy, but the object is non-copyable!" in
  (forall inst par (t : State Obj),
      Generic.handle_return_value_policy None inst copy par t = (Threw e, t))
  /\ match registered_types !! type_id with
     | Some ti =>
         exists s',
           Generic.cast registered_types type_id None src copy parent s = (Threw e, s')
           /\ Generic.cast_ref registered_types type_id None src automatic parent s
              = (Threw e, s')
           /\ Generic.cast_ref registered_types type_id None src copy parent s
              = (Threw e, s')
           /\ registered_instances s' = registered_instances s
           /\ err s' = err s
     | None =>
         Generic.cast registered_types type_id None src copy parent s
         = (Returned nullptr,
            PyErr_SetString PyExc_TypeError ("Unregistered type : " +:+ type_id) s)
     end.
Proof.
  intros Hsrc Hreg e. split; [reflexivity|].
  destruct (registered_types !! type_id) as [ti|] eqn:Hti.
  - unfold Generic.cast_ref. simpl policy_eqb. cbv iota.
    rewrite (cast_miss registered_types type_id None src copy parent s ti Hsrc)
      by (simpl; assumption || exact Hti).
    simpl. eexists. repeat split; reflexivity.
  - unfold Generic.cast. apply Z.eqb_neq in Hsrc.
    rewrite Hsrc, Hreg, Hti. reflexivity.
Qed.

(** C8 (amended). Copy independence: a [cast] under [copy] of a non-null
    pointer to a live copy-constructible object, when the pointer is not yet
    in the instance registry and the type is registered, returns a newly
    allocated wrapper that owns a newly allocated copy: the wrapped pointer
    differs from the original, the copy holds the copy-constructed value, the
    original is untouched, and assigning to the original afterwards does not
    change what the wrapper wraps. *)
Theorem cast_copy_independent (copy_T : Obj -> Obj) src parent s ti v :
  src <> nullptr ->
  registered_instances s !! src = None ->
  registered_types !! type_id = Some ti ->
  native s !! src = Some v ->
  exists inst q s',
    Generic.cast registered_types type_id (Some copy_T) src copy parent s
      = (Returned inst, s')
    /\ inst <> nullptr /\ heap s !! inst = None
    /\ (exists i, get_instance inst s' = Some i /\ value i = q /\ owned i = true)
    /\ q <> src /\ native s !! q = None
    /\ wrapped_value inst s' = Some (copy_T v)
    /\ native s' !! src = Some v
    /\ registered_instances s' !! q = Some inst
    /\ forall v', wrapped_value inst (native_store src v' s') = Some (copy_T v).
Proof.
  intros Hsrc Hreg Hti Hv.
  rewrite (cast_miss registered_types type_id (Some copy_T) src copy parent s ti Hsrc)
    by (simpl; assumption || exact Hti).
  pose proof (new_instance_fields (type ti) src s) as Hnew.
  unfold PyType_GenericAlloc, alloc_object in Hnew |- *.
  cbv zeta. cbn [snd fst policy_eqb].
  set (inst := fresh_addr s) in *.
  set (s4 := modify_instance inst (set_parent nullptr) _) in *.
  assert (Hn4 : native s4 = native s) by reflexivity.
  unfold Generic.handle_return_value_policy, Generic.handle_return_value_policy_copyable.
  rewrite (inst_value_get _ _ _ Hnew). cbn [value].
  rewrite Hn4, Hv. cbn [fmap option_fmap option_map].
  unfold native_new. set (q := fresh_addr s4).
  set (s5 := set_native _ s4).
  assert (Hq_src : q <> src).
  { intros Heq. pose proof (fresh_addr_native s4) as Hf. fold q in Hf.
    rewrite Heq, Hn4, Hv in Hf. discriminate. }
  assert (Hq_none : native s !! q = None).
  { rewrite <- Hn4. apply fresh_addr_native. }
  assert (Hget5 : get_instance inst (modify_instance inst (set_value q) s5)
                  = Some (mk_instance q true nullptr nullptr)).
  { apply (get_instance_modify_eq inst (set_value q) s5
             (mk_instance src true nullptr nullptr)). exact Hnew. }
  set (s5' := modify_instance inst (set_value q) s5) in *.
  set (hold := fun i : instance => set_holder (init_holder ti i) i).
  assert (Hget6 : get_instance inst (modify_instance inst hold s5')
                  = Some (hold (mk_instance q true nullptr nullptr)))
    by (apply get_instance_modify_eq, Hget5).
  set (s6 := modify_instance inst hold s5') in *.
  assert (Hval6 : inst_value inst s6 = q)
    by (rewrite (inst_value_get _ _ _ Hget6); reflexivity).
  assert (Hn6 : native s6 = <[q := copy_T v]> (native s)).
  { subst s6 s5' s5. reflexivity. }
  exists inst, q. eexists. split; [reflexivity|].
  split; [apply fresh_addr_not_null|]. split; [apply fresh_addr_heap|].
  split.
  { eexists. split; [exact Hget6|]. split; reflexivity. }
  split; [exact Hq_src|]. split; [exact Hq_none|].
  split.
  { unfold wrapped_value. simpl. change (inst_value inst _) with (inst_value inst s6) at 1.
    rewrite Hval6. change (native s6 !! q = Some (copy_T v)).
    rewrite Hn6. apply lookup_insert_eq. }
  split.
  { change (native s6 !! src = Some v). rewrite Hn6, lookup_insert_ne by exact Hq_src.
    exact Hv. }
  split.
  { simpl. rewrite Hval6. apply lookup_insert_eq. }
  intros v'. unfold wrapped_value, native_store. simpl.
  change (inst_value inst _) with (inst_value inst s6) at 1.
  rewrite Hval6. change (<[src := v']> (native s6) !! q = Some (copy_T v)).
  rewrite lookup_insert_ne by (intros E; apply Hq_src; symmetry; exact E).
  rewrite Hn6. apply lookup_insert_eq.
Qed.

End CopyPolicy.

Section CharCaster.
Context {Obj : Type}.
Implicit Types (s : State Obj).

(** C9 (amended). Character caster: for a host string, [load] succeeds
    exactly when the string can be encoded as UTF-8, whatever its length;
    the caster then points to the UTF-8 bytes and the state is unchanged,
    and the native character is the first of these bytes (the terminating
    NUL for the empty string).  For a one-element string whose element is
    below 128 that byte is the element.  A string that cannot be encoded is
    a load failure with the error indicator cleared. *)
Theorem char_load_contract (src : Z) (convert : bool) (self : Char.type_caster)
    s o cps :
  heap s !! src = Some o ->
  ob_val o = V_Unicode cps ->
  (forall bytes, utf8_encode cps = Some bytes ->
      Char.load src convert self s = (true, Char.mk_type_caster (Some bytes), s)
      /\ Char.to_char (Char.mk_type_caster (Some bytes)) = hd 0 bytes)
  /\ (utf8_encode cps = None ->
      Char.load src convert self s = (false, self, PyErr_Clear s))
  /\ (fst (fst (Char.load src convert self s)) = true
      <-> utf8_encode cps <> None)
  /\ (forall c, cps = [c] -> 0 <= c < 128 ->
      exists self', Char.load src convert self s = (true, self', s)
                    /\ Char.to_char self' = c).
Proof.
  intros Ho Hval. destruct o as [rc tp v]. simpl in Hval. subst v.
  assert (Hload : Char.load src convert self s =
            match utf8_encode cps with
            | Some bytes => (true, Char.mk_type_caster (Some bytes), s)
            | None => (false, self, PyErr_Clear s)
            end).
  { unfold Char.load, PyUnicode_AsUTF8. rewrite Ho.
    destruct (utf8_encode cps); reflexivity. }
  split; [|split; [|split]].
  - intros bytes Hb. split; [rewrite Hload, Hb; reflexivity|].
    destruct bytes; reflexivity.
  - intros Hn. rewrite Hload, Hn. reflexivity.
  - rewrite Hload. destruct (utf8_encode cps); simpl; split; congruence.
  - intros c -> Hc.
    assert (He : utf8_encode [c] = Some [c]).
    { simpl. unfold utf8_encode_cp.
      destruct (Z.ltb_spec c 0); [lia|]. destruct (Z.ltb_spec c 128); [|lia].
      reflexivity. }
    rewrite Hload, He. eexists. split; reflexivity.
Qed.

End CharCaster.

Section TupleCaster.
Context {Obj : Type}.
Implicit Types (s : State Obj) (value : list (Tuple.element (Obj:=Obj))).

Lemma load_elements_attempted src convert value : forall index s,
  exists results value' s',
    Tuple.load_elements src convert index value s = (results, value', s')
    /\ elements_attempted src convert index value s results value' s'
    /\ length results = length value.
Proof.
  induction value as [|[C V caster conv] rest IH]; intros index s; simpl.
  - eexists _, _, _. split; [reflexivity|]. split; [constructor|reflexivity].
  - destruct (PyTuple_GetItem src index s) as [item s1] eqn:Hitem.
    destruct (caster_load item convert conv s1) as [[r conv1] s2] eqn:Hload.
    destruct (IH (index + 1) s2) as (results & rest1 & s3 & -> & Hatt & Hlen).
    eexists _, _, _. split; [reflexivity|].
    split; [econstructor; eassumption|]. simpl. rewrite Hlen. reflexivity.
Qed.

Lemma check_results_all (results : list bool) :
  Tuple.check_results results = true <-> Forall (fun r => r = true) results.
Proof.
  induction results as [|r rest IH]; simpl.
  - split; [constructor|reflexivity].
  - destruct r; simpl.
    + rewrite IH. split; [intros; constructor; auto|inversion 1; assumption].
    + split; [discriminate|inversion 1; discriminate].
Qed.

(** C10. Fixed-arity tuple load: a host value that is not a tuple, or is a
    tuple of another arity, makes [load] return false before any element
    caster is used (casters and state unchanged); for a tuple of the expected
    arity every element caster loads the item at its position, in order and
    whatever the earlier loads returned, and [load] returns true exactly when
    every one of these loads returned true. *)
Theorem tuple_load_exhaustive (src : Z) (convert : bool)
    (self : Tuple.type_caster (Obj:=Obj)) s :
  (PyTuple_Check src s = false \/ PyTuple_Size src s <> Tuple.size self ->
   Tuple.load src convert self s = (false, self, s))
  /\ (PyTuple_Check src s = true -> PyTuple_Size src s = Tuple.size self ->
      exists results value' s',
        elements_attempted src convert 0 self s results value' s'
        /\ length results = length self
        /\ Tuple.load src convert self s
           = (Tuple.check_results results, value', s')
        /\ (Tuple.check_results results = true
            <-> Forall (fun r => r = true) results)).
Proof.
  split.
  - intros [Hc | Hn]; unfold Tuple.load.
    + rewrite Hc. reflexivity.
    + destruct (PyTuple_Check src s); [|reflexivity]. simpl.
      apply Z.eqb_neq in Hn. rewrite Hn. reflexivity.
  - intros Hc Hsize. unfold Tuple.load. rewrite Hc. simpl.
    apply Z.eqb_eq in Hsize. rewrite Hsize. simpl.
    destruct (load_elements_attempted src convert self 0 s)
      as (results & value' & s' & -> & Hatt & Hlen).
    exists results, value', s'. repeat split; try assumption.
    all: apply check_results_all.
Qed.

End TupleCaster.

Section VectorLoad.
Context {Obj C V : Type} `{value_conv : TypeCaster Obj C V}.
Implicit Types (s : State Obj) (vals : list V).

Lemma load_loop_prefix src convert k s vals s1 :
  elements_loaded src convert k s vals s1 ->
  forall n,
    Vector.load_loop src convert (seq 0 (k + n)) [] s
    = Vector.load_loop src convert (seq k n) vals s1.
Proof.
  induction 1 as [s|k s vals s1 item s2 conv s3 _ IH Hitem Hload]; intros n.
  - reflexivity.
  - replace (S k + n)%nat with (k + S n)%nat by lia.
    rewrite IH. simpl. rewrite Hitem, Hload. reflexivity.
Qed.

(** C3 (amended). Sequence load stops at the first failure: [load] returns
    false, touching neither the caster nor the state, when the host value is
    not a list; when the elements before position [k] loaded and the element
    at position [k] fails to load, [load] returns false at once, in the
    state that failing element load left (no later element is visited), and
    the caster's vector is then exactly the elements loaded so far, whatever
    it held before; the conversion of the host value to a native vector,
    [cast_to_native], throws and delivers no vector. *)
Theorem vector_load_all_or_nothing (src : Z) (convert : bool)
    (self : Vector.type_caster) s :
  (PyList_Check src s = false ->
   Vector.load src convert self s = (false, self, s)
   /\ cast_to_native (H:=Vector.caster) src s
      = (Threw (mk_cast_error "Unable to cast Python object to C++ type"), s))
  /\ (forall k vals s1 item s2 conv s3,
        PyList_Check src s = true ->
        (k < length (list_items src s))%nat ->
        elements_loaded src convert k s vals s1 ->
        PyList_GetItem src (Z.of_nat k) s1 = (item, s2) ->
        caster_load item convert caster_new s2 = (false, conv, s3) ->
        Vector.load src convert self s = (false, Vector.mk_type_caster vals, s3)
        /\ (convert = true ->
            cast_to_native (H:=Vector.caster) src s
            = (Threw (mk_cast_error "Unable to cast Python object to C++ type"), s3))).
Proof.
  split.
  - intros Hc. unfold cast_to_native. simpl. unfold Vector.load. rewrite Hc.
    split; reflexivity.
  - intros k vals s1 item s2 conv s3 Hc Hk Hpre Hitem Hfail.
    assert (Hload : forall self', Vector.load src convert self' s
                      = (false, Vector.mk_type_caster vals, s3)).
    { intros self'. unfold Vector.load. rewrite Hc. simpl.
      unfold PyList_GET_SIZE. rewrite Nat2Z.id.
      replace (length (list_items src s))
        with (k + S (length (list_items src s) - S k))%nat by lia.
      rewrite (load_loop_prefix _ _ _ _ _ _ Hpre). simpl.
      rewrite Hitem, Hfail. reflexivity. }
    split; [apply Hload|].
    intros ->. unfold cast_to_native. simpl. rewrite Hload. reflexivity.
Qed.

End VectorLoad.

Section Int32RoundTrip.
Context {Obj : Type}.
Implicit Types (s : State Obj).

Lemma to_int32_id v : in_int32 v -> to_int32 v = v.
Proof.
  unfold in_int32, to_int32. intros Hv.
  rewrite Z.mod_small by lia. lia.
Qed.

Lemma int32_load_long p v convert self s :
  holds_long s p v -> in_int32 v -> PyErr_Occurred s = false ->
  Int32.load p convert self s = (true, Int32.mk_type_caster v, s).
Proof.
  intros (rc & tp & Hp) Hv Herr. unfold Int32.load, PyLong_AsLong.
  rewrite Hp. simpl.
  assert (Hrange : (LONG_MIN <=? v) && (v <=? LONG_MAX) = true).
  { unfold in_int32 in Hv. unfold LONG_MIN, LONG_MAX, LONG_BIT.
    apply andb_true_intro. split; apply Z.leb_le; lia. }
  rewrite Hrange. simpl. rewrite Herr, andb_false_r, (to_int32_id v Hv).
  reflexivity.
Qed.

Lemma list_object_items l s rc tp items :
  heap s !! l = Some (mk_PyObject rc tp (V_List items)) ->
  PyList_Check l s = true /\ list_items l s = items.
Proof. intros H. unfold PyList_Check, list_items. rewrite H. split; reflexivity. Qed.

(** Filling a null slot of a list. *)
Lemma PyList_SetItem_slot l i v s rc tp items :
  heap s !! l = Some (mk_PyObject rc tp (V_List items)) ->
  items !! i = Some nullptr ->
  exists s2,
    PyList_SetItem l (Z.of_nat i) v s = (0, s2)
    /\ heap s2 !! l = Some (mk_PyObject rc tp (V_List (<[i := v]> items)))
    /\ (forall q, q <> l -> heap s2 !! q = heap s !! q)
    /\ err s2 = err s.
Proof.
  intros Hl Hi. destruct (list_object_items _ _ _ _ _ Hl) as [Hc Hitems].
  unfold PyList_SetItem, PyList_GET_SIZE. rewrite Hc, Hitems.
  pose proof (lookup_lt_Some _ _ _ Hi) as Hlt.
  assert (Hr : (0 <=? Z.of_nat i) && (Z.of_nat i <? Z.of_nat (length items)) = true).
  { apply andb_true_intro. split; [apply Z.leb_le|apply Z.ltb_lt]; lia. }
  rewrite Hr, Nat2Z.id, Hi. simpl.
  eexists. split; [reflexivity|]. simpl. split; [|split; [|reflexivity]].
  - rewrite lookup_alter_eq, Hl. reflexivity.
  - intros q Hq. rewrite lookup_alter_ne by (intros E; apply Hq; symmetry; exact E).
    reflexivity.
Qed.

End Int32RoundTrip.

Section HandleCall.
Context {Obj : Type}.
Variable host_call : Z -> Z -> State Obj -> Z * State Obj.
Implicit Types (s : State Obj) (args : list Z).

Lemma any_failed_true args : Handle.any_failed args true = true.
Proof. induction args as [|r rest IH]; simpl; [reflexivity|]. destruct (r =? nullptr); exact IH. Qed.





(** An argument cast that throws leaves [call] at once: nothing produced
    for the earlier arguments is released. *)
Lemma call_throwing_argument (m_ptr : Z) (args_ : list Handle.argument) s e s1 :
  Handle.cast_arguments args_ s = (Threw e, s1) ->
  Handle.call host_call m_ptr args_ s = (Threw e, s1).
Proof. intros Hcast. unfold Handle.call. rewrite Hcast. reflexivity. Qed.

End HandleCall.

(** * Concrete instances *)

(** Witness of C7: a null host value fails to load; the [Foo] instance at 20 loads at once and binds the pointer 50 it wraps. *)
Lemma generic_load_contract_witness :
  let s := Ex.world [Ex.wrapper] [] in
  let self := Generic.new Ex.types "Foo" in
  Generic.load nullptr true self s = (false, self, s)
  /\ Generic.value self = nullptr
  /\ fst (fst (Generic.load 20 false self s)) = true
  /\ Generic.value (snd (fst (Generic.load 20 false self s))) = 50
  /\ snd (Generic.load 20 false self s) = s.
Proof.
  intros s self.
  pose proof (generic_load_contract Ex.types "Foo" nullptr true self s) as Hnull.
  pose proof (generic_load_contract Ex.types "Foo" 20 false self s) as Hinst.
  split; [apply (proj1 (proj2 Hnull)); left; reflexivity|].
  split; [reflexivity|].
  destruct (proj2 (proj2 Hinst) Ex.Foo_info)
    as (self' & Hload & _ & _ & Hvalue & _);
    [unfold nullptr; lia|reflexivity|vm_compute; reflexivity|].
  rewrite Hload. cbn [fst snd]. split; [reflexivity|]. split; [|reflexivity].
  apply (Hvalue (mk_instance 50 false nullptr 50)). reflexivity.
Defined.

(** Witness of C2: the integer at 10 is not a [Foo]; with conversion disabled
    its load fails, with conversion enabled the conversion [from_int] makes
    it succeed. *)
Lemma generic_load_conversion_search_witness :
  let s := Ex.world [Ex.five] [] in
  let self := Generic.new Ex.types "Foo" in
  (10 <> nullptr
   /\ Generic.typeinfo self = Some Ex.Foo_info
   /\ PyType_IsSubtype (Py_TYPE 10 s) (type Ex.Foo_info) s = false)
  /\ Generic.load 10 false self s = (false, self, s)
  /\ fst (fst (Generic.load 10 true self s)) = true
  /\ Generic.value (snd (fst (Generic.load 10 true self s))) = 50.
Proof.
  intros s self.
  assert (H1 : 10 <> nullptr) by (unfold nullptr; lia).
  assert (H2 : Generic.typeinfo self = Some Ex.Foo_info) by reflexivity.
  assert (H3 : PyType_IsSubtype (Py_TYPE 10 s) (type Ex.Foo_info) s = false)
    by (vm_compute; reflexivity).
  pose proof (generic_load_conversion_search 10 self s Ex.Foo_info H1 H2 H3)
    as (Hoff & Hfirst & _).
  split; [auto|]. split; [exact Hoff|].
  set (conv := Ex.from_int 10 (type Ex.Foo_info) s).
  set (loaded := Generic.load (fst conv) false (Generic.with_temp (fst conv) self)
                   (Py_XDECREF (Generic.temp self) (snd conv))).
  assert (Hconv : Ex.from_int 10 (type Ex.Foo_info) s = (fst conv, snd conv))
    by (symmetry; apply surjective_pairing).
  assert (Hok : fst (fst loaded) = true) by (vm_compute; reflexivity).
  assert (Hval : Generic.value (snd (fst loaded)) = 50) by (vm_compute; reflexivity).
  assert (Hload : loaded = (true, snd (fst loaded), snd loaded)).
  { rewrite <- Hok. destruct loaded as [[ok c] t]. reflexivity. }
  rewrite (Hfirst [] Ex.from_int [] self s (fst conv) (snd conv)
             (snd (fst loaded)) (snd loaded) eq_refl
             (conversions_fail_nil _ _ _ _) Hconv Hload).
  split; [reflexivity|exact Hval].
Defined.

(** Witness of C1: the pointer 50 is registered with the wrapper at 20; casting
    it returns that wrapper with one more reference, again on a second cast. *)
Lemma cast_identity_preservation_witness :
  let s := Ex.world [Ex.wrapper] [(50, 20)] in
  Generic.cast Ex.types "Foo" None 50 reference nullptr s
  = (Returned 20, Py_INCREF 20 s)
  /\ Py_REFCNT 20 (Py_INCREF 20 s) = 2
  /\ fst (Generic.cast Ex.types "Foo" None 50 take_ownership nullptr
            (Py_INCREF 20 s)) = Returned 20.
Proof.
  intros s.
  destruct (cast_identity_preservation Ex.types "Foo" None 50 reference nullptr s)
    as [Hhit _].
  destruct (Hhit 20) as (Hcast & _ & Hcount & _);
    [unfold nullptr; lia|reflexivity|reflexivity|].
  split; [exact Hcast|]. split.
  - destruct (Hcount (snd Ex.wrapper)) as [_ ->]; [reflexivity|reflexivity].
  - destruct (cast_identity_preservation Ex.types "Foo" None 50 take_ownership
                nullptr (Py_INCREF 20 s)) as [Hhit' _].
    destruct (Hhit' 20) as (-> & _);
      [unfold nullptr; lia|reflexivity|reflexivity|reflexivity].
Defined.

(** Counterexample to C5 as stated: a [cast] under [copy] of a pointer to a
    non-copyable object that is already in the instance registry returns the
    registered wrapper; nothing is thrown and no host error is set. *)
Lemma cast_copy_noncopyable_cached_returns :
  let s := Ex.world [Ex.wrapper] [(50, 20)] in
  Generic.cast Ex.types "Foo" None 50 copy nullptr s
  = (Returned 20, Py_INCREF 20 s)
  /\ err (Py_INCREF 20 s) = None.
Proof. vm_compute. split; reflexivity. Qed.

(** Witness of C5 (amended). *)
Lemma cast_copy_noncopyable_throws_witness :
  let s := Ex.world [] [] in
  (50 <> nullptr /\ registered_instances s !! 50 = None)
  /\ fst (Generic.cast Ex.types "Foo" None 50 copy nullptr s)
     = Threw (mk_cast_error "return_value_policy = copy, but the object is non-copyable!")
  /\ fst (Generic.cast ∅ "Foo" None 50 copy nullptr s) = Returned nullptr.
Proof.
  intros s.
  assert (H1 : 50 <> nullptr) by (unfold nullptr; lia).
  assert (H2 : registered_instances s !! 50 = None) by reflexivity.
  split; [auto|]. split.
  - destruct (cast_copy_noncopyable_throws Ex.types "Foo" 50 nullptr s H1 H2)
      as (_ & s' & -> & _).
    reflexivity.
  - destruct (cast_copy_noncopyable_throws ∅ "Foo" 50 nullptr s H1 H2)
      as (_ & ->).
    reflexivity.
Defined.

(** Counterexample to C8 as stated: a [cast] under [copy] of a pointer that is
    already in the instance registry returns the registered wrapper, which
    wraps the original itself; assigning 8 to the original changes the value
    the wrapper wraps from 7 to 8. *)
Lemma cast_copy_cached_aliases_original :
  let s := Ex.world [Ex.wrapper] [(50, 20)] in
  let '(r, s') := Generic.cast Ex.types "Foo" (Some (fun x => x)) 50 copy nullptr s in
  r = Returned 20
  /\ inst_value 20 s' = 50
  /\ wrapped_value 20 s' = Some 7
  /\ wrapped_value 20 (native_store 50 8 s') = Some 8.
Proof. vm_compute. repeat split; reflexivity. Qed.

(** Witness of C8 (amended). *)
Lemma cast_copy_independent_witness :
  let s := Ex.world [] [] in
  (50 <> nullptr
   /\ registered_instances s !! 50 = None
   /\ Ex.types !! "Foo" = Some Ex.Foo_info
   /\ native s !! 50 = Some 7)
  /\ exists inst q s',
      Generic.cast Ex.types "Foo" (Some (fun x => x)) 50 copy nullptr s
      = (Returned inst, s')
      /\ q <> 50
      /\ wrapped_value inst s' = Some 7
      /\ wrapped_value inst (native_store 50 8 s') = Some 7.
Proof.
  intros s.
  assert (H1 : 50 <> nullptr) by (unfold nullptr; lia).
  assert (H2 : registered_instances s !! 50 = None) by reflexivity.
  assert (H3 : Ex.types !! "Foo" = Some Ex.Foo_info) by reflexivity.
  assert (H4 : native s !! 50 = Some 7) by reflexivity.
  split; [auto|].
  destruct (cast_copy_independent Ex.types "Foo" (fun x => x) 50 nullptr s
              Ex.Foo_info 7 H1 H2 H3 H4)
    as (inst & q & s' & Hc & _ & _ & _ & Hq & _ & Hw & _ & _ & Hind).
  exists inst, q, s'. auto.
Defined.

(** Counterexample to C9 as stated: the two-element string ["ab"] loads
    successfully, and the native character is its first byte. *)
Lemma char_load_accepts_two_characters :
  let s := Ex.world [(12, mk_PyObject 1 PyUnicode_Type (V_Unicode [97; 98]))] [] in
  length [97; 98] <> 1%nat
  /\ Char.load 12 true Char.new s = (true, Char.mk_type_caster (Some [97; 98]), s)
  /\ Char.to_char (Char.mk_type_caster (Some [97; 98])) = 97.
Proof. vm_compute. repeat split; congruence. Qed.

(** Witness of C9 (amended): the string ["x"]. *)
Lemma char_load_contract_witness :
  let s := Ex.world [Ex.str_x] [] in
  (heap s !! 11 = Some (snd Ex.str_x)
   /\ ob_val (snd Ex.str_x) = V_Unicode [120])
  /\ exists self', Char.load 11 true Char.new s = (true, self', s)
                   /\ Char.to_char self' = 120.
Proof.
  intros s.
  assert (H1 : heap s !! 11 = Some (snd Ex.str_x)) by reflexivity.
  assert (H2 : ob_val (snd Ex.str_x) = V_Unicode [120]) by reflexivity.
  split; [auto|].
  destruct (char_load_contract 11 true Char.new s _ _ H1 H2) as (_ & _ & _ & Hone).
  apply (Hone 120); [reflexivity|lia].
Defined.

(** Counterexample to C6 as stated: the [char] sequence holding the byte 233
    casts to a host list that loads back as the byte 195 (the character
    caster casts through Latin-1 and loads through UTF-8); and the [int32_t]
    sequence [[-1]], cast while a host error is pending, does not load back at
    all. *)
Lemma vector_round_trip_fails :
  (let s := Ex.world [] [] in
   match Vector.cast (value_conv:=Char.caster) [233] automatic nullptr s with
   | (Returned p, s1) =>
       cast_to_native (H:=Vector.caster (value_conv:=Char.caster)) p s1
       = (Returned [195], s1)
   | (Threw _, _) => False
   end)
  /\ (let s := PyErr_SetString PyExc_TypeError "pending" (Ex.world [] []) in
      match Vector.cast (value_conv:=Int32.caster) [-1] automatic nullptr s with
      | (Returned p, s1) =>
          fst (cast_to_native (H:=Vector.caster (value_conv:=Int32.caster)) p s1)
          = Threw (mk_cast_error "Unable to cast Python object to C++ type")
      | (Threw _, _) => False
      end).
Proof. vm_compute. split; reflexivity. Qed.


(** Witness of C10: loading the host tuple [("x", 5)] into two [int32_t]
    casters fails, yet the second caster has loaded its element 5 although
    the first load had failed; an integer is not a tuple and is refused
    before any caster is used. *)
Lemma tuple_load_exhaustive_witness :
  let s := Ex.world Ex.mixed_tuple [] in
  let int32_elem v :=
    Tuple.mk_element (Obj:=Z) _ _ Int32.caster (Int32.mk_type_caster v) in
  let self := [int32_elem 0; int32_elem 0] in
  (PyTuple_Check 40 s = true /\ PyTuple_Size 40 s = Tuple.size self)
  /\ (exists results value' s',
         elements_attempted 40 true 0 self s results value' s'
         /\ length results = 2%nat
         /\ Tuple.load 40 true self s = (Tuple.check_results results, value', s'))
  /\ Tuple.load 40 true self s = (false, [int32_elem (-1); int32_elem 5], s)
  /\ Tuple.load 10 true self s = (false, self, s).
Proof.
  intros s int32_elem self.
  assert (H1 : PyTuple_Check 40 s = true) by reflexivity.
  assert (H2 : PyTuple_Size 40 s = Tuple.size self) by reflexivity.
  split; [auto|].
  destruct (tuple_load_exhaustive 40 true self s) as [_ Hall].
  destruct (Hall H1 H2) as (results & value' & s' & Hatt & Hlen & Hload & _).
  split; [exists results, value', s'; auto|].
  split; [reflexivity|].
  apply (proj1 (tuple_load_exhaustive 10 true self s)). left. reflexivity.
Defined.

(** Counterexample to C3 as stated: loading the host list [[1, "x", 3]]
    into a caster of vectors of [int32_t] that holds [[7; 8; 9]] fails, and
    the caster is left holding the partial result [[1]]: neither what it
    held before nor an empty vector. *)
Lemma vector_load_leaves_partial_result :
  let s := Ex.world Ex.mixed_list [] in
  let self := Vector.mk_type_caster [7; 8; 9] in
  let run := Vector.load (value_conv:=Int32.caster) 30 true self s in
  fst (fst run) = false
  /\ Vector.value (snd (fst run)) = [1]
  /\ Vector.value (snd (fst run)) <> Vector.value self
  /\ Vector.value (snd (fst run)) <> [].
Proof. vm_compute. repeat split; congruence. Qed.

(** Witness of C3 (amended): the host list [[1, "x", 3]] does not load into
    a vector of [int32_t]: [load] returns false in the second iteration,
    leaving [[1]] in the caster, and [cast_to_native] throws; a string is not
    a list and is refused. *)
Lemma vector_load_all_or_nothing_witness :
  let s := Ex.world Ex.mixed_list [] in
  Vector.load (value_conv:=Int32.caster) 30 true Vector.new s
  = (false, Vector.mk_type_caster [1], s)
  /\ cast_to_native (H:=Vector.caster (value_conv:=Int32.caster)) 30 s
     = (Threw (mk_cast_error "Unable to cast Python object to C++ type"), s)
  /\ Vector.load (value_conv:=Int32.caster) 11 true Vector.new s
     = (false, Vector.new, s).
Proof.
  intros s.
  destruct (vector_load_all_or_nothing (value_conv:=Int32.caster)
              30 true Vector.new s) as [_ Hfail].
  assert (Hpre : elements_loaded (H:=Int32.caster) 30 true 1 s [1] s).
  { apply (elements_loaded_S (H:=Int32.caster) 30 true 0 s [] s 31 s
             (Int32.mk_type_caster 1) s); [constructor|reflexivity|reflexivity]. }
  destruct (Hfail 1%nat [1] s 11 s (Int32.mk_type_caster (-1)) s) as [Hload Hnative];
    [reflexivity|vm_compute; lia|exact Hpre|reflexivity|reflexivity|].
  split; [exact Hload|]. split; [apply Hnative; reflexivity|].
  apply (proj1 (vector_load_all_or_nothing (value_conv:=Int32.caster)
                  11 true Vector.new s)). reflexivity.
Defined.

(** C4, the code at a failing input: in a call with an [int32_t] argument
    followed by a reference to a non-copyable [Foo] that has no wrapper yet,
    the cast of the second argument throws; [call] is left at once, the
    callable is not invoked, and the integer object produced for the first
    argument still holds the reference the cast gave it. *)
Lemma call_leaks_on_throwing_argument :
  let s := Ex.world [] [] in
  let args_ : list (Handle.argument (Obj:=Z)) :=
    [Int32.cast 70000; Generic.cast_ref Ex.types "Foo" None 50] in
  match Int32.cast 70000 automatic nullptr s,
        Handle.call Ex.returns_none 200 args_ s with
  | (Returned p, s1), (Threw e, s') =>
      p = 101
      /\ heap s1 !! p = Some (mk_PyObject 1 PyLong_Type (V_Long 70000))
      /\ e = mk_cast_error "return_value_policy = copy, but the object is non-copyable!"
      /\ heap s' !! p = Some (mk_PyObject 1 PyLong_Type (V_Long 70000))
      /\ Py_REFCNT p s' = 1
      /\ invoked s' = []
  | _, _ => False
  end.
Proof.
  vm_compute. repeat split; reflexivity.
Qed.


(** * Further properties *)

(** ** The generic heap caster *)
Section GenericCastFrame.
Context {Obj : Type}.
Variable registered_types : gmap string (type_info Obj).
Variable type_id : string.
Variable copy_constructor : option (Obj -> Obj).
Implicit Types (s : State Obj).

Local Abbreviation cast := (Generic.cast registered_types type_id copy_constructor).

Lemma kept_refl inst s : kept inst s s.
Proof.
  repeat split; try reflexivity; [|auto].
  intros q [rc tp v] _ Hq. exists 0. split; [lia|].
  simpl. rewrite Z.add_0_r. exact Hq.
Qed.

Lemma kept_heap_step inst s s1 s2 :
  kept inst s s1 ->
  (forall q, q <> inst -> heap s2 !! q = heap s1 !! q) ->
  native s2 = native s1 ->
  registered_instances s2 = registered_instances s1 ->
  invoked s2 = invoked s1 ->
  kept inst s s2.
Proof.
  intros (Hh & Hn & Hr & Hi) Hheap Hnat Hreg Hinv. repeat split.
  - intros q o Hq Ho. rewrite (Hheap q Hq). apply Hh; assumption.
  - intros a x Ha. rewrite Hnat. apply Hn, Ha.
  - rewrite Hreg. exact Hr.
  - rewrite Hinv. exact Hi.
Qed.

Lemma kept_modify inst f s s1 :
  kept inst s s1 -> kept inst s (modify_instance inst f s1).
Proof.
  intros H. apply (kept_heap_step inst s s1); try reflexivity; [exact H|].
  intros q Hq. unfold modify_instance. simpl.
  apply lookup_alter_ne. intros E. apply Hq. symmetry. exact E.
Qed.

Lemma kept_xincref inst p s s1 :
  kept inst s s1 -> kept inst s (Py_XINCREF p s1).
Proof.
  intros (Hh & Hn & Hr & Hi). unfold Py_XINCREF.
  destruct (p =? nullptr); [repeat split; assumption|].
  repeat split; try assumption.
  intros q o Hq Ho. destruct (Hh q o Hq Ho) as (n & Hn0 & Hq1).
  unfold Py_INCREF. simpl. destruct (decide (p = q)) as [->|Hne].
  - exists (n + 1). split; [lia|]. rewrite lookup_alter_eq, Hq1. simpl.
    unfold incref. simpl. f_equal. f_equal. lia.
  - exists n. split; [exact Hn0|]. rewrite lookup_alter_ne by exact Hne. exact Hq1.
Qed.

Lemma kept_policy inst policy parent s s4 r s5 :
  kept inst s s4 ->
  Generic.handle_return_value_policy copy_constructor inst policy parent s4 = (r, s5) ->
  kept inst s s5.
Proof.
  intros Hk. unfold Generic.handle_return_value_policy.
  assert (Hcommon : forall t,
            match policy with
            | reference => (Returned tt, modify_instance inst (set_owned false) s4)
            | reference_internal =>
                (Returned tt,
                 Py_XINCREF parent
                   (modify_instance inst (set_parent parent)
                      (modify_instance inst (set_owned false) s4)))
            | _ => (Returned tt, s4)
            end = (r, t) -> policy <> copy -> kept inst s t).
  { intros t Ht Hp. destruct policy; try congruence; injection Ht as <- <-;
      auto using kept_modify, kept_xincref. }
  destruct copy_constructor as [copy_T|].
  - unfold Generic.handle_return_value_policy_copyable.
    destruct policy; try (intros H; apply (Hcommon _ H); discriminate).
    unfold native_new. intros [= <- <-]. apply kept_modify.
    destruct Hk as (Hh & Hn & Hr & Hi). repeat split; try assumption.
    intros a x Ha. simpl. pose proof (Hn a x Ha) as Ha4.
    assert (Hne : fresh_addr s4 <> a).
    { intros E. rewrite <- E, (fresh_addr_native s4) in Ha4. discriminate. }
    rewrite lookup_partial_alter_ne by exact Hne. exact Ha4.
  - unfold Generic.handle_return_value_policy_noncopyable.
    destruct policy; try (intros H; apply (Hcommon _ H); discriminate).
    intros [= <- <-]. exact Hk.
Qed.

Lemma gains_references_incref p s : gains_references s (Py_INCREF p s).
Proof.
  intros q o Ho. unfold Py_INCREF. simpl. destruct (decide (p = q)) as [->|Hne].
  - exists 1. split; [lia|]. rewrite lookup_alter_eq, Ho. reflexivity.
  - exists 0. split; [lia|]. rewrite lookup_alter_ne by exact Hne.
    rewrite Ho, Z.add_0_r. destruct o; reflexivity.
Qed.

(** The frame of [cast]: what it leaves alone, for every pointer, policy
    and outcome. *)
Lemma cast_keeps src policy parent s r s' :
  cast src policy parent s = (r, s') ->
  gains_references s s'
  /\ (forall a x, native s !! a = Some x -> native s' !! a = Some x)
  /\ invoked s' = invoked s
  /\ (forall k, registered_instances s' !! k <> registered_instances s !! k ->
        exists inst, r = Returned inst /\ heap s !! inst = None
                     /\ inst_value inst s' = k
                     /\ registered_instances s' !! k = Some inst).
Proof.
  unfold Generic.cast.
  destruct (src =? nullptr).
  { intros [= <- <-]. split; [apply gains_references_incref|].
    repeat split; auto. intros k Hk. contradiction Hk. reflexivity. }
  destruct (if Generic.dont_cache src policy parent s then None
            else registered_instances s !! src) as [inst|].
  { intros [= <- <-]. split; [apply gains_references_incref|].
    repeat split; auto. intros k Hk. contradiction Hk. reflexivity. }
  destruct (registered_types !! type_id) as [ti|].
  2:{ intros [= <- <-]. split.
      - intros q o Ho. exists 0. split; [lia|]. simpl. rewrite Ho, Z.add_0_r.
        destruct o; reflexivity.
      - repeat split; auto. intros k Hk. contradiction Hk. reflexivity. }
  unfold PyType_GenericAlloc, alloc_object.
  set (inst := fresh_addr s). set (s1 := set_heap _ s).
  assert (Hk1 : kept inst s s1).
  { apply (kept_heap_step inst s s); try reflexivity; [apply kept_refl|].
    intros q Hq. subst s1. simpl. apply lookup_insert_ne. intros E. apply Hq.
    symmetry. exact E. }
  set (s4 := modify_instance inst (set_parent nullptr) _).
  assert (Hk4 : kept inst s s4) by (subst s4; auto using kept_modify).
  destruct (Generic.handle_return_value_policy copy_constructor inst _ parent s4)
    as [r5 s5] eqn:Hpol.
  pose proof (kept_policy _ _ _ _ _ _ _ Hk4 Hpol) as Hk5.
  assert (Hfinal : forall t, kept inst s t ->
            gains_references s t
            /\ (forall a x, native s !! a = Some x -> native t !! a = Some x)
            /\ invoked t = invoked s /\ registered_instances t = registered_instances s).
  { intros t (Hh & Hn & Hr & Hi). repeat split; try assumption.
    intros q o Ho. apply Hh; [|exact Ho]. intros E.
    pose proof (fresh_addr_heap s) as Hf. fold inst in Hf.
    rewrite E, Hf in Ho. discriminate. }
  destruct r5 as [[]|e].
  - set (s6 := modify_instance inst _ s5).
    assert (Hk6 : kept inst s s6) by (subst s6; auto using kept_modify).
    destruct (Hfinal s6 Hk6) as (Hg & Hn & Hi & Hr).
    destruct (Generic.dont_cache src policy parent s).
    + intros [= <- <-]. repeat split; try assumption.
      intros k Hk. contradiction Hk. rewrite Hr. reflexivity.
    + intros [= <- <-]. repeat split; try assumption.
      intros k Hk. simpl in Hk. exists inst.
      destruct (decide (inst_value inst s6 = k)) as [Heq|Hne].
      * split; [reflexivity|]. split; [apply fresh_addr_heap|].
        split; [exact Heq|]. simpl. rewrite Heq. apply lookup_insert_eq.
      * contradiction Hk. simpl. rewrite lookup_insert_ne by exact Hne.
        change (registered_instances s6 !! k = registered_instances s !! k).
        rewrite Hr. reflexivity.
  - intros [= <- <-]. destruct (Hfinal s5 Hk5) as (Hg & Hn & Hi & Hr).
    repeat split; try assumption.
    intros k Hk. contradiction Hk. rewrite Hr. reflexivity.
Qed.


End GenericCastFrame.

Section GenericCastWrapper.
Context {Obj : Type}.
Variable registered_types : gmap string (type_info Obj).
Variable type_id : string.
Variable copy_constructor : option (Obj -> Obj).
Implicit Types (s : State Obj).

Local Abbreviation cast := (Generic.cast registered_types type_id copy_constructor).

Lemma Py_TYPE_modify p f q s : Py_TYPE q (modify_instance p f s) = Py_TYPE q s.
Proof.
  unfold Py_TYPE, modify_instance. simpl. destruct (decide (p = q)) as [->|Hne].
  - rewrite lookup_alter_eq. destruct (heap s !! q) as [[rc tp v]|]; [|reflexivity].
    unfold update_instance. simpl. destruct v; reflexivity.
  - rewrite lookup_alter_ne by exact Hne. reflexivity.
Qed.

Lemma Py_TYPE_xincref p q s : Py_TYPE q (Py_XINCREF p s) = Py_TYPE q s.
Proof.
  unfold Py_XINCREF. destruct (p =? nullptr); [reflexivity|].
  unfold Py_TYPE, Py_INCREF. simpl. destruct (decide (p = q)) as [->|Hne].
  - rewrite lookup_alter_eq. destruct (heap s !! q); reflexivity.
  - rewrite lookup_alter_ne by exact Hne. reflexivity.
Qed.

(** The fields a policy other than [copy] leaves in the new instance. *)
Lemma policy_fields inst policy par s4 i4 :
  policy <> copy ->
  get_instance inst s4 = Some i4 ->
  exists s5,
    Generic.handle_return_value_policy copy_constructor inst policy par s4
      = (Returned tt, s5)
    /\ get_instance inst s5
       = Some (mk_instance (value i4)
                 (match policy with
                  | reference | reference_internal => false
                  | _ => owned i4
                  end)
                 (match policy with
                  | reference_internal => par
                  | _ => parent i4
                  end)
                 (holder i4))
    /\ Py_TYPE inst s5 = Py_TYPE inst s4.
Proof.
  intros Hp Hi. unfold Generic.handle_return_value_policy.
  assert (Hboth : exists s5,
    match policy with
    | reference => (Returned tt, modify_instance inst (set_owned false) s4)
    | reference_internal =>
        (Returned tt,
         Py_XINCREF par
           (modify_instance inst (set_parent par)
              (modify_instance inst (set_owned false) s4)))
    | _ => (Returned tt, s4)
    end = (Returned tt, s5)
    /\ get_instance inst s5
       = Some (mk_instance (value i4)
                 (match policy with
                  | reference | reference_internal => false
                  | _ => owned i4
                  end)
                 (match policy with
                  | reference_internal => par
                  | _ => parent i4
                  end)
                 (holder i4))
    /\ Py_TYPE inst s5 = Py_TYPE inst s4).
  { destruct policy; try congruence; eexists; (split; [reflexivity|]).
    - split; [rewrite Hi; destruct i4; reflexivity|reflexivity].
    - split; [|apply Py_TYPE_modify].
      apply (get_instance_modify_eq _ (set_owned false)) in Hi. exact Hi.
    - split; [|rewrite Py_TYPE_xincref, !Py_TYPE_modify; reflexivity].
      rewrite get_instance_xincref.
      apply (get_instance_modify_eq _ (set_owned false)) in Hi.
      apply (get_instance_modify_eq _ (set_parent par)) in Hi. exact Hi.
    - split; [rewrite Hi; destruct i4; reflexivity|reflexivity]. }
  destruct copy_constructor;
    [unfold Generic.handle_return_value_policy_copyable
    |unfold Generic.handle_return_value_policy_noncopyable];
    destruct policy; try congruence; exact Hboth.
Qed.

(** The wrapper [cast] builds on a registry miss, for the policies that do
    not copy. *)
Lemma cast_builds src policy par s ti :
  src <> nullptr ->
  (if Generic.dont_cache src policy par s then None
   else registered_instances s !! src) = None ->
  registered_types !! type_id = Some ti ->
  policy <> copy ->
  let fields :=
    mk_instance src
      (match policy with reference | reference_internal => false | _ => true end)
      (match policy with reference_internal => par | _ => nullptr end)
      nullptr in
  exists s',
    cast src policy par s = (Returned (fresh_addr s), s')
    /\ heap s !! fresh_addr s = None
    /\ get_instance (fresh_addr s) s' = Some (set_holder (init_holder ti fields) fields)
    /\ Py_TYPE (fresh_addr s) s' = type ti
    /\ registered_instances s'
       = (if Generic.dont_cache src policy par s then registered_instances s
          else <[src := fresh_addr s]> (registered_instances s)).
Proof.
  intros Hsrc Hmiss Hti Hp fields.
  rewrite (cast_miss registered_types type_id copy_constructor src policy par s ti
             Hsrc Hmiss Hti).
  pose proof (new_instance_fields (type ti) src s) as Hnew.
  unfold PyType_GenericAlloc, alloc_object in Hnew |- *. cbv zeta. cbn [snd fst].
  set (inst := fresh_addr s) in *.
  set (s4 := modify_instance inst (set_parent nullptr) _) in *.
  assert (Hty4 : Py_TYPE inst s4 = type ti).
  { subst s4. rewrite !Py_TYPE_modify. unfold Py_TYPE. simpl.
    rewrite lookup_insert_eq. reflexivity. }
  assert (Hr4 : registered_instances s4 = registered_instances s) by reflexivity.
  assert (Hp' : (if policy_eqb policy automatic then take_ownership else policy) <> copy)
    by (destruct policy; simpl; congruence).
  destruct (policy_fields inst _ par s4 _ Hp' Hnew) as (s5 & Hpol & Hget5 & Hty5).
  rewrite Hpol.
  assert (Hfields : get_instance inst s5 = Some fields).
  { rewrite Hget5. subst fields. destruct policy; try congruence; reflexivity. }
  assert (Hr5 : registered_instances s5 = registered_instances s).
  { clear -Hpol Hr4 Hp'. unfold Generic.handle_return_value_policy in Hpol.
    destruct copy_constructor;
      [unfold Generic.handle_return_value_policy_copyable in Hpol
      |unfold Generic.handle_return_value_policy_noncopyable in Hpol];
      destruct (if policy_eqb policy automatic then take_ownership else policy);
      try congruence; injection Hpol as <-; try exact Hr4;
      unfold Py_XINCREF; destruct (par =? nullptr); exact Hr4. }
  set (hold := fun i : instance => set_holder (init_holder ti i) i).
  assert (Hget6 : get_instance inst (modify_instance inst hold s5) = Some (hold fields))
    by (apply get_instance_modify_eq, Hfields).
  eexists. split; [reflexivity|]. split; [apply fresh_addr_heap|].
  destruct (Generic.dont_cache src policy par s).
  - split; [exact Hget6|]. split; [rewrite Py_TYPE_modify, Hty5; exact Hty4|].
    exact Hr5.
  - split; [exact Hget6|]. split.
    + change (Py_TYPE inst (modify_instance inst hold s5) = type ti).
      rewrite Py_TYPE_modify, Hty5. exact Hty4.
    + simpl. rewrite (inst_value_get _ _ _ Hget6).
      change (value (hold fields)) with src. f_equal. exact Hr5.
Qed.

(** X4. Policy application on a new wrapper: when [cast] does not find the
    pointer in the instance registry (or the self-reference exception
    applies) and the type is registered, a policy other than [copy] gives a
    non-null, newly allocated instance of the registered type that wraps the
    pointer itself; it owns the pointer exactly under [take_ownership] and
    [automatic]; it records the parent exactly under [reference_internal];
    the holder hook ran on these final fields; and the wrapper is entered in
    the registry under the pointer unless the self-reference exception
    applies, in which case the registry is left as it was. *)
Theorem cast_new_wrapper src policy par s ti :
  src <> nullptr ->
  (if Generic.dont_cache src policy par s then None
   else registered_instances s !! src) = None ->
  registered_types !! type_id = Some ti ->
  policy <> copy ->
  let fields :=
    mk_instance src
      (match policy with reference | reference_internal => false | _ => true end)
      (match policy with reference_internal => par | _ => nullptr end)
      nullptr in
  exists s',
    cast src policy par s = (Returned (fresh_addr s), s')
    /\ fresh_addr s <> nullptr
    /\ heap s !! fresh_addr s = None
    /\ get_instance (fresh_addr s) s' = Some (set_holder (init_holder ti fields) fields)
    /\ Py_TYPE (fresh_addr s) s' = type ti
    /\ registered_instances s'
       = (if Generic.dont_cache src policy par s then registered_instances s
          else <[src := fresh_addr s]> (registered_instances s)).
Proof.
  intros Hsrc Hmiss Hti Hp fields.
  destruct (cast_builds src policy par s ti Hsrc Hmiss Hti Hp)
    as (s' & Hcast & Hnone & Hrest).
  exists s'. split; [exact Hcast|]. split; [apply fresh_addr_not_null|].
  split; [exact Hnone|exact Hrest].
Qed.

(** X5. The self-reference exception: casting a pointer under
    [reference_internal] with a parent that itself wraps that pointer always
    builds a second, newly allocated wrapper, even when the pointer already
    has a registered wrapper; the new wrapper does not own the pointer, keeps
    the parent and takes one reference on it, and the instance registry is
    left exactly as it was. *)
Theorem cast_self_reference src par s ti o :
  src <> nullptr ->
  par <> nullptr ->
  heap s !! par = Some o ->
  inst_value par s = src ->
  registered_types !! type_id = Some ti ->
  exists inst s' i,
    cast src reference_internal par s = (Returned inst, s')
    /\ heap s !! inst = None
    /\ get_instance inst s' = Some i
    /\ value i = src /\ owned i = false /\ parent i = par
    /\ registered_instances s' = registered_instances s
    /\ Py_REFCNT par s' = ob_refcnt o + 1.
Proof.
  intros Hsrc Hpar Ho Hval Hti.
  assert (Hdc : Generic.dont_cache src reference_internal par s = true).
  { unfold Generic.dont_cache. simpl. apply Z.eqb_neq in Hpar.
    rewrite Hpar, Hval, Z.eqb_refl. reflexivity. }
  destruct (cast_builds src reference_internal par s ti Hsrc) as
    (s' & Hcast & Hfresh & Hget & _ & Hreg);
    [rewrite Hdc; reflexivity|exact Hti|discriminate|].
  rewrite Hdc in Hreg.
  exists (fresh_addr s), s'. eexists. split; [exact Hcast|]. split; [exact Hfresh|].
  split; [exact Hget|]. repeat split; try exact Hreg.
  assert (Hne : fresh_addr s <> par).
  { intros E. rewrite E, Ho in Hfresh. discriminate. }
  rewrite (cast_miss registered_types type_id copy_constructor src reference_internal
             par s ti Hsrc) in Hcast by (rewrite ?Hdc; reflexivity || exact Hti).
  rewrite Hdc in Hcast. cbv zeta in Hcast. simpl policy_eqb in Hcast. cbv iota in Hcast.
  assert (Hpol : forall inst t,
    Generic.handle_return_value_policy copy_constructor inst reference_internal par t
    = (Returned tt,
       Py_XINCREF par (modify_instance inst (set_parent par)
                         (modify_instance inst (set_owned false) t)))).
  { intros. unfold Generic.handle_return_value_policy.
    destruct copy_constructor; reflexivity. }
  rewrite Hpol in Hcast. injection Hcast as <-.
  unfold Py_REFCNT, Py_XINCREF. apply Z.eqb_neq in Hpar. rewrite Hpar.
  unfold modify_instance, Py_INCREF, PyType_GenericAlloc, alloc_object. simpl.
  rewrite lookup_alter_ne by exact Hne. rewrite lookup_alter_eq.
  rewrite !lookup_alter_ne by exact Hne.
  rewrite lookup_insert_ne by exact Hne. rewrite Ho. reflexivity.
Qed.

Lemma policy_keeps_instance inst policy par s4 i4 u s5 :
  get_instance inst s4 = Some i4 ->
  Generic.handle_return_value_policy copy_constructor inst policy par s4
    = (Returned u, s5) ->
  (exists i5, get_instance inst s5 = Some i5)
  /\ Py_TYPE inst s5 = Py_TYPE inst s4.
Proof.
  intros Hi Hpol.
  assert (policy = copy \/ policy <> copy) as [->|Hp]
    by (destruct policy; (left; reflexivity) || (right; discriminate)).
  - unfold Generic.handle_return_value_policy in Hpol.
    destruct copy_constructor as [copy_T|]; [|discriminate].
    unfold Generic.handle_return_value_policy_copyable, native_new in Hpol.
    injection Hpol as _ <-. split.
    + eexists. apply get_instance_modify_eq. exact Hi.
    + rewrite Py_TYPE_modify. reflexivity.
  - destruct (policy_fields inst policy par s4 i4 Hp Hi) as (t & Ht & Hget & Hty).
    rewrite Ht in Hpol. injection Hpol as _ <-. eauto.
Qed.

(** Every entry [cast] writes into the instance registry maps the pointer the
    new wrapper wraps to that wrapper, an instance of the registered type. *)
Lemma cast_registry_entry src policy par s r s' k :
  cast src policy par s = (r, s') ->
  registered_instances s' !! k <> registered_instances s !! k ->
  exists inst i ti,
    registered_types !! type_id = Some ti
    /\ inst <> nullptr
    /\ registered_instances s' !! k = Some inst
    /\ get_instance inst s' = Some i /\ value i = k
    /\ Py_TYPE inst s' = type ti.
Proof.
  intros Hcast Hk.
  destruct (cast_keeps registered_types type_id copy_constructor
              src policy par s r s' Hcast) as (_ & _ & _ & Hreg).
  destruct (Hreg k Hk) as (inst & -> & Hnone & Hval & Hin).
  destruct (Z.eqb_spec src nullptr) as [->|Hsrc].
  { unfold Generic.cast in Hcast. simpl in Hcast. injection Hcast as _ <-.
    contradiction Hk. reflexivity. }
  destruct (if Generic.dont_cache src policy par s then None
            else registered_instances s !! src) as [o|] eqn:Hmiss.
  { unfold Generic.cast in Hcast. apply Z.eqb_neq in Hsrc.
    rewrite Hsrc, Hmiss in Hcast. injection Hcast as _ <-.
    contradiction Hk. reflexivity. }
  destruct (registered_types !! type_id) as [ti|] eqn:Hti.
  2:{ unfold Generic.cast in Hcast. apply Z.eqb_neq in Hsrc.
      rewrite Hsrc, Hmiss, Hti in Hcast. injection Hcast as _ <-.
      contradiction Hk. reflexivity. }
  rewrite (cast_miss registered_types type_id copy_constructor src policy par s ti
             Hsrc Hmiss Hti) in Hcast.
  pose proof (new_instance_fields (type ti) src s) as Hnew.
  unfold PyType_GenericAlloc, alloc_object in Hnew, Hcast.
  cbv zeta in Hcast. cbn [snd fst] in Hcast, Hnew.
  set (new := fresh_addr s) in *.
  set (s4 := modify_instance new (set_parent nullptr) _) in *.
  assert (Hty4 : Py_TYPE new s4 = type ti).
  { subst s4. rewrite !Py_TYPE_modify. unfold Py_TYPE. simpl.
    rewrite lookup_insert_eq. reflexivity. }
  destruct (Generic.handle_return_value_policy copy_constructor new _ par s4)
    as [[u|e] s5] eqn:Hpol; [|discriminate].
  destruct (policy_keeps_instance _ _ _ _ _ _ _ Hnew Hpol) as [[i5 Hget5] Hty5].
  injection Hcast as <- <-.
  set (hold := fun i : instance => set_holder (init_holder ti i) i) in *.
  assert (Hget6 : get_instance new (modify_instance new hold s5) = Some (hold i5))
    by (apply get_instance_modify_eq, Hget5).
  exists new, (hold i5), ti. split; [reflexivity|].
  split; [apply fresh_addr_not_null|]. split; [exact Hin|].
  destruct (Generic.dont_cache src policy par s).
  - split; [exact Hget6|]. split; [|rewrite Py_TYPE_modify, Hty5; exact Hty4].
    rewrite <- Hval. symmetry. apply inst_value_get. exact Hget6.
  - split; [exact Hget6|]. split.
    + rewrite <- Hval. symmetry.
      change (inst_value new (modify_instance new hold s5) = value (hold i5)).
      apply inst_value_get. exact Hget6.
    + change (Py_TYPE new (modify_instance new hold s5) = type ti).
      rewrite Py_TYPE_modify, Hty5. exact Hty4.
Qed.

Lemma gains_references_instance s s' q i :
  gains_references s s' -> get_instance q s = Some i -> get_instance q s' = Some i.
Proof.
  intros Hg. unfold get_instance. destruct (heap s !! q) as [[rc tp v]|] eqn:Hq;
    [|discriminate].
  destruct (Hg q _ Hq) as (n & _ & ->). simpl. auto.
Qed.

Lemma gains_references_type s s' q o :
  gains_references s s' -> heap s !! q = Some o -> Py_TYPE q s' = Py_TYPE q s.
Proof.
  intros Hg Hq. unfold Py_TYPE. destruct (Hg q o Hq) as (n & _ & ->).
  rewrite Hq. reflexivity.
Qed.

Lemma gains_references_subtype s s' a b :
  gains_references s s' ->
  PyType_IsSubtype a b s = true -> PyType_IsSubtype a b s' = true.
Proof.
  intros Hg. unfold PyType_IsSubtype. destruct (a =? b); [reflexivity|]. simpl.
  destruct (heap s !! a) as [[rc tp v]|] eqn:Ha; [|discriminate].
  destruct (Hg a _ Ha) as (n & _ & ->). simpl. auto.
Qed.

(** X1. What [cast] never does, whatever the pointer, the policy and the
    outcome (wrapper returned, null returned, exception thrown): it never
    removes, retypes or rewrites a host object that existed before (such an
    object can only gain references), never overwrites a native object,
    never calls a host callable, and changes the instance registry at most
    under one key: the pointer wrapped by the wrapper it returns, which is
    then a non-null, newly allocated instance of the registered type. *)
Theorem cast_frame src policy par s r s' :
  cast src policy par s = (r, s') ->
  gains_references s s'
  /\ (forall a x, native s !! a = Some x -> native s' !! a = Some x)
  /\ invoked s' = invoked s
  /\ (forall k, registered_instances s' !! k <> registered_instances s !! k ->
        exists inst ti,
          r = Returned inst /\ inst <> nullptr /\ heap s !! inst = None
          /\ registered_types !! type_id = Some ti
          /\ Py_TYPE inst s' = type ti
          /\ inst_value inst s' = k
          /\ registered_instances s' !! k = Some inst).
Proof.
  intros Hcast.
  destruct (cast_keeps registered_types type_id copy_constructor
              src policy par s r s' Hcast) as (Hg & Hn & Hi & Hreg).
  split; [exact Hg|]. split; [exact Hn|]. split; [exact Hi|].
  intros k Hk. destruct (Hreg k Hk) as (inst & Hr & Hnone & Hval & Hin).
  destruct (cast_registry_entry src policy par s r s' k Hcast Hk)
    as (inst' & i & ti & Hti & Hnn & Hin' & _ & _ & Hty).
  rewrite Hin in Hin'. injection Hin' as <-.
  exists inst, ti. split; [exact Hr|]. split; [exact Hnn|]. split; [exact Hnone|].
  split; [exact Hti|]. split; [exact Hty|]. split; [exact Hval|exact Hin].
Qed.

(** X2. [cast] keeps the invariant of the instance registry: if every key
    of the registry is mapped to an instance of the registered type that
    wraps that very pointer, the same holds after any [cast], whatever the
    pointer, the policy and the outcome. *)
Theorem cast_preserves_registry_consistency tp src policy par s r s' :
  (forall ti, registered_types !! type_id = Some ti -> type ti = tp) ->
  registry_consistent tp s ->
  cast src policy par s = (r, s') ->
  registry_consistent tp s'.
Proof.
  intros Htp Hcons Hcast p o Hp.
  destruct (cast_keeps registered_types type_id copy_constructor
              src policy par s r s' Hcast) as (Hg & _ & _ & _).
  destruct (decide (registered_instances s' !! p = registered_instances s !! p))
    as [Hsame|Hdiff].
  - rewrite Hsame in Hp. destruct (Hcons p o Hp) as (Hnn & i & Hget & Hval & Hsub).
    split; [exact Hnn|].
    exists i. split; [eapply gains_references_instance; eassumption|].
    split; [exact Hval|].
    assert (Hin : exists ob, heap s !! o = Some ob).
    { unfold get_instance in Hget. destruct (heap s !! o); [eauto|discriminate]. }
    destruct Hin as [ob Hob].
    rewrite (gains_references_type s s' o ob Hg Hob).
    eapply gains_references_subtype; eassumption.
  - destruct (cast_registry_entry src policy par s r s' p Hcast Hdiff)
      as (inst & i & ti & Hti & Hnn & Hin & Hget & Hval & Hty).
    rewrite Hin in Hp. injection Hp as <-. split; [exact Hnn|].
    exists i. split; [exact Hget|]. split; [exact Hval|].
    rewrite Hty, (Htp ti Hti). unfold PyType_IsSubtype. rewrite Z.eqb_refl.
    reflexivity.
Qed.

(** X3. A wrapper loads back to the pointer it was cast from: with a
    registered type and a consistent instance registry, casting a non-null
    pointer under any policy but [copy] returns a wrapper whose [load] into a
    new caster succeeds, with or without conversions, binds the caster to
    that same pointer and changes nothing. *)
Theorem cast_load_round_trip src policy par s ti convert :
  src <> nullptr ->
  registered_types !! type_id = Some ti ->
  registry_consistent (type ti) s ->
  policy <> copy ->
  exists inst s',
    cast src policy par s = (Returned inst, s')
    /\ inst <> nullptr
    /\ Generic.load inst convert (Generic.new registered_types type_id) s'
       = (true,
          Generic.with_value src (Generic.new registered_types type_id), s').
Proof.
  intros Hsrc Hti Hcons Hp.
  assert (Hload : forall inst s', inst <> nullptr ->
            PyType_IsSubtype (Py_TYPE inst s') (type ti) s' = true ->
            inst_value inst s' = src ->
            Generic.load inst convert (Generic.new registered_types type_id) s'
            = (true, Generic.with_value src
                       (Generic.new registered_types type_id), s')).
  { intros inst s' Hn Hsub Hval. unfold Generic.load, Generic.load_body, Generic.new.
    simpl. rewrite Hti. apply Z.eqb_neq in Hn. rewrite Hn, Hsub, Hval. reflexivity. }
  destruct (if Generic.dont_cache src policy par s then None
            else registered_instances s !! src) as [o|] eqn:Hmiss.
  - destruct (Generic.dont_cache src policy par s) eqn:Hdc; [discriminate|].
    destruct (Hcons src o Hmiss) as (Hnn & i & Hget & Hval & Hsub).
    assert (Hin : exists ob, heap s !! o = Some ob).
    { unfold get_instance in Hget. destruct (heap s !! o); [eauto|discriminate]. }
    destruct Hin as [ob Hob].
    exists o, (Py_INCREF o s).
    split; [apply cast_hit; assumption|]. split; [exact Hnn|].
    pose proof (gains_references_incref o s) as Hg.
    apply Hload; [exact Hnn| |].
    + rewrite (gains_references_type _ _ o ob Hg Hob).
      eapply gains_references_subtype; eassumption.
    + rewrite (inst_value_get _ _ i); [exact Hval|].
      rewrite get_instance_incref. exact Hget.
  - destruct (cast_builds src policy par s ti Hsrc Hmiss Hti Hp)
      as (s' & Hcast & _ & Hget & Hty & _).
    exists (fresh_addr s), s'. split; [exact Hcast|].
    split; [apply fresh_addr_not_null|].
    apply Hload; [apply fresh_addr_not_null| |].
    + rewrite Hty. unfold PyType_IsSubtype. rewrite Z.eqb_refl. reflexivity.
    + rewrite (inst_value_get _ _ _ Hget). reflexivity.
Qed.

End GenericCastWrapper.

(** ** The scalar casters *)
Section ScalarCasters.
Context {Obj : Type}.
Implicit Types (s : State Obj).

Lemma to_int32_range z : in_int32 (to_int32 z).
Proof.
  unfold in_int32, to_int32.
  pose proof (Z.mod_pos_bound (z + 2 ^ 31) (2 ^ 32) ltac:(lia)). lia.
Qed.

Lemma to_int32_congruent z : (to_int32 z - z) mod 2 ^ 32 = 0.
Proof.
  unfold to_int32.
  replace ((z + 2 ^ 31) mod 2 ^ 32 - 2 ^ 31 - z)
    with ((z + 2 ^ 31) mod 2 ^ 32 - (z + 2 ^ 31)) by lia.
  rewrite Zminus_mod, Z.mod_mod, Z.sub_diag by lia. reflexivity.
Qed.

Lemma clear_pending_error s e msg :
  PyErr_Occurred s = false -> PyErr_Clear (PyErr_SetString e msg s) = s.
Proof.
  unfold PyErr_Occurred, PyErr_Clear, PyErr_SetString, set_err.
  destruct s as [h n r [e0|] i]; simpl; [discriminate|reflexivity].
Qed.

(** X6. The [int32_t] caster's [load]: a failed load never leaves a host
    error pending.  When no error is pending on entry: an integer object
    loads exactly when its value fits a C [long], and the state is not
    changed either way; the loaded value is the object's value wrapped into
    32 bits, so a value outside the [int32_t] range is not rejected but
    comes out changed, congruent modulo 2^32; a boolean loads as 0 or 1; a
    string, list or tuple object never loads (nothing is parsed or
    converted) and the state is not changed. *)
Theorem int32_load_outcomes (src : Z) (convert : bool) (self : Int32.type_caster) s :
  (fst (fst (Int32.load src convert self s)) = false ->
   PyErr_Occurred (snd (Int32.load src convert self s)) = false)
  /\ (PyErr_Occurred s = false ->
      (forall o z,
         heap s !! src = Some o -> ob_val o = V_Long z ->
         (LONG_MIN <= z <= LONG_MAX ->
          Int32.load src convert self s
          = (true, Int32.mk_type_caster (to_int32 z), s)
          /\ in_int32 (to_int32 z)
          /\ (to_int32 z - z) mod 2 ^ 32 = 0
          /\ (to_int32 z = z <-> in_int32 z))
         /\ (~ LONG_MIN <= z <= LONG_MAX ->
             Int32.load src convert self s
             = (false, Int32.mk_type_caster (-1), s)))
      /\ (forall o b,
            heap s !! src = Some o -> ob_val o = V_Bool b ->
            Int32.load src convert self s
            = (true, Int32.mk_type_caster (Z.b2z b), s))
      /\ (forall o,
            heap s !! src = Some o ->
            (ob_type o = PyUnicode_Type /\ exists cps, ob_val o = V_Unicode cps)
            \/ (ob_type o = PyList_Type /\ exists items, ob_val o = V_List items)
            \/ (ob_type o = PyTuple_Type /\ exists items, ob_val o = V_Tuple items) ->
            Int32.load src convert self s
            = (false, Int32.mk_type_caster (-1), s))).
Proof.
  split.
  { unfold Int32.load. destruct (PyLong_AsLong src s) as [x s1]. simpl.
    destruct ((to_int32 x =? to_int32 (-1)) && PyErr_Occurred s1) eqn:E;
      simpl; [reflexivity|discriminate]. }
  intros Herr.
  assert (Hok : forall x, PyLong_AsLong src s = (x, s) ->
            Int32.load src convert self s
            = (true, Int32.mk_type_caster (to_int32 x), s)).
  { intros x Hx. unfold Int32.load. rewrite Hx. simpl.
    rewrite Herr, andb_false_r. reflexivity. }
  assert (Hbad : forall e msg, PyLong_AsLong src s = (-1, PyErr_SetString e msg s) ->
            Int32.load src convert self s = (false, Int32.mk_type_caster (-1), s)).
  { intros e msg Hx. unfold Int32.load. rewrite Hx. simpl.
    rewrite clear_pending_error by exact Herr. reflexivity. }
  split; [|split].
  - intros o z Ho Hv. destruct o as [rc tp v]. simpl in Hv. subst v.
    unfold PyLong_AsLong in Hok, Hbad. rewrite Ho in Hok, Hbad. simpl in Hok, Hbad.
    split.
    + intros Hz.
      assert (Hr : (LONG_MIN <=? z) && (z <=? LONG_MAX) = true)
        by (apply andb_true_intro; split; apply Z.leb_le; lia).
      rewrite Hr in Hok. split; [apply Hok; reflexivity|].
      split; [apply to_int32_range|]. split; [apply to_int32_congruent|].
      split; [intros <-; apply to_int32_range|apply to_int32_id].
    + intros Hz.
      assert (Hr : (LONG_MIN <=? z) && (z <=? LONG_MAX) = false).
      { apply andb_false_iff.
        destruct (Z.leb_spec LONG_MIN z); [|left; reflexivity].
        destruct (Z.leb_spec z LONG_MAX); [lia|right; reflexivity]. }
      rewrite Hr in Hbad. erewrite Hbad by reflexivity. reflexivity.
  - intros o b Ho Hv. destruct o as [rc tp v]. simpl in Hv. subst v.
    unfold PyLong_AsLong in Hok. rewrite Ho in Hok. simpl in Hok.
    rewrite (Hok _ eq_refl). f_equal. f_equal. f_equal.
    destruct b; reflexivity.
  - intros o Ho Hkind. destruct o as [rc tp v]. simpl in Hkind.
    unfold PyLong_AsLong in Hbad. rewrite Ho in Hbad. simpl in Hbad.
    destruct Hkind as [[_ [cps ->]]|[[_ [items ->]]|[_ [items ->]]]];
      erewrite Hbad by reflexivity; reflexivity.
Qed.

(** X7. The [bool] caster performs no truthiness coercion: [load] succeeds
    exactly for the two boolean singletons, identified by address, and never
    changes the state (a failed load leaves the caster as it was); [cast]
    returns the singleton of the value with one more reference, and loading
    it gives the value back. *)
Theorem bool_caster_strict (src : Z) (convert : bool) (self : Boolean.type_caster) s :
  (fst (fst (Boolean.load src convert self s)) = true
   <-> src = Py_True \/ src = Py_False)
  /\ snd (Boolean.load src convert self s) = s
  /\ (src <> Py_True -> src <> Py_False ->
      Boolean.load src convert self s = (false, self, s))
  /\ (forall b policy par,
        exists p, Boolean.cast b policy par s = (Returned p, Py_INCREF p s)
                  /\ p = (if b then Py_True else Py_False)
                  /\ Boolean.load p convert self (Py_INCREF p s)
                     = (true, Boolean.mk_type_caster b, Py_INCREF p s)).
Proof.
  unfold Boolean.load. split; [|split; [|split]].
  - destruct (Z.eqb_spec src Py_True) as [->|H1]; simpl.
    + split; auto.
    + destruct (Z.eqb_spec src Py_False) as [->|H2]; simpl; [split; auto|].
      split; [discriminate|intros [?|?]; contradiction].
  - destruct (src =? Py_True); [reflexivity|].
    destruct (src =? Py_False); reflexivity.
  - intros H1 H2. apply Z.eqb_neq in H1, H2. rewrite H1, H2. reflexivity.
  - intros b policy par. destruct b; eexists; (split; [reflexivity|]);
      (split; [reflexivity|]); reflexivity.
Qed.

Lemma latin1_lead_byte c :
  128 <= c < 256 -> Z.lor 192 (Z.shiftr c 6) = (if c <? 192 then 194 else 195).
Proof.
  intros Hc. rewrite Z.shiftr_div_pow2 by lia. change (2 ^ 6) with 64.
  assert (Hq : c / 64 = (if c <? 192 then 2 else 3)).
  { pose proof (Z.div_mod c 64 ltac:(lia)).
    pose proof (Z.mod_pos_bound c 64 ltac:(lia)).
    destruct (Z.ltb_spec c 192); lia. }
  rewrite Hq. destruct (c <? 192); reflexivity.
Qed.

(** X8. A [char] cast to a host string and loaded back: the cast goes
    through Latin-1 and the load through UTF-8, so the load always succeeds
    and gives the character back exactly when it is below 128 or is the byte
    195 (the lead byte of its own two-byte encoding); every other byte from
    128 up comes back as 194 or 195. *)
Theorem char_round_trip (c : Z) policy par (convert : bool)
    (self : Char.type_caster) s :
  0 <= c < 256 ->
  exists p s1 self',
    Char.cast c policy par s = (Returned p, s1)
    /\ Char.load p convert self s1 = (true, self', s1)
    /\ (Char.to_char self' = c <-> c < 128 \/ c = 195)
    /\ (128 <= c -> Char.to_char self' = (if c <? 192 then 194 else 195)).
Proof.
  intros Hc. unfold Char.cast, PyUnicode_DecodeLatin1, alloc_object.
  set (p := fresh_addr s). set (s1 := set_heap _ s).
  assert (Hp : heap s1 !! p = Some (mk_PyObject 1 PyUnicode_Type (V_Unicode [c])))
    by (subst s1; simpl; apply lookup_insert_eq).
  assert (Henc : utf8_encode [c]
            = Some (if c <? 128 then [c]
                    else [Z.lor 192 (Z.shiftr c 6); Z.lor 128 (Z.land c 63)])).
  { simpl. unfold utf8_encode_cp.
    destruct (Z.ltb_spec c 0); [lia|]. destruct (Z.ltb_spec c 128); [reflexivity|].
    destruct (Z.ltb_spec c 2048); [reflexivity|lia]. }
  exists p, s1. eexists. split; [reflexivity|].
  unfold Char.load, PyUnicode_AsUTF8. rewrite Hp, Henc.
  split; [reflexivity|]. unfold Char.to_char. simpl.
  destruct (Z.ltb_spec c 128) as [Hlt|Hge]; simpl.
  - split; [|lia]. split; [auto|reflexivity].
  - rewrite latin1_lead_byte by lia. split; [|reflexivity].
    destruct (Z.ltb_spec c 192); lia.
Qed.

End ScalarCasters.

(** ** Round trips through the container casters *)
Section RoundTrips.
Context {Obj : Type}.
Implicit Types (s : State Obj).

Lemma extends_refl s : extends s s.
Proof. split; auto. Qed.

Lemma extends_trans s1 s2 s3 : extends s1 s2 -> extends s2 s3 -> extends s1 s3.
Proof. intros [E1 H1] [E2 H2]. split; [congruence|auto]. Qed.

Lemma extends_keeps_complete s s' : extends s s' -> keeps_complete s s'.
Proof. intros [_ H] q o Ho _. auto. Qed.

Lemma keeps_complete_trans s1 s2 s3 :
  keeps_complete s1 s2 -> keeps_complete s2 s3 -> keeps_complete s1 s3.
Proof. intros H1 H2 q o Ho Hc. auto. Qed.

Lemma alloc_extends tp v s : extends s (snd (alloc_object tp v s)).
Proof.
  split; [reflexivity|]. intros q o Ho. unfold alloc_object. simpl.
  rewrite lookup_insert_ne; [exact Ho|].
  intros E. rewrite <- E, fresh_addr_heap in Ho. discriminate.
Qed.

(** Writing into a slot of a container that still has a null slot does not
    touch any complete object. *)
Lemma keeps_complete_except l s s' o :
  heap s !! l = Some o -> ~ complete o ->
  (forall q, q <> l -> heap s' !! q = heap s !! q) ->
  keeps_complete s s'.
Proof.
  intros Hl Hinc Hother q o' Hq Hc. destruct (decide (q = l)) as [->|Hne].
  - rewrite Hl in Hq. injection Hq as <-. contradiction.
  - rewrite Hother by exact Hne. exact Hq.
Qed.

(** The [int32_t] caster round-trips the values of which the host makes a
    new object. *)
Lemma int32_round_trips :
  round_trips (Int32.caster (Obj:=Obj)) unshared_int32 holds_int32.
Proof.
  split; [|split; [|split]].
  - intros s p v (Hp & _ & rc & tp & Hl). split; [exact Hp|].
    eexists. split; [exact Hl|exact I].
  - intros s s' p v (Hp & Hv & rc & tp & Hl) Hk. split; [exact Hp|].
    split; [exact Hv|]. exists rc, tp. apply Hk; [exact Hl|exact I].
  - intros v policy par s [Hv _]. simpl. unfold Int32.cast, PyLong_FromLong.
    pose proof (alloc_extends PyLong_Type (V_Long v) s) as Hext.
    unfold alloc_object in *. simpl in *.
    eexists _, _. split; [reflexivity|]. split; [|exact Hext].
    split; [apply fresh_addr_not_null|]. split; [exact Hv|].
    exists 1, PyLong_Type. simpl. apply lookup_insert_eq.
  - intros p v convert c s (Hp & Hv & Hl) Herr. simpl.
    rewrite (int32_load_long p v convert c s Hl Hv Herr).
    eexists. split; reflexivity.
Qed.

Section Sequences.
Context {C V : Type} (E : TypeCaster Obj C V).
Variable valid : V -> Prop.
Variable holds : State Obj -> Z -> V -> Prop.
Hypothesis HE : round_trips E valid holds.

Lemma holds_items_nonnull s (ps : list Z) (vs : list V) :
  Forall2 (holds s) ps vs -> nullptr ∉ ps.
Proof.
  destruct HE as (Hnn & _). induction 1 as [|p v ps vs Hp _ IH].
  - apply not_elem_of_nil.
  - intros Hin. apply elem_of_cons in Hin as [Heq|Hin]; [|contradiction].
    destruct (Hnn _ _ _ Hp) as [Hne _]. congruence.
Qed.

Lemma cast_loop_round_trip l policy par (rest : list V) :
  forall (done_ps : list Z) (done_vs : list V) s rc tp,
    Forall valid rest ->
    heap s !! l = Some (mk_PyObject rc tp
                          (V_List (done_ps ++ replicate (length rest) nullptr))) ->
    Forall2 (holds s) done_ps done_vs ->
    exists s' ps,
      Vector.cast_loop (value_conv:=E) l (Z.of_nat (length done_ps))
        rest policy par s = (Returned l, s')
      /\ heap s' !! l = Some (mk_PyObject rc tp (V_List (done_ps ++ ps)))
      /\ Forall2 (holds s') (done_ps ++ ps) (done_vs ++ rest)
      /\ err s' = err s
      /\ (forall q o, q <> l -> heap s !! q = Some o -> heap s' !! q = Some o).
Proof.
  destruct HE as (Hnn & Hstable & Hcast & _).
  induction rest as [|v rest IH]; intros done_ps done_vs s rc tp Hvalid Hl Hdone.
  - exists s, []. simpl in *. rewrite !app_nil_r in *. repeat split; auto.
  - apply Forall_cons_1 in Hvalid as [Hv Hvalid]. simpl.
    destruct (Hcast v policy par s Hv) as (p & s1 & -> & Hp & Herr1 & Hext1).
    destruct (Hnn _ _ _ Hp) as (Hpn & op & Hop & Hcomp).
    apply Z.eqb_neq in Hpn. rewrite Hpn.
    pose proof (Hext1 _ _ Hl) as Hl1.
    assert (Hslot : (done_ps ++ replicate (length (v :: rest)) nullptr)
                      !! length done_ps = Some nullptr).
    { rewrite lookup_app_r by lia. rewrite Nat.sub_diag. reflexivity. }
    assert (Hinc : ~ complete (mk_PyObject rc tp
                     (V_List (done_ps ++ replicate (length (v :: rest)) nullptr)))).
    { unfold complete. simpl. intros Hn. apply Hn.
      apply list_elem_of_lookup. eexists. exact Hslot. }
    assert (Hpl : p <> l).
    { intros ->. rewrite Hl1 in Hop. injection Hop as <-. contradiction. }
    destruct (PyList_SetItem_slot l (length done_ps) p s1 rc tp _ Hl1 Hslot)
      as (s2 & Hset & Hl2 & Hother & Herr2).
    rewrite Hset.
    assert (Hk12 : keeps_complete s1 s2)
      by (eapply keeps_complete_except; eauto).
    assert (Hl2' : heap s2 !! l = Some (mk_PyObject rc tp
              (V_List ((done_ps ++ [p]) ++ replicate (length rest) nullptr)))).
    { rewrite Hl2. do 3 f_equal. simpl.
      rewrite insert_app_r_alt by lia. rewrite Nat.sub_diag. simpl.
      rewrite <- app_assoc. reflexivity. }
    assert (Hdone2 : Forall2 (holds s2) (done_ps ++ [p]) (done_vs ++ [v])).
    { apply Forall2_app.
      - eapply Forall2_impl; [exact Hdone|]. intros q w Hq.
        apply (Hstable s1 s2); [|exact Hk12].
        apply (Hstable s s1); [exact Hq|].
        apply extends_keeps_complete. split; assumption.
      - constructor; [|constructor]. apply (Hstable s1 s2); assumption. }
    destruct (IH (done_ps ++ [p]) (done_vs ++ [v]) s2 rc tp Hvalid Hl2' Hdone2)
      as (s' & ps & Hloop & Hl' & Hall & Herr' & Hkeep').
    exists s', (p :: ps).
    replace (Z.of_nat (length done_ps) + 1) with (Z.of_nat (length (done_ps ++ [p])))
      by (rewrite length_app; simpl; lia).
    rewrite Hloop. rewrite <- !app_assoc in Hl'. simpl in Hl'.
    split; [reflexivity|]. split; [exact Hl'|]. split.
    + rewrite <- (app_assoc done_ps [p] ps), <- (app_assoc done_vs [v] rest) in Hall.
      exact Hall.
    + split; [rewrite Herr', Herr2; exact Herr1|].
      intros q o Hq Ho. apply Hkeep'; [exact Hq|].
      rewrite Hother by exact Hq. apply Hext1. exact Ho.
Qed.

Lemma load_loop_round_trip l convert s rc tp (ps : list Z) :
  heap s !! l = Some (mk_PyObject rc tp (V_List ps)) ->
  PyErr_Occurred s = false ->
  forall (suf : list Z) (vsuf : list V),
    Forall2 (holds s) suf vsuf ->
    forall (pre : list Z) (acc : list V),
      ps = pre ++ suf ->
      Vector.load_loop (value_conv:=E) l convert
        (seq (length pre) (length suf)) acc s
      = (true, acc ++ vsuf, s).
Proof.
  destruct HE as (_ & _ & _ & Hload).
  intros Hl Herr suf vsuf Hall.
  destruct (list_object_items _ _ _ _ _ Hl) as [Hc Hitems].
  induction Hall as [|p v suf vsuf Hp _ IH]; intros pre acc Hps.
  - simpl. rewrite app_nil_r. reflexivity.
  - simpl. unfold PyList_GetItem, PyList_GET_SIZE. rewrite Hc, Hitems.
    assert (Hr : (0 <=? Z.of_nat (length pre))
                 && (Z.of_nat (length pre) <? Z.of_nat (length ps)) = true).
    { apply andb_true_intro. split; [apply Z.leb_le|apply Z.ltb_lt]; [lia|].
      rewrite Hps, length_app. simpl. lia. }
    rewrite Hr, Nat2Z.id.
    assert (Hitem : ps !! length pre = Some p).
    { rewrite Hps. rewrite lookup_app_r by lia. rewrite Nat.sub_diag. reflexivity. }
    rewrite Hitem. simpl.
    destruct (Hload p v convert caster_new s Hp Herr) as (c' & -> & Hget).
    simpl. rewrite Hget.
    replace (S (length pre)) with (length (pre ++ [p]))
      by (rewrite length_app; simpl; lia).
    rewrite (IH (pre ++ [p]) (acc ++ [v])).
    + rewrite <- app_assoc. reflexivity.
    + rewrite <- app_assoc. exact Hps.
Qed.

(** X9. Round trips compose through the sequence caster: when the element
    caster round-trips, so does the caster of sequences of such elements
    (hence also of sequences of sequences, and so on): [cast] builds a new
    complete list whose items hold the elements in order and touches no
    existing object, and [load] of such a list gives the sequence back
    without changing the state. *)
Theorem vector_round_trips :
  round_trips (Vector.caster (value_conv:=E)) (Forall valid) (holds_list holds).
Proof.
  pose proof HE as (Hnn & Hstable & _ & _).
  split; [|split; [|split]].
  - intros s p vs (Hp & rc & tp & ps & Hl & Hall). split; [exact Hp|].
    eexists. split; [exact Hl|]. unfold complete. simpl.
    eapply holds_items_nonnull. exact Hall.
  - intros s s' p vs (Hp & rc & tp & ps & Hl & Hall) Hk. split; [exact Hp|].
    exists rc, tp, ps. split.
    + apply Hk; [exact Hl|]. unfold complete. simpl.
      eapply holds_items_nonnull. exact Hall.
    + eapply Forall2_impl; [exact Hall|]. intros q w Hq. eapply Hstable; eauto.
  - intros src policy par s Hvalid. simpl. unfold Vector.cast, PyList_New.
    pose proof (alloc_extends PyList_Type
                  (V_List (replicate (Z.to_nat (Z.of_nat (length src))) nullptr)) s)
      as [Herr0 Hext0].
    unfold alloc_object in *. simpl in Herr0, Hext0. cbv zeta.
    set (l := fresh_addr s) in *. set (s0 := set_heap _ s) in *.
    assert (Hl0 : heap s0 !! l = Some (mk_PyObject 1 PyList_Type
              (V_List ([] ++ replicate (length src) nullptr)))).
    { subst s0. simpl. rewrite Nat2Z.id. apply lookup_insert_eq. }
    destruct (cast_loop_round_trip l policy par src [] [] s0 1 PyList_Type Hvalid Hl0
                (Forall2_nil_2 _ _ _))
      as (s1 & ps & Hloop & Hl1 & Hall & Herr1 & Hkeep).
    cbn [length app] in Hloop, Hl1, Hall. change (Z.of_nat 0) with 0 in Hloop.
    exists l, s1. split; [exact Hloop|]. split.
    + split; [apply fresh_addr_not_null|]. exists 1, PyList_Type, ps. auto.
    + split; [rewrite Herr1; exact Herr0|].
      intros q o Ho. apply Hkeep; [|apply Hext0; exact Ho].
      intros ->. pose proof (fresh_addr_heap s) as Hf. fold l in Hf.
      rewrite Hf in Ho. discriminate.
  - intros p vs convert c s (Hp & rc & tp & ps & Hl & Hall) Herr. simpl.
    unfold Vector.load. destruct (list_object_items _ _ _ _ _ Hl) as [Hc Hitems].
    rewrite Hc. simpl. unfold PyList_GET_SIZE. rewrite Hitems, Nat2Z.id.
    pose proof (load_loop_round_trip p convert s rc tp ps Hl Herr ps vs Hall [] []
                  eq_refl) as Hll.
    cbn [length app] in Hll. rewrite Hll. eexists. split; reflexivity.
Qed.

End Sequences.

End RoundTrips.

(** ** Container round trip *)
Section SequenceRoundTrip.
Context {Obj : Type}.
Implicit Types (s : State Obj).

Lemma gains_references_keeps_contents s s' :
  gains_references s s' -> keeps_contents s s'.
Proof. intros Hg q o Ho _. destruct (Hg q o Ho) as (n & _ & Hq). eauto. Qed.

(** The [int32_t] caster loads back every [int32_t]. *)
Lemma int32_loads_back : loads_back (Int32.caster (Obj:=Obj)) in_int32 holds_int32.
Proof.
  split; [|split; [|split]].
  - intros s p v (Hp & _ & rc & tp & Hl). split; [exact Hp|].
    eexists. split; [exact Hl|exact I].
  - intros s s' p v (Hp & Hv & rc & tp & Hl) Hk. split; [exact Hp|].
    split; [exact Hv|]. destruct (Hk _ _ Hl I) as [rc' Hl'].
    exists rc', tp. exact Hl'.
  - intros v policy par s Hv. simpl. unfold Int32.cast, PyLong_FromLong.
    pose proof (alloc_extends PyLong_Type (V_Long v) s) as [Herr Hext].
    unfold alloc_object in *. simpl in *.
    eexists _, _. split; [reflexivity|]. split; [|split; [exact Herr|]].
    + split; [apply fresh_addr_not_null|]. split; [exact Hv|].
      exists 1, PyLong_Type. simpl. apply lookup_insert_eq.
    + intros q o Ho. exists 0. split; [lia|]. rewrite Z.add_0_r.
      etrans; [exact (Hext _ _ Ho)|]. destruct o; reflexivity.
  - intros p v convert c s (Hp & Hv & Hl) Herr. simpl.
    rewrite (int32_load_long p v convert c s Hl Hv Herr).
    eexists. split; reflexivity.
Qed.

Section Elements.
Context {C V : Type} (E : TypeCaster Obj C V).
Variable valid : V -> Prop.
Variable holds : State Obj -> Z -> V -> Prop.
Hypothesis HE : loads_back E valid holds.

Lemma held_items_nonnull s (ps : list Z) (vs : list V) :
  Forall2 (holds s) ps vs -> nullptr ∉ ps.
Proof.
  destruct HE as (Hnn & _). induction 1 as [|p v ps vs Hp _ IH].
  - apply not_elem_of_nil.
  - intros Hin. apply elem_of_cons in Hin as [Heq|Hin]; [|contradiction].
    destruct (Hnn _ _ _ Hp) as [Hne _]. congruence.
Qed.

(** The loop of [cast], from a list whose slots from [length done_ps] on
    are still null: it fills them with objects that hold the remaining
    elements; the objects in the slots filled before keep holding theirs,
    and every other object changes at most by added references. *)
Lemma cast_loop_loads_back l policy par (rest : list V) :
  forall (done_ps : list Z) (done_vs : list V) s rc tp,
    Forall valid rest ->
    heap s !! l = Some (mk_PyObject rc tp
                          (V_List (done_ps ++ replicate (length rest) nullptr))) ->
    Forall2 (holds s) done_ps done_vs ->
    exists s' ps rc',
      Vector.cast_loop (value_conv:=E) l (Z.of_nat (length done_ps))
        rest policy par s = (Returned l, s')
      /\ heap s' !! l = Some (mk_PyObject rc' tp (V_List (done_ps ++ ps)))
      /\ Forall2 (holds s') (done_ps ++ ps) (done_vs ++ rest)
      /\ err s' = err s
      /\ (forall q o, q <> l -> heap s !! q = Some o ->
            exists n, 0 <= n /\
              heap s' !! q
              = Some (mk_PyObject (ob_refcnt o + n) (ob_type o) (ob_val o))).
Proof.
  destruct HE as (Hnn & Hstable & Hcast & _).
  induction rest as [|v rest IH]; intros done_ps done_vs s rc tp Hvalid Hl Hdone.
  - exists s, [], rc. simpl in *. rewrite !app_nil_r in *.
    split; [reflexivity|]. split; [exact Hl|]. split; [exact Hdone|].
    split; [reflexivity|]. intros q o _ Ho. exists 0. split; [lia|].
    rewrite Ho, Z.add_0_r. destruct o; reflexivity.
  - apply Forall_cons_1 in Hvalid as [Hv Hvalid]. simpl.
    destruct (Hcast v policy par s Hv) as (p & s1 & -> & Hp & Herr1 & Hg1).
    destruct (Hnn _ _ _ Hp) as (Hpn & op & Hop & Hcomp).
    apply Z.eqb_neq in Hpn. rewrite Hpn.
    destruct (Hg1 _ _ Hl) as (n1 & _ & Hl1). cbn [ob_refcnt ob_type ob_val] in Hl1.
    assert (Hslot : (done_ps ++ replicate (length (v :: rest)) nullptr)
                      !! length done_ps = Some nullptr).
    { rewrite lookup_app_r by lia. rewrite Nat.sub_diag. reflexivity. }
    assert (Hinc : ~ complete (mk_PyObject (rc + n1) tp
                     (V_List (done_ps ++ replicate (length (v :: rest)) nullptr)))).
    { unfold complete. simpl. intros Hn. apply Hn.
      apply list_elem_of_lookup. eexists. exact Hslot. }
    destruct (PyList_SetItem_slot l (length done_ps) p s1 (rc + n1) tp _ Hl1 Hslot)
      as (s2 & Hset & Hl2 & Hother & Herr2).
    rewrite Hset.
    assert (Hk12 : keeps_contents s1 s2).
    { intros q o Ho Hc. destruct (decide (q = l)) as [->|Hq].
      - rewrite Hl1 in Ho. injection Ho as <-. contradiction.
      - exists (ob_refcnt o). rewrite Hother by exact Hq. rewrite Ho.
        destruct o; reflexivity. }
    assert (Hl2' : heap s2 !! l = Some (mk_PyObject (rc + n1) tp
              (V_List ((done_ps ++ [p]) ++ replicate (length rest) nullptr)))).
    { rewrite Hl2. do 3 f_equal. simpl.
      rewrite insert_app_r_alt by lia. rewrite Nat.sub_diag. simpl.
      rewrite <- app_assoc. reflexivity. }
    assert (Hdone2 : Forall2 (holds s2) (done_ps ++ [p]) (done_vs ++ [v])).
    { apply Forall2_app.
      - eapply Forall2_impl; [exact Hdone|]. intros q w Hq.
        apply (Hstable s1 s2); [|exact Hk12].
        apply (Hstable s s1); [exact Hq|].
        apply gains_references_keeps_contents. exact Hg1.
      - constructor; [|constructor]. apply (Hstable s1 s2); assumption. }
    destruct (IH (done_ps ++ [p]) (done_vs ++ [v]) s2 (rc + n1) tp Hvalid Hl2' Hdone2)
      as (s' & ps & rc' & Hloop & Hl' & Hall & Herr' & Hkeep').
    exists s', (p :: ps), rc'.
    replace (Z.of_nat (length done_ps) + 1) with (Z.of_nat (length (done_ps ++ [p])))
      by (rewrite length_app; simpl; lia).
    rewrite Hloop. rewrite <- !app_assoc in Hl'. simpl in Hl'.
    split; [reflexivity|]. split; [exact Hl'|]. split.
    + rewrite <- (app_assoc done_ps [p] ps), <- (app_assoc done_vs [v] rest) in Hall.
      exact Hall.
    + split; [rewrite Herr', Herr2; exact Herr1|].
      intros q o Hq Ho. destruct (Hg1 _ _ Ho) as (n & Hn & Hq1).
      rewrite <- (Hother q Hq) in Hq1.
      destruct (Hkeep' _ _ Hq Hq1) as (n' & Hn' & Hq').
      cbn [ob_refcnt ob_type ob_val] in Hq'.
      exists (n + n'). split; [lia|]. rewrite Hq'. do 2 f_equal. lia.
Qed.

(** The loop of [load] over a list whose items hold values. *)
Lemma load_loop_loads_back l convert s rc tp (ps : list Z) :
  heap s !! l = Some (mk_PyObject rc tp (V_List ps)) ->
  PyErr_Occurred s = false ->
  forall (suf : list Z) (vsuf : list V),
    Forall2 (holds s) suf vsuf ->
    forall (pre : list Z) (acc : list V),
      ps = pre ++ suf ->
      Vector.load_loop (value_conv:=E) l convert
        (seq (length pre) (length suf)) acc s
      = (true, acc ++ vsuf, s).
Proof.
  destruct HE as (_ & _ & _ & Hload).
  intros Hl Herr suf vsuf Hall.
  destruct (list_object_items _ _ _ _ _ Hl) as [Hc Hitems].
  induction Hall as [|p v suf vsuf Hp _ IH]; intros pre acc Hps.
  - simpl. rewrite app_nil_r. reflexivity.
  - simpl. unfold PyList_GetItem, PyList_GET_SIZE. rewrite Hc, Hitems.
    assert (Hr : (0 <=? Z.of_nat (length pre))
                 && (Z.of_nat (length pre) <? Z.of_nat (length ps)) = true).
    { apply andb_true_intro. split; [apply Z.leb_le|apply Z.ltb_lt]; [lia|].
      rewrite Hps, length_app. simpl. lia. }
    rewrite Hr, Nat2Z.id.
    assert (Hitem : ps !! length pre = Some p).
    { rewrite Hps. rewrite lookup_app_r by lia. rewrite Nat.sub_diag. reflexivity. }
    rewrite Hitem. simpl.
    destruct (Hload p v convert caster_new s Hp Herr) as (c' & -> & Hget).
    simpl. rewrite Hget.
    replace (S (length pre)) with (length (pre ++ [p]))
      by (rewrite length_app; simpl; lia).
    rewrite (IH (pre ++ [p]) (acc ++ [v])).
    + rewrite <- app_assoc. reflexivity.
    + rewrite <- app_assoc. exact Hps.
Qed.

(** What [cast] of a sequence of valid elements returns: a new list whose
    items hold the elements. *)
Lemma vector_cast_holds (src : list V) policy par s :
  Forall valid src ->
  exists p s1,
    Vector.cast (value_conv:=E) src policy par s = (Returned p, s1)
    /\ holds_list holds s1 p src
    /\ err s1 = err s
    /\ gains_references s s1.
Proof.
  intros Hvalid. unfold Vector.cast, PyList_New.
  pose proof (alloc_extends PyList_Type
                (V_List (replicate (Z.to_nat (Z.of_nat (length src))) nullptr)) s)
    as [Herr0 Hext0].
  unfold alloc_object in *. simpl in Herr0, Hext0. cbv zeta.
  set (l := fresh_addr s) in *. set (s0 := set_heap _ s) in *.
  assert (Hl0 : heap s0 !! l = Some (mk_PyObject 1 PyList_Type
            (V_List ([] ++ replicate (length src) nullptr)))).
  { subst s0. simpl. rewrite Nat2Z.id. apply lookup_insert_eq. }
  destruct (cast_loop_loads_back l policy par src [] [] s0 1 PyList_Type Hvalid Hl0
              (Forall2_nil_2 _ _ _))
    as (s1 & ps & rc' & Hloop & Hl1 & Hall & Herr1 & Hkeep).
  cbn [length app] in Hloop, Hl1, Hall. change (Z.of_nat 0) with 0 in Hloop.
  exists l, s1. split; [exact Hloop|]. split.
  - split; [apply fresh_addr_not_null|]. exists rc', PyList_Type, ps. auto.
  - split; [rewrite Herr1; exact Herr0|].
    intros q o Ho. apply Hkeep; [|apply Hext0; exact Ho].
    intros ->. pose proof (fresh_addr_heap s) as Hf. fold l in Hf.
    rewrite Hf in Ho. discriminate.
Qed.

(** What [load] makes of a list whose items hold values. *)
Lemma vector_load_holds p (vs : list V) convert (self : Vector.type_caster) s :
  holds_list holds s p vs ->
  PyErr_Occurred s = false ->
  Vector.load (value_conv:=E) p convert self s
  = (true, Vector.mk_type_caster vs, s).
Proof.
  intros (Hp & rc & tp & ps & Hl & Hall) Herr.
  unfold Vector.load. destruct (list_object_items _ _ _ _ _ Hl) as [Hc Hitems].
  rewrite Hc. simpl. unfold PyList_GET_SIZE. rewrite Hitems, Nat2Z.id.
  pose proof (load_loop_loads_back p convert s rc tp ps Hl Herr ps vs Hall [] []
                eq_refl) as Hll.
  cbn [length app] in Hll. rewrite Hll. reflexivity.
Qed.

(** Sequences of elements that load back load back. *)
Lemma vector_loads_back :
  loads_back (Vector.caster (value_conv:=E)) (Forall valid) (holds_list holds).
Proof.
  pose proof HE as (Hnn & Hstable & _ & _).
  split; [|split; [|split]].
  - intros s p vs (Hp & rc & tp & ps & Hl & Hall). split; [exact Hp|].
    eexists. split; [exact Hl|]. unfold complete. simpl.
    eapply held_items_nonnull. exact Hall.
  - intros s s' p vs (Hp & rc & tp & ps & Hl & Hall) Hk. split; [exact Hp|].
    destruct (Hk _ _ Hl) as [rc' Hl'].
    { unfold complete. simpl. eapply held_items_nonnull. exact Hall. }
    exists rc', tp, ps. split; [exact Hl'|].
    eapply Forall2_impl; [exact Hall|]. intros q w Hq. eapply Hstable; eauto.
  - intros src policy par s Hvalid. apply vector_cast_holds. exact Hvalid.
  - intros p vs convert c s Hp Herr. simpl.
    rewrite (vector_load_holds p vs convert c s Hp Herr).
    eexists. split; reflexivity.
Qed.

(** C6 (amended). Container round trip: when the element caster loads back
    what it casts, every finite sequence of values it admits casts to a
    non-null host list, and, provided no host error is pending, loading that
    list gives back a sequence equal to the original, through [load] into
    any caster and through [cast_to_native] alike, without changing the
    state. *)
Theorem vector_cast_load_round_trip (src : list V) policy par (convert : bool)
    (self : Vector.type_caster) s :
  Forall valid src ->
  PyErr_Occurred s = false ->
  exists p s1,
    Vector.cast (value_conv:=E) src policy par s = (Returned p, s1)
    /\ p <> nullptr
    /\ Vector.load (value_conv:=E) p convert self s1
       = (true, Vector.mk_type_caster src, s1)
    /\ cast_to_native (H:=Vector.caster (value_conv:=E)) p s1
       = (Returned src, s1).
Proof.
  intros Hvalid Herr.
  destruct (vector_cast_holds src policy par s Hvalid)
    as (p & s1 & Hcast & Hp & Herr1 & _).
  assert (Herr' : PyErr_Occurred s1 = false).
  { unfold PyErr_Occurred in *. rewrite Herr1. exact Herr. }
  exists p, s1. split; [exact Hcast|]. split; [apply Hp|].
  split; [apply vector_load_holds; assumption|].
  unfold cast_to_native. simpl.
  rewrite (vector_load_holds p src true Vector.new s1 Hp Herr'). reflexivity.
Qed.

End Elements.

End SequenceRoundTrip.

Section TupleSlots.
Context {Obj : Type}.
Implicit Types (s : State Obj).

Lemma tuple_object_items t s rc tp items :
  heap s !! t = Some (mk_PyObject rc tp (V_Tuple items)) ->
  PyTuple_Check t s = true /\ tuple_items t s = items
  /\ PyTuple_Size t s = Z.of_nat (length items) /\ Py_REFCNT t s = rc.
Proof.
  intros H. unfold PyTuple_Size, PyTuple_Check, tuple_items, Py_REFCNT.
  rewrite H. repeat split; reflexivity.
Qed.

(** Filling a null slot of a tuple nobody else references. *)
Lemma PyTuple_SetItem_slot t i v s tp items :
  heap s !! t = Some (mk_PyObject 1 tp (V_Tuple items)) ->
  items !! i = Some nullptr ->
  exists s2,
    PyTuple_SetItem t (Z.of_nat i) v s = (0, s2)
    /\ heap s2 !! t = Some (mk_PyObject 1 tp (V_Tuple (<[i := v]> items)))
    /\ (forall q, q <> t -> heap s2 !! q = heap s !! q)
    /\ err s2 = err s /\ native s2 = native s
    /\ registered_instances s2 = registered_instances s /\ invoked s2 = invoked s.
Proof.
  intros Ht Hi. destruct (tuple_object_items _ _ _ _ _ Ht) as (Hc & Hitems & Hsize & Hrc).
  unfold PyTuple_SetItem. rewrite Hc, Hrc, Hsize, Hitems. simpl.
  pose proof (lookup_lt_Some _ _ _ Hi) as Hlt.
  assert (Hr : (0 <=? Z.of_nat i) && (Z.of_nat i <? Z.of_nat (length items)) = true).
  { apply andb_true_intro. split; [apply Z.leb_le|apply Z.ltb_lt]; lia. }
  rewrite Hr, Nat2Z.id, Hi. simpl.
  eexists. split; [reflexivity|]. simpl. split; [|split; [|repeat split]].
  - rewrite lookup_alter_eq, Ht. reflexivity.
  - intros q Hq. rewrite lookup_alter_ne by (intros E; apply Hq; symmetry; exact E).
    reflexivity.
Qed.

End TupleSlots.

Section PairRoundTrip.
Context {Obj C1 V1 C2 V2 : Type}
  (E1 : TypeCaster Obj C1 V1) (E2 : TypeCaster Obj C2 V2).
Variable valid1 : V1 -> Prop.
Variable holds1 : State Obj -> Z -> V1 -> Prop.
Variable valid2 : V2 -> Prop.
Variable holds2 : State Obj -> Z -> V2 -> Prop.
Hypothesis HE1 : round_trips E1 valid1 holds1.
Hypothesis HE2 : round_trips E2 valid2 holds2.
Implicit Types (s : State Obj).

(** X10. Round trips compose through the pair caster: when both component
    casters round-trip, so does the caster of pairs: [cast] builds a new
    two-item tuple whose items hold the components and touches no existing
    object, and [load] of such a tuple gives the pair back without changing
    the state. *)
Theorem pair_round_trips :
  round_trips (Pair.caster (first_conv:=E1) (second_conv:=E2))
    (fun v => valid1 (fst v) /\ valid2 (snd v)) (holds_pair holds1 holds2).
Proof.
  destruct HE1 as (Hnn1 & Hst1 & Hcast1 & Hload1).
  destruct HE2 as (Hnn2 & Hst2 & Hcast2 & Hload2).
  assert (Hcomplete : forall s p1 p2 (a : V1) (b : V2) rc tp,
            holds1 s p1 a -> holds2 s p2 b ->
            complete (mk_PyObject rc tp (V_Tuple [p1; p2]))).
  { intros s p1 p2 a b rc tp H1 H2. unfold complete. simpl.
    destruct (Hnn1 _ _ _ H1) as [N1 _]. destruct (Hnn2 _ _ _ H2) as [N2 _].
    intros Hin. apply elem_of_cons in Hin as [E|Hin]; [congruence|].
    apply elem_of_cons in Hin as [E|Hin]; [congruence|].
    apply elem_of_nil in Hin. exact Hin. }
  split; [|split; [|split]].
  - intros s p [a b] (Hp & rc & tp & p1 & p2 & Ht & H1 & H2). split; [exact Hp|].
    eexists. split; [exact Ht|]. eapply Hcomplete; eassumption.
  - intros s s' p [a b] (Hp & rc & tp & p1 & p2 & Ht & H1 & H2) Hk.
    split; [exact Hp|]. exists rc, tp, p1, p2. split.
    + apply Hk; [exact Ht|]. eapply Hcomplete; eassumption.
    + split; [eapply Hst1|eapply Hst2]; eauto.
  - intros [a b] policy par s [Ha Hb]. simpl in Ha, Hb. simpl. unfold Pair.cast. simpl.
    destruct (Hcast1 a policy par s Ha) as (o1 & s1 & -> & Ho1 & Hext1).
    destruct (Hcast2 b policy par s1 Hb) as (o2 & s2 & -> & Ho2 & Hext2).
    pose proof (Hst1 s1 s2 o1 a Ho1 (extends_keeps_complete _ _ Hext2)) as Ho1'.
    destruct (Hnn1 _ _ _ Ho1') as (N1 & ob1 & Hob1 & _).
    destruct (Hnn2 _ _ _ Ho2) as (N2 & ob2 & Hob2 & _).
    apply Z.eqb_neq in N1, N2. rewrite N1, N2. simpl.
    unfold PyTuple_New.
    pose proof (alloc_extends PyTuple_Type (V_Tuple (replicate (Z.to_nat 2) nullptr)) s2)
      as Hext3.
    unfold alloc_object in *. cbn [fst snd] in *.
    set (t := fresh_addr s2) in *. set (s3 := set_heap _ s2) in *.
    assert (Ht3 : heap s3 !! t = Some (mk_PyObject 1 PyTuple_Type
                                        (V_Tuple [nullptr; nullptr])))
      by (subst s3; simpl; apply lookup_insert_eq).
    assert (Hinc : forall x, ~ complete (mk_PyObject 1 PyTuple_Type
                                           (V_Tuple [x; nullptr]))).
    { intros x Hn. apply Hn. simpl. apply elem_of_cons. right.
      apply list_elem_of_here. }
    destruct (PyTuple_SetItem_slot t 0 o1 s3 PyTuple_Type _ Ht3 eq_refl)
      as (s4 & Hset4 & Ht4 & Hother4 & Herr4 & _).
    change (Z.of_nat 0) with 0 in Hset4. rewrite Hset4.
    simpl in Ht4.
    destruct (PyTuple_SetItem_slot t 1 o2 s4 PyTuple_Type _ Ht4 eq_refl)
      as (s5 & Hset5 & Ht5 & Hother5 & Herr5 & _).
    change (Z.of_nat 1) with 1 in Hset5. rewrite Hset5. simpl in Ht5.
    assert (Hk34 : keeps_complete s3 s4)
      by (eapply keeps_complete_except; [exact Ht3|apply Hinc|exact Hother4]).
    assert (Hk45 : keeps_complete s4 s5)
      by (eapply keeps_complete_except; [exact Ht4|apply Hinc|exact Hother5]).
    assert (Hk25 : keeps_complete s2 s5).
    { eapply keeps_complete_trans; [apply extends_keeps_complete, Hext3|].
      eapply keeps_complete_trans; eassumption. }
    exists t, s5. split; [reflexivity|]. split.
    + split; [apply fresh_addr_not_null|].
      exists 1, PyTuple_Type, o1, o2. split; [exact Ht5|].
      split; [eapply Hst1|eapply Hst2]; eauto.
    + destruct Hext1 as [E1' X1], Hext2 as [E2' X2], Hext3 as [E3' X3].
      split; [rewrite Herr5, Herr4, E3', E2', E1'; reflexivity|].
      intros q o Ho.
      assert (Hq : q <> t).
      { intros ->. pose proof (fresh_addr_heap s2) as Hf. fold t in Hf.
        rewrite (X2 _ _ (X1 _ _ Ho)) in Hf. discriminate. }
      rewrite Hother5, Hother4 by exact Hq. auto.
  - intros p [a b] convert c s (Hp & rc & tp & p1 & p2 & Ht & H1 & H2) Herr.
    simpl in H1, H2. simpl. unfold Pair.load.
    destruct (tuple_object_items _ _ _ _ _ Ht) as (Hc & Hitems & Hsize & _).
    assert (Hget : forall i x, [p1; p2] !! i = Some x ->
              PyTuple_GetItem p (Z.of_nat i) s = (x, s)).
    { intros i x Hi. unfold PyTuple_GetItem. rewrite Hc, Hsize, Hitems.
      pose proof (lookup_lt_Some _ _ _ Hi) as Hlt. simpl in Hlt.
      assert (Hr : (0 <=? Z.of_nat i) && (Z.of_nat i <? Z.of_nat 2) = true).
      { apply andb_true_intro. split; [apply Z.leb_le|apply Z.ltb_lt]; lia. }
      simpl length. rewrite Hr, Nat2Z.id, Hi. reflexivity. }
    pose proof (Hget 0%nat p1 eq_refl) as G0. change (Z.of_nat 0) with 0 in G0.
    pose proof (Hget 1%nat p2 eq_refl) as G1'. change (Z.of_nat 1) with 1 in G1'.
    rewrite Hc, Hsize. simpl. rewrite G0.
    destruct (Hload1 p1 a convert (Pair.first c) s H1 Herr) as (c1 & -> & G1).
    simpl. rewrite G1'.
    destruct (Hload2 p2 b convert (Pair.second c) s H2 Herr) as (c2 & -> & G2).
    eexists. split; [reflexivity|]. unfold Pair.to_pair. simpl.
    rewrite G1, G2. reflexivity.
Qed.

End PairRoundTrip.

Section RoundTripUse.
Context {Obj C V : Type} (E : TypeCaster Obj C V).
Variable valid : V -> Prop.
Variable holds : State Obj -> Z -> V -> Prop.

(** X11. What a round-tripping caster gives its user: for every valid
    native value, with no host error pending, [cast] returns a non-null host
    object without touching any existing object, and converting that object
    back with [cast_to_native] returns a value equal to the original and
    changes nothing. *)
Theorem round_trip_cast_load v policy par (s : State Obj) :
  round_trips E valid holds ->
  valid v ->
  PyErr_Occurred s = false ->
  exists p s',
    @caster_cast Obj C V E v policy par s = (Returned p, s')
    /\ p <> nullptr
    /\ extends s s'
    /\ cast_to_native (H:=E) p s' = (Returned v, s').
Proof.
  intros (Hnn & _ & Hcast & Hload) Hv Herr.
  destruct (Hcast v policy par s Hv) as (p & s' & Hc & Hp & Hext).
  exists p, s'. split; [exact Hc|]. split; [apply (Hnn _ _ _ Hp)|].
  split; [exact Hext|].
  assert (Herr' : PyErr_Occurred s' = false).
  { destruct Hext as [He _]. unfold PyErr_Occurred in *. rewrite He. exact Herr. }
  unfold cast_to_native.
  destruct (Hload p v true caster_new s' Hp Herr') as (c' & -> & Hget).
  simpl. rewrite Hget. reflexivity.
Qed.

End RoundTripUse.

(** ** Pairs, tuples and calls *)
Section PairAndTuple.
Context {Obj C1 V1 C2 V2 : Type}
  (E1 : TypeCaster Obj C1 V1) (E2 : TypeCaster Obj C2 V2).
Implicit Types (s : State Obj).

(** X12. The pair caster's [cast] is the tuple caster's [cast] at arity two:
    on every pair, policy, parent and state both give the same result and
    the same final state, whether the component casts succeed, return null
    or throw. *)
Theorem pair_cast_is_tuple_cast (a : V1) (b : V2) policy par s :
  Pair.cast (first_conv:=E1) (second_conv:=E2) (a, b) policy par s
  = TupleCast.cast
      [TupleCast.mk_component C1 V1 E1 a; TupleCast.mk_component C2 V2 E2 b]
      policy par s.
Proof.
  unfold Pair.cast, TupleCast.cast. cbn [fst snd TupleCast.cast_components].
  destruct (caster_cast a policy par s) as [[o1|e1] s1]; [|reflexivity].
  destruct (caster_cast b policy par s1) as [[o2|e2] s2]; [|reflexivity].
  cbn [TupleCast.all_succeeded TupleCast.release TupleCast.fill length].
  change (Z.of_nat 2) with 2. change (0 + 1) with 1.
  destruct (o1 =? nullptr), (o2 =? nullptr); cbn [orb]; try reflexivity.
  destruct (PyTuple_New 2 s2) as [t s3].
  destruct (PyTuple_SetItem t 0 o1 s3) as [r4 s4].
  destruct (PyTuple_SetItem t 1 o2 s4) as [r5 s5]. reflexivity.
Qed.

(** X13. The pair caster's [load] and the tuple caster's [load] at arity two
    always return the same boolean, and both refuse, touching nothing, what
    is not a tuple of two items.  On a tuple of two items the tuple caster
    always loads both elements, the second one in the state the first load
    left, and returns the conjunction of the two results; the pair caster
    does the same when the first element loads, but when the first element
    fails it stops there: its second caster is untouched and the second
    element is never loaded. *)
Theorem pair_load_and_tuple_load (src : Z) (convert : bool) (c1 : C1) (c2 : C2) s :
  let pair_run :=
    Pair.load (first_conv:=E1) (second_conv:=E2) src convert
      (Pair.mk_type_caster c1 c2) s in
  let tuple_run :=
    Tuple.load src convert
      [Tuple.mk_element C1 V1 E1 c1; Tuple.mk_element C2 V2 E2 c2] s in
  fst (fst pair_run) = fst (fst tuple_run)
  /\ (PyTuple_Check src s = false \/ PyTuple_Size src s <> 2 ->
      pair_run = (false, Pair.mk_type_caster c1 c2, s)
      /\ tuple_run
         = (false, [Tuple.mk_element C1 V1 E1 c1; Tuple.mk_element C2 V2 E2 c2], s))
  /\ (PyTuple_Check src s = true -> PyTuple_Size src s = 2 ->
      forall item0 s1 ok1 c1' s2 item1 s3 ok2 c2' s4,
        PyTuple_GetItem src 0 s = (item0, s1) ->
        caster_load item0 convert c1 s1 = (ok1, c1', s2) ->
        PyTuple_GetItem src 1 s2 = (item1, s3) ->
        caster_load item1 convert c2 s3 = (ok2, c2', s4) ->
        tuple_run
        = (ok1 && ok2,
           [Tuple.mk_element C1 V1 E1 c1'; Tuple.mk_element C2 V2 E2 c2'], s4)
        /\ pair_run
           = (if ok1 then (ok2, Pair.mk_type_caster c1' c2', s4)
              else (false, Pair.mk_type_caster c1' c2, s2))).
Proof.
  unfold Pair.load, Tuple.load, Tuple.size. cbn [length Pair.first Pair.second].
  change (Z.of_nat 2) with 2. cbv zeta.
  destruct (PyTuple_Check src s) eqn:Hc; cbn [negb orb].
  2:{ split; [reflexivity|]. split; [auto|discriminate]. }
  destruct (Z.eqb_spec (PyTuple_Size src s) 2) as [Hsz|Hsz]; cbn [negb].
  2:{ split; [reflexivity|]. split; [auto|]. intros _ Hsz'. contradiction. }
  cbn [Tuple.load_elements]. change (0 + 1) with 1.
  split; [|split; [intros [Hn|Hn]; [discriminate|contradiction]|]].
  - destruct (PyTuple_GetItem src 0 s) as [item0 s1].
    destruct (caster_load item0 convert c1 s1) as [[ok1 c1'] s2].
    destruct (PyTuple_GetItem src 1 s2) as [item1 s3].
    destruct (caster_load item1 convert c2 s3) as [[ok2 c2'] s4].
    destruct ok1, ok2; reflexivity.
  - intros _ _ item0 s1 ok1 c1' s2 item1 s3 ok2 c2' s4 -> -> -> ->.
    split; [destruct ok1, ok2; reflexivity|destruct ok1; reflexivity].
Qed.

End PairAndTuple.

Section TupleCastAndCall.
Context {Obj : Type}.
Implicit Types (s : State Obj) (results : list Z).


Lemma handle_fill_eq results : forall t counter s,
  Handle.fill (Obj:=Obj) t counter results s = TupleCast.fill t counter results s.
Proof.
  induction results as [|r rest IH]; intros t counter s; simpl; [reflexivity|].
  destruct (PyTuple_SetItem t counter r s). apply IH.
Qed.



Lemma any_failed_spec results :
  Handle.any_failed results false = false <-> nullptr ∉ results.
Proof.
  induction results as [|r rest IH]; simpl.
  - split; [intros _; apply not_elem_of_nil|reflexivity].
  - destruct (Z.eqb_spec r nullptr) as [->|Hr].
    + rewrite any_failed_true. split; [discriminate|].
      intros Hn. contradiction Hn. apply list_elem_of_here.
    + rewrite IH. split.
      * intros Hn Hin. apply elem_of_cons in Hin as [E|Hin]; [congruence|auto].
      * intros Hn Hin. apply Hn. apply elem_of_cons. right. exact Hin.
Qed.

(** Filling the remaining null slots of a tuple nobody else references. *)
Lemma fill_slots t tp (rest : list Z) : forall (filled : list Z) s,
  heap s !! t = Some (mk_PyObject 1 tp
                        (V_Tuple (filled ++ replicate (length rest) nullptr))) ->
  let s' := TupleCast.fill t (Z.of_nat (length filled)) rest s in
  heap s' !! t = Some (mk_PyObject 1 tp (V_Tuple (filled ++ rest)))
  /\ (forall q, q <> t -> heap s' !! q = heap s !! q)
  /\ err s' = err s /\ native s' = native s
  /\ registered_instances s' = registered_instances s /\ invoked s' = invoked s.
Proof.
  induction rest as [|r rest IH]; intros filled s Ht; simpl.
  - simpl in Ht. repeat split; auto.
  - assert (Hslot : (filled ++ replicate (length (r :: rest)) nullptr)
                      !! length filled = Some nullptr).
    { rewrite lookup_app_r by lia. rewrite Nat.sub_diag. reflexivity. }
    destruct (PyTuple_SetItem_slot t (length filled) r s tp _ Ht Hslot)
      as (s2 & Hset & Ht2 & Hother & He & Hn & Hr & Hi).
    rewrite Hset.
    assert (Ht2' : heap s2 !! t = Some (mk_PyObject 1 tp
              (V_Tuple ((filled ++ [r]) ++ replicate (length rest) nullptr)))).
    { rewrite Ht2. do 3 f_equal. simpl.
      rewrite insert_app_r_alt by lia. rewrite Nat.sub_diag. simpl.
      rewrite <- app_assoc. reflexivity. }
    replace (Z.of_nat (length filled) + 1) with (Z.of_nat (length (filled ++ [r])))
      by (rewrite length_app; simpl; lia).
    destruct (IH (filled ++ [r]) s2 Ht2') as (Ht' & Hother' & He' & Hn' & Hr' & Hi').
    rewrite <- app_assoc in Ht'. simpl in Ht'.
    split; [exact Ht'|]. split.
    + intros q Hq. rewrite Hother', Hother by exact Hq. reflexivity.
    + repeat split; congruence.
Qed.

Lemma new_tuple_filled (results : list Z) s :
  let t := fresh_addr s in
  let s' := TupleCast.fill t 0 results
              (snd (PyTuple_New (Z.of_nat (length results)) s)) in
  heap s !! t = None
  /\ heap s' !! t = Some (mk_PyObject 1 PyTuple_Type (V_Tuple results))
  /\ (forall q, q <> t -> heap s' !! q = heap s !! q)
  /\ err s' = err s /\ native s' = native s
  /\ registered_instances s' = registered_instances s /\ invoked s' = invoked s.
Proof.
  intros t s'. unfold PyTuple_New, alloc_object in s'. cbn [snd] in s'.
  fold t in s'. split; [apply fresh_addr_heap|].
  set (s0 := set_heap _ s) in s'.
  assert (Ht0 : heap s0 !! t = Some (mk_PyObject 1 PyTuple_Type
            (V_Tuple ([] ++ replicate (length results) nullptr)))).
  { subst s0. simpl. rewrite Nat2Z.id. apply lookup_insert_eq. }
  destruct (fill_slots t PyTuple_Type results [] s0 Ht0)
    as (Ht & Hother & He & Hn & Hr & Hi).
  cbn [length app] in Ht, Hother, He, Hn, Hr, Hi.
  change (Z.of_nat 0) with 0 in *. fold s' in Ht, Hother, He, Hn, Hr, Hi.
  split; [exact Ht|]. split.
  - intros q Hq. rewrite Hother by exact Hq. subst s0. simpl.
    apply lookup_insert_ne. intros E. apply Hq. symmetry. exact E.
  - repeat split; assumption.
Qed.


Lemma cast_arguments_length (args_ : list (Handle.argument (Obj:=Obj))) :
  forall s args s1,
  Handle.cast_arguments args_ s = (Returned args, s1) ->
  length args = length args_.
Proof.
  induction args_ as [|a rest IH]; intros s args s1; simpl.
  - intros [= <- _]. reflexivity.
  - destruct (a automatic nullptr s) as [[r|e] s']; [|discriminate].
    destruct (Handle.cast_arguments rest s') as [[rs|e] s''] eqn:Hrest;
      [|discriminate].
    intros [= <- _]. simpl. f_equal. eapply IH. exact Hrest.
Qed.


Variable host_call : Z -> Z -> State Obj -> Z * State Obj.

(** X15. A successful [call] with at least one argument: when every
    argument cast returns a non-null value, the callable is invoked exactly
    once by [call], with a newly allocated tuple whose items are exactly the
    values produced, in order;
    no other host object is touched before the invocation, and [call]
    returns what the callable returned after dropping its reference to the
    tuple. *)
Theorem call_invokes_once (m_ptr : Z) (args_ : list (Handle.argument (Obj:=Obj)))
    s args s1 :
  args_ <> [] ->
  Handle.cast_arguments args_ s = (Returned args, s1) ->
  nullptr ∉ args ->
  exists s3,
    heap s1 !! fresh_addr s1 = None
    /\ heap s3 !! fresh_addr s1 = Some (mk_PyObject 1 PyTuple_Type (V_Tuple args))
    /\ (forall q, q <> fresh_addr s1 -> heap s3 !! q = heap s1 !! q)
    /\ invoked s3 = invoked s1 ++ [(m_ptr, fresh_addr s1)]
    /\ Handle.call host_call m_ptr args_ s
       = (Returned (fst (host_call m_ptr (fresh_addr s1) s3)),
          Py_DECREF (fresh_addr s1) (snd (host_call m_ptr (fresh_addr s1) s3))).
Proof.
  intros _ Hcast Hnn. pose proof (cast_arguments_length _ _ _ _ Hcast) as Hlen.
  unfold Handle.call. rewrite Hcast.
  apply any_failed_spec in Hnn as Hany. rewrite Hany.
  destruct (new_tuple_filled args s1) as (Hfresh & Ht & Hother & _ & _ & _ & Hinv).
  rewrite <- Hlen. unfold PyTuple_New, alloc_object in *. cbn [fst snd] in *.
  cbv zeta. rewrite handle_fill_eq.
  set (t := fresh_addr s1) in *.
  set (s3 := TupleCast.fill t 0 args _) in *.
  exists (set_invoked (invoked s3 ++ [(m_ptr, t)]) s3).
  split; [exact Hfresh|]. split; [exact Ht|]. split; [exact Hother|].
  split; [simpl; rewrite Hinv; reflexivity|].
  unfold PyObject_CallObject.
  destruct (host_call m_ptr t (set_invoked (invoked s3 ++ [(m_ptr, t)]) s3)).
  reflexivity.
Qed.

End TupleCastAndCall.

Section VectorLoadSuccess.
Context {Obj C V : Type} `{value_conv : TypeCaster Obj C V}.
Implicit Types (s : State Obj) (vals : list V).

Lemma load_loop_elements src convert s0 : forall n k acc s vals s',
  elements_loaded src convert k s0 acc s ->
  Vector.load_loop src convert (seq k n) acc s = (true, vals, s') ->
  elements_loaded src convert (k + n) s0 vals s'.
Proof.
  induction n as [|n IH]; intros k acc s vals s' Hpre; simpl.
  - intros [= <- <-]. rewrite Nat.add_0_r. exact Hpre.
  - destruct (PyList_GetItem src (Z.of_nat k) s) as [item s1] eqn:Hitem.
    destruct (caster_load item convert caster_new s1) as [[ok conv] s2] eqn:Hload.
    destruct ok; simpl; [|discriminate].
    intros Hloop. replace (k + S n)%nat with (S k + n)%nat by lia.
    eapply IH; [|exact Hloop]. econstructor; eassumption.
Qed.

(** X16. The sequence caster's [load] succeeds exactly when every element
    of the host list loads: for a host list, [load] returns true with the
    vector [vals] in state [s'] if and only if loading the elements one
    after the other, each into a fresh element caster, succeeds for all of
    them, yields [vals] in order and ends in [s']. *)
Theorem vector_load_succeeds_iff (src : Z) (convert : bool)
    (self : Vector.type_caster) s vals s' :
  PyList_Check src s = true ->
  Vector.load src convert self s = (true, Vector.mk_type_caster vals, s')
  <-> elements_loaded src convert (length (list_items src s)) s vals s'.
Proof.
  intros Hc. unfold Vector.load. rewrite Hc. simpl.
  unfold PyList_GET_SIZE. rewrite Nat2Z.id. split.
  - destruct (Vector.load_loop src convert (seq 0 (length (list_items src s))) [] s)
      as [[ok vs] t] eqn:Hloop.
    intros [= -> -> ->].
    apply (load_loop_elements src convert s _ 0%nat [] s vals s'
             (elements_loaded_O _ _ _) Hloop).
  - intros Hall.
    pose proof (load_loop_prefix _ _ _ _ _ _ Hall 0%nat) as Hp.
    rewrite Nat.add_0_r in Hp. rewrite Hp. reflexivity.
Qed.

End VectorLoadSuccess.

(** ** The string caster *)
Section StringLoad.
Context {Obj : Type}.
Implicit Types (s : State Obj).

Lemma utf8_encode_cp_zero_free c bytes :
  utf8_encode_cp c = Some bytes -> c <> 0 -> 0 ∉ bytes.
Proof.
  unfold utf8_encode_cp.
  assert (Hlor : forall a b, a <> 0 -> Z.lor a b <> 0).
  { intros a b Ha H. apply Z.lor_eq_0_iff in H. tauto. }
  assert (Hnone : forall l : list Z, Forall (fun b => b <> 0) l -> 0 ∉ l).
  { intros l Hl Hin. rewrite Forall_forall in Hl. apply (Hl 0 Hin). reflexivity. }
  destruct (c <? 0); [discriminate|].
  destruct (Z.ltb_spec c 128).
  { intros [= <-] Hc. apply Hnone. repeat constructor. exact Hc. }
  destruct (c <? 2048).
  { intros [= <-] _. apply Hnone. repeat constructor; apply Hlor; discriminate. }
  destruct ((55296 <=? c) && (c <=? 57343)); [discriminate|].
  destruct (c <? 65536).
  { intros [= <-] _. apply Hnone. repeat constructor; apply Hlor; discriminate. }
  destruct (c <=? 1114111); [|discriminate].
  intros [= <-] _. apply Hnone. repeat constructor; apply Hlor; discriminate.
Qed.

Lemma utf8_encode_zero_free cps bytes :
  utf8_encode cps = Some bytes -> 0 ∉ cps -> 0 ∉ bytes.
Proof.
  revert bytes. induction cps as [|c cps IH]; intros bytes; simpl.
  - intros [= <-] _. apply not_elem_of_nil.
  - destruct (utf8_encode_cp c) as [b|] eqn:Hc; [|discriminate].
    destruct (utf8_encode cps) as [bs|]; [|discriminate].
    intros [= <-] Hn. intros Hin. apply elem_of_app in Hin as [Hin|Hin].
    + revert Hin. apply (utf8_encode_cp_zero_free c b Hc).
      intros ->. apply Hn. apply list_elem_of_here.
    + revert Hin. apply IH; [reflexivity|].
      intros Hin. apply Hn. apply elem_of_cons. right. exact Hin.
Qed.

Lemma utf8_encode_app pre post :
  utf8_encode (pre ++ post)
  = match utf8_encode pre, utf8_encode post with
    | Some a, Some b => Some (a ++ b)
    | _, _ => None
    end.
Proof.
  induction pre as [|c pre IH]; simpl.
  - destruct (utf8_encode post); reflexivity.
  - rewrite IH. destruct (utf8_encode_cp c); [|reflexivity].
    destruct (utf8_encode pre); [|reflexivity].
    destruct (utf8_encode post); [|reflexivity].
    rewrite app_assoc. reflexivity.
Qed.

Lemma c_string_zero_free bytes : 0 ∉ bytes -> Str.c_string bytes = bytes.
Proof.
  induction bytes as [|b rest IH]; simpl; [reflexivity|]. intros Hn.
  destruct (Z.eqb_spec b 0) as [->|_].
  - contradiction Hn. apply list_elem_of_here.
  - f_equal. apply IH. intros Hin. apply Hn. apply elem_of_cons. right. exact Hin.
Qed.

Lemma c_string_stops a b : 0 ∉ a -> Str.c_string (a ++ 0 :: b) = a.
Proof.
  induction a as [|x a IH]; simpl; [reflexivity|]. intros Hn.
  destruct (Z.eqb_spec x 0) as [->|_].
  - contradiction Hn. apply list_elem_of_here.
  - f_equal. apply IH. intros Hin. apply Hn. apply elem_of_cons. right. exact Hin.
Qed.

(** X17. The [std::string] caster's [load] of a host string: it fails, with
    the error indicator cleared, exactly when the string cannot be encoded
    as UTF-8; otherwise it succeeds without changing the state.  A string
    without the code point 0 loads as its whole UTF-8 encoding; a string
    with one loads truncated: only the encoding of the code points before
    the first 0 arrives, and whatever follows is silently dropped. *)
Theorem string_load_outcomes (src : Z) (convert : bool) (self : Str.type_caster)
    s o cps :
  heap s !! src = Some o ->
  ob_val o = V_Unicode cps ->
  (utf8_encode cps = None ->
   Str.load src convert self s = (false, self, PyErr_Clear s))
  /\ (forall bytes, utf8_encode cps = Some bytes ->
        Str.load src convert self s
        = (true, Str.mk_type_caster (Str.c_string bytes), s)
        /\ (0 ∉ cps -> Str.c_string bytes = bytes)
        /\ (forall pre post, cps = pre ++ 0 :: post -> 0 ∉ pre ->
              utf8_encode pre = Some (Str.c_string bytes))).
Proof.
  intros Ho Hval. destruct o as [rc tp v]. simpl in Hval. subst v.
  assert (Hload : Str.load src convert self s =
            match utf8_encode cps with
            | Some bytes => (true, Str.mk_type_caster (Str.c_string bytes), s)
            | None => (false, self, PyErr_Clear s)
            end).
  { unfold Str.load, PyUnicode_AsUTF8. rewrite Ho.
    destruct (utf8_encode cps); reflexivity. }
  split.
  - intros Hn. rewrite Hload, Hn. reflexivity.
  - intros bytes Hb. split; [rewrite Hload, Hb; reflexivity|]. split.
    + intros Hn. apply c_string_zero_free. eapply utf8_encode_zero_free; eassumption.
    + intros pre post -> Hpre. rewrite utf8_encode_app in Hb.
      destruct (utf8_encode pre) as [a|] eqn:Ha; [|discriminate].
      change (utf8_encode (0 :: post)) with
        (match utf8_encode post with Some bs => Some ([0] ++ bs) | None => None end)
        in Hb.
      destruct (utf8_encode post) as [b|]; [|discriminate].
      injection Hb as <-. f_equal. symmetry. apply c_string_stops.
      eapply utf8_encode_zero_free; [exact Ha|exact Hpre].
Qed.

End StringLoad.

(** ** The number casters *)
Section NumberCasters.
Context {Obj : Type}.
Variable to_type : Z -> Z.
Variable to_py_type : Z -> Z.
Variable from_type : Z -> State Obj -> Z * State Obj.
Variable to_pytype : Z -> State Obj -> Z * State Obj.
Variables lo hi : Z.
Variable range : Z -> Prop.
Variable valid : Z -> Prop.

Hypothesis from_accepts : forall p s o z,
  heap s !! p = Some o -> ob_val o = V_Long z -> lo <= z <= hi ->
  from_type p s = (z, s).
Hypothesis from_refuses : forall p s o z,
  heap s !! p = Some o -> ob_val o = V_Long z -> ~ lo <= z <= hi ->
  exists x e msg,
    from_type p s = (x, PyErr_SetString e msg s) /\ to_type x = to_type (-1).
Hypothesis to_allocates : forall z s,
  to_pytype z s = alloc_object PyLong_Type (V_Long z) s.
Hypothesis range_fits : forall v,
  range v -> to_py_type v = v /\ lo <= v <= hi /\ to_type v = v.
Hypothesis valid_range : forall v, valid v -> range v.

Local Abbreviation E := (Number.caster to_type to_py_type from_type to_pytype).

Lemma number_loads_range : loads_range E lo hi to_type.
Proof.
  intros src convert self s o z Ho Hz. simpl. unfold Number.load.
  split; [|split].
  - intros Hr Hgo. rewrite (from_accepts _ _ _ _ Ho Hz Hr). simpl.
    destruct Hgo as [Herr|Hne].
    + rewrite Herr, andb_false_r. reflexivity.
    + apply Z.eqb_neq in Hne. rewrite Hne. reflexivity.
  - intros Hr Herr Heq. rewrite (from_accepts _ _ _ _ Ho Hz Hr). simpl.
    rewrite Herr, Heq, Z.eqb_refl. reflexivity.
  - intros Hr. destruct (from_refuses _ _ _ _ Ho Hz Hr) as (x & e & msg & -> & Hx).
    simpl. rewrite Hx, Z.eqb_refl. reflexivity.
Qed.

Lemma number_round_trips : round_trips E valid (holds_number range).
Proof.
  split; [|split; [|split]].
  - intros s p v (Hp & _ & rc & tp & Hl). split; [exact Hp|].
    eexists. split; [exact Hl|exact I].
  - intros s s' p v (Hp & Hv & rc & tp & Hl) Hk. split; [exact Hp|].
    split; [exact Hv|]. exists rc, tp. apply Hk; [exact Hl|exact I].
  - intros v policy par s Hv. apply valid_range in Hv. simpl. unfold Number.cast.
    destruct (range_fits v Hv) as (-> & _ & _). rewrite to_allocates.
    pose proof (alloc_extends PyLong_Type (V_Long v) s) as Hext.
    unfold alloc_object in *. simpl in *.
    eexists _, _. split; [reflexivity|]. split; [|exact Hext].
    split; [apply fresh_addr_not_null|]. split; [exact Hv|].
    exists 1, PyLong_Type. simpl. apply lookup_insert_eq.
  - intros p v convert c s (Hp & Hv & rc & tp & Hl) Herr.
    destruct (range_fits v Hv) as (_ & Hr & Hid).
    destruct (number_loads_range p convert c s _ v Hl eq_refl) as (Hok & _).
    rewrite (Hok Hr (or_introl Herr)), Hid. eexists. split; reflexivity.
Qed.

End NumberCasters.

Section IntegerCasters.
Context {Obj : Type}.

Lemma uint32_t_host :
  (forall p (s : State Obj) o z,
     heap s !! p = Some o -> ob_val o = V_Long z -> 0 <= z <= ULONG_MAX ->
     PyLong_AsUnsignedLong p s = (z, s))
  /\ (forall p (s : State Obj) o z,
        heap s !! p = Some o -> ob_val o = V_Long z -> ~ 0 <= z <= ULONG_MAX ->
        exists x e msg,
          PyLong_AsUnsignedLong p s = (x, PyErr_SetString e msg s)
          /\ to_uint32 x = to_uint32 (-1)).
Proof.
  split; intros p s o z Ho Hz Hr; unfold PyLong_AsUnsignedLong; rewrite Ho, Hz.
  - replace ((0 <=? z) && (z <=? ULONG_MAX)) with true; [reflexivity|].
    symmetry. apply andb_true_intro. split; apply Z.leb_le; lia.
  - replace ((0 <=? z) && (z <=? ULONG_MAX)) with false.
    2:{ symmetry. apply not_true_is_false. intros H.
        apply andb_prop in H as [H1 H2]. apply Z.leb_le in H1, H2. lia. }
    destruct (z <? 0); eexists _, _, _; (split; [reflexivity|reflexivity]).
Qed.

Lemma int64_t_host :
  (forall p (s : State Obj) o z,
     heap s !! p = Some o -> ob_val o = V_Long z -> LLONG_MIN <= z <= LLONG_MAX ->
     PyLong_AsLongLong p s = (z, s))
  /\ (forall p (s : State Obj) o z,
        heap s !! p = Some o -> ob_val o = V_Long z ->
        ~ LLONG_MIN <= z <= LLONG_MAX ->
        exists x e msg,
          PyLong_AsLongLong p s = (x, PyErr_SetString e msg s)
          /\ to_int64 x = to_int64 (-1)).
Proof.
  split; intros p s o z Ho Hz Hr; unfold PyLong_AsLongLong; rewrite Ho, Hz.
  - replace ((LLONG_MIN <=? z) && (z <=? LLONG_MAX)) with true; [reflexivity|].
    symmetry. apply andb_true_intro. split; apply Z.leb_le; lia.
  - replace ((LLONG_MIN <=? z) && (z <=? LLONG_MAX)) with false.
    2:{ symmetry. apply not_true_is_false. intros H.
        apply andb_prop in H as [H1 H2]. apply Z.leb_le in H1, H2. lia. }
    eexists _, _, _. split; reflexivity.
Qed.

Lemma uint64_t_host :
  (forall p (s : State Obj) o z,
     heap s !! p = Some o -> ob_val o = V_Long z -> 0 <= z <= ULLONG_MAX ->
     PyLong_AsUnsignedLongLong p s = (z, s))
  /\ (forall p (s : State Obj) o z,
        heap s !! p = Some o -> ob_val o = V_Long z -> ~ 0 <= z <= ULLONG_MAX ->
        exists x e msg,
          PyLong_AsUnsignedLongLong p s = (x, PyErr_SetString e msg s)
          /\ to_uint64 x = to_uint64 (-1)).
Proof.
  split; intros p s o z Ho Hz Hr; unfold PyLong_AsUnsignedLongLong; rewrite Ho, Hz.
  - replace ((0 <=? z) && (z <=? ULLONG_MAX)) with true; [reflexivity|].
    symmetry. apply andb_true_intro. split; apply Z.leb_le; lia.
  - replace ((0 <=? z) && (z <=? ULLONG_MAX)) with false.
    2:{ symmetry. apply not_true_is_false. intros H.
        apply andb_prop in H as [H1 H2]. apply Z.leb_le in H1, H2. lia. }
    destruct (z <? 0); eexists _, _, _; (split; [reflexivity|reflexivity]).
Qed.

Lemma uint32_t_fits v :
  in_uint32 v -> to_uint64 v = v /\ 0 <= v <= ULONG_MAX /\ to_uint32 v = v.
Proof.
  unfold in_uint32, to_uint64, to_uint32, ULONG_MAX, LONG_BIT. intros Hv.
  rewrite !Z.mod_small by lia. lia.
Qed.

Lemma int64_t_fits v :
  in_int64 v -> to_int64 v = v /\ LLONG_MIN <= v <= LLONG_MAX /\ to_int64 v = v.
Proof.
  unfold in_int64, to_int64, LLONG_MIN, LLONG_MAX. intros Hv.
  rewrite !Z.mod_small by lia. lia.
Qed.

Lemma uint64_t_fits v :
  in_uint64 v -> to_uint64 v = v /\ 0 <= v <= ULLONG_MAX /\ to_uint64 v = v.
Proof.
  unfold in_uint64, to_uint64, ULLONG_MAX. intros Hv.
  rewrite !Z.mod_small by lia. lia.
Qed.

(** X19. The casters of [uint32_t], [int64_t] and [uint64_t] round-trip:
    [cast] of a value of the type of which the host makes a new object (a
    value outside -5..256) builds a new integer object of that value and
    touches no existing object, and [load] of an integer object whose value
    is in the range of the type, shared or not, gives that value and changes
    nothing, when no host error is pending. *)
Theorem integer_casters_round_trip :
  round_trips (Obj:=Obj) uint32_t_caster
    (fun v => in_uint32 v /\ ~ small_int v) (holds_number in_uint32)
  /\ round_trips (Obj:=Obj) int64_t_caster
       (fun v => in_int64 v /\ ~ small_int v) (holds_number in_int64)
  /\ round_trips (Obj:=Obj) uint64_t_caster
       (fun v => in_uint64 v /\ ~ small_int v) (holds_number in_uint64).
Proof.
  split; [|split].
  - apply (number_round_trips to_uint32 to_uint64 PyLong_AsUnsignedLong
             PyLong_FromUnsignedLong 0 ULONG_MAX in_uint32);
      [apply uint32_t_host|apply uint32_t_host|intros; reflexivity
      |apply uint32_t_fits|intros v [Hv _]; exact Hv].
  - apply (number_round_trips to_int64 to_int64 PyLong_AsLongLong
             PyLong_FromLongLong LLONG_MIN LLONG_MAX in_int64);
      [apply int64_t_host|apply int64_t_host|intros; reflexivity
      |apply int64_t_fits|intros v [Hv _]; exact Hv].
  - apply (number_round_trips to_uint64 to_uint64 PyLong_AsUnsignedLongLong
             PyLong_FromUnsignedLongLong 0 ULLONG_MAX in_uint64);
      [apply uint64_t_host|apply uint64_t_host|intros; reflexivity
      |apply uint64_t_fits|intros v [Hv _]; exact Hv].
Qed.

(** X20. What the [load] of the [uint32_t], [int64_t] and [uint64_t] casters
    makes of an integer object.  A value the host conversion accepts (0 to
    2^64 - 1 for the unsigned types, the [long long] range for [int64_t])
    loads wrapped into the native type, so the [uint32_t] caster does not
    reject a value from 2^32 up but reduces it modulo 2^32; a negative value
    is refused by the unsigned types.  A value that reads as the wrapped -1
    (the largest value of an unsigned type, -1 for [int64_t]) loads only
    when no host error is pending: with an error pending from before, the
    load fails and clears that error.  A refused value fails to load and
    leaves no error pending. *)
Theorem integer_load_outcomes :
  loads_range (Obj:=Obj) uint32_t_caster 0 ULONG_MAX to_uint32
  /\ loads_range (Obj:=Obj) int64_t_caster LLONG_MIN LLONG_MAX to_int64
  /\ loads_range (Obj:=Obj) uint64_t_caster 0 ULLONG_MAX to_uint64
  /\ (forall z, to_uint32 z = z <-> in_uint32 z)
  /\ (forall z, LLONG_MIN <= z <= LLONG_MAX -> to_int64 z = z)
  /\ (forall z, 0 <= z <= ULLONG_MAX -> to_uint64 z = z).
Proof.
  split; [|split; [|split; [|split; [|split]]]].
  - apply (number_loads_range to_uint32 to_uint64 PyLong_AsUnsignedLong
             PyLong_FromUnsignedLong 0 ULONG_MAX); apply uint32_t_host.
  - apply (number_loads_range to_int64 to_int64 PyLong_AsLongLong
             PyLong_FromLongLong LLONG_MIN LLONG_MAX); apply int64_t_host.
  - apply (number_loads_range to_uint64 to_uint64 PyLong_AsUnsignedLongLong
             PyLong_FromUnsignedLongLong 0 ULLONG_MAX); apply uint64_t_host.
  - intros z. unfold to_uint32, in_uint32. split.
    + intros <-. apply Z.mod_pos_bound. lia.
    + intros Hz. apply Z.mod_small. exact Hz.
  - intros z. unfold to_int64, LLONG_MIN, LLONG_MAX. intros Hz.
    rewrite Z.mod_small by lia. lia.
  - intros z. unfold to_uint64, ULLONG_MAX. intros Hz. apply Z.mod_small. lia.
Qed.

End IntegerCasters.



(** * Concrete instances of the further properties *)

(** Witness of X1: the pointer 60 has no wrapper yet; casting it enters a new
    wrapper under 60 and leaves the wrapper at 20, the native object at 50
    and the registry entry of 50 as they were. *)
Lemma cast_frame_witness :
  let s := Ex.world [Ex.wrapper] [(50, 20)] in
  let run := Generic.cast Ex.types "Foo" None 60 reference nullptr s in
  run = (Returned 101, snd run)
  /\ gains_references s (snd run)
  /\ native (snd run) !! 50 = Some 7
  /\ invoked (snd run) = []
  /\ registered_instances (snd run) !! 50 = Some 20
  /\ registered_instances (snd run) !! 60 = Some 101.
Proof.
  intros s run.
  assert (H : run = (Returned 101, snd run)) by (vm_compute; reflexivity).
  destruct (cast_frame Ex.types "Foo" None 60 reference nullptr s _ _ H)
    as (Hg & Hn & Hi & _).
  split; [exact H|]. split; [exact Hg|]. split; [apply Hn; reflexivity|].
  split; [rewrite Hi; reflexivity|]. split; vm_compute; reflexivity.
Defined.

(** Witness of X4: with an empty registry, casting the pointer 50 under
    [take_ownership] gives a new owning wrapper at 101, registered under
    50. *)
Lemma cast_new_wrapper_witness :
  let s := Ex.world [] [] in
  let run := Generic.cast Ex.types "Foo" None 50 take_ownership nullptr s in
  fst run = Returned 101
  /\ get_instance 101 (snd run) = Some (mk_instance 50 true nullptr 50)
  /\ Py_TYPE 101 (snd run) = Ex.Foo_type
  /\ registered_instances (snd run) !! 50 = Some 101.
Proof.
  intros s run.
  destruct (cast_new_wrapper Ex.types "Foo" None 50 take_ownership nullptr s
              Ex.Foo_info) as (s' & Hcast & _ & _ & Hget & Hty & Hreg);
    [unfold nullptr; lia|reflexivity|reflexivity|discriminate|].
  subst run. rewrite Hcast. cbn [fst snd].
  split; [reflexivity|]. split; [exact Hget|]. split; [exact Hty|].
  rewrite Hreg. reflexivity.
Defined.

(** Witness of X5: the wrapper at 20 wraps the pointer 50 and is registered
    for it; casting 50 with that wrapper as parent under
    [reference_internal] gives a second wrapper at 101, and the registry
    still maps 50 to 20. *)
Lemma cast_self_reference_witness :
  let s := Ex.world [Ex.wrapper] [(50, 20)] in
  let run := Generic.cast Ex.types "Foo" None 50 reference_internal 20 s in
  fst run = Returned 101
  /\ registered_instances (snd run) !! 50 = Some 20
  /\ Py_REFCNT 20 (snd run) = 2.
Proof.
  intros s run.
  destruct (cast_self_reference Ex.types "Foo" None 50 20 s Ex.Foo_info
              (snd Ex.wrapper))
    as (inst & s' & i & Hcast & Hnone & _ & _ & _ & _ & Hreg & Hcount);
    [unfold nullptr; lia|unfold nullptr; lia|reflexivity|reflexivity|reflexivity|].
  assert (Hrun : run = (Returned 101, snd run)) by (vm_compute; reflexivity).
  subst run. rewrite Hcast in Hrun |- *. injection Hrun as ->. cbn [fst snd].
  split; [reflexivity|]. split; [rewrite Hreg; reflexivity|exact Hcount].
Defined.

(** The registry of the example world that registers the wrapper at 20 for
    the pointer 50 is consistent. *)
Lemma example_registry_consistent :
  registry_consistent Ex.Foo_type (Ex.world [Ex.wrapper] [(50, 20)]).
Proof.
  intros p o Hp.
  change (registered_instances (Ex.world [Ex.wrapper] [(50, 20)]))
    with (<[50 := 20]> (∅ : gmap Z Z)) in Hp.
  apply lookup_insert_Some in Hp as [[<- <-]|[_ Hp]];
    [|rewrite lookup_empty in Hp; discriminate].
  split; [unfold nullptr; lia|].
  exists (mk_instance 50 false nullptr 50). repeat split; reflexivity.
Qed.

(** Witness of X2: casting a second pointer in a world with a consistent
    registry leaves the registry consistent. *)
Lemma cast_preserves_registry_consistency_witness :
  let s := Ex.world [Ex.wrapper] [(50, 20)] in
  let run := Generic.cast Ex.types "Foo" None 60 reference nullptr s in
  registry_consistent Ex.Foo_type s
  /\ registered_instances (snd run) !! 60 = Some 101
  /\ registry_consistent Ex.Foo_type (snd run).
Proof.
  intros s run. split; [apply example_registry_consistent|].
  split; [vm_compute; reflexivity|].
  apply (cast_preserves_registry_consistency Ex.types "Foo" None Ex.Foo_type
           60 reference nullptr s (fst run) (snd run)).
  - intros ti [= <-]. reflexivity.
  - apply example_registry_consistent.
  - apply surjective_pairing.
Defined.

(** Witness of X3: the pointer 50, registered or not yet registered, casts
    to a wrapper that loads back to 50. *)
Lemma cast_load_round_trip_witness :
  let s := Ex.world [Ex.wrapper] [(50, 20)] in
  let run := Generic.cast Ex.types "Foo" None 50 automatic nullptr s in
  let run' := Generic.cast Ex.types "Foo" None 60 automatic nullptr s in
  run = (Returned 20, snd run)
  /\ Generic.value
       (snd (fst (Generic.load 20 false (Generic.new Ex.types "Foo") (snd run)))) = 50
  /\ run' = (Returned 101, snd run')
  /\ Generic.value
       (snd (fst (Generic.load 101 true (Generic.new Ex.types "Foo") (snd run')))) = 60.
Proof.
  intros s run run'.
  assert (Hrun : run = (Returned 20, snd run)) by (vm_compute; reflexivity).
  assert (Hrun' : run' = (Returned 101, snd run')) by (vm_compute; reflexivity).
  split; [exact Hrun|].
  destruct (cast_load_round_trip Ex.types "Foo" None 50 automatic nullptr s
              Ex.Foo_info false)
    as (inst & s' & Hcast & _ & Hload);
    [unfold nullptr; lia|reflexivity|apply example_registry_consistent|discriminate|].
  subst run. rewrite Hcast in Hrun |- *. injection Hrun as ->. cbn [snd].
  rewrite Hload. split; [reflexivity|]. split; [exact Hrun'|].
  destruct (cast_load_round_trip Ex.types "Foo" None 60 automatic nullptr s
              Ex.Foo_info true)
    as (inst' & s2 & Hcast' & _ & Hload');
    [unfold nullptr; lia|reflexivity|apply example_registry_consistent|discriminate|].
  subst run'. rewrite Hcast' in Hrun' |- *. injection Hrun' as ->. cbn [snd].
  rewrite Hload'. reflexivity.
Defined.


(** Witness of X6: the integer 2^32 + 5 fits a C [long] and loads as the
    [int32_t] 5; the string ["x"] does not load. *)
Lemma int32_load_outcomes_witness :
  let s := Ex.world [(12, mk_PyObject 1 PyLong_Type (V_Long (2 ^ 32 + 5)));
                     Ex.str_x] [] in
  Int32.load 12 true Int32.new s = (true, Int32.mk_type_caster 5, s)
  /\ Int32.load 11 true Int32.new s = (false, Int32.mk_type_caster (-1), s).
Proof.
  intros s. split.
  - destruct (int32_load_outcomes 12 true Int32.new s) as (_ & H).
    destruct (H eq_refl) as (Hlong & _).
    destruct (Hlong (mk_PyObject 1 PyLong_Type (V_Long (2 ^ 32 + 5))) (2 ^ 32 + 5)
                eq_refl eq_refl) as [Hfit _].
    destruct Hfit as (Hload & _); [vm_compute; split; discriminate|].
    exact Hload.
  - destruct (int32_load_outcomes 11 true Int32.new s) as (_ & H).
    destruct (H eq_refl) as (_ & _ & Hother).
    apply (Hother (snd Ex.str_x)); [reflexivity|].
    left. split; [reflexivity|]. eexists. reflexivity.
Defined.

(** Witness of X7: the integer 5 at address 10 is truthy for the host, yet
    it does not load as a [bool]. *)
Lemma bool_caster_strict_witness :
  let s := Ex.world [Ex.five] [] in
  Boolean.load 10 true Boolean.new s = (false, Boolean.new, s)
  /\ fst (fst (Boolean.load Py_True true Boolean.new s)) = true.
Proof.
  intros s.
  destruct (bool_caster_strict 10 true Boolean.new s) as (_ & _ & Hother & _).
  split; [apply Hother; unfold Py_True, Py_False; lia|].
  destruct (bool_caster_strict Py_True true Boolean.new s) as (Hiff & _).
  apply Hiff. left. reflexivity.
Defined.

(** Witness of X8: the character 233 comes back as 195, the character 65 as
    itself. *)
Lemma char_round_trip_witness :
  let s := Ex.world [] [] in
  (0 <= 233 < 256)
  /\ (forall p s1 self',
        Char.cast 233 automatic nullptr s = (Returned p, s1) ->
        Char.load p true Char.new s1 = (true, self', s1) ->
        Char.to_char self' = 195)
  /\ (forall p s1 self',
        Char.cast 65 automatic nullptr s = (Returned p, s1) ->
        Char.load p true Char.new s1 = (true, self', s1) ->
        Char.to_char self' = 65).
Proof.
  intros s. split; [lia|]. split.
  - intros p s1 self' Hc Hl.
    destruct (char_round_trip 233 automatic nullptr true Char.new s)
      as (p' & s1' & self2 & Hc' & Hl' & _ & Hhigh); [lia|].
    rewrite Hc in Hc'. injection Hc' as <- <-. rewrite Hl in Hl'.
    injection Hl' as <-. apply Hhigh. lia.
  - intros p s1 self' Hc Hl.
    destruct (char_round_trip 65 automatic nullptr true Char.new s)
      as (p' & s1' & self2 & Hc' & Hl' & Hiff & _); [lia|].
    rewrite Hc in Hc'. injection Hc' as <- <-. rewrite Hl in Hl'.
    injection Hl' as <-. apply Hiff. left. lia.
Defined.

(** Witness of C6 (amended): the [int32_t] caster loads back what it casts,
    and so does the caster of sequences of [int32_t]; the sequence
    [[1; 2; 3]] and the sequence of sequences [[[1; 2]; []; [70000]]] each
    cast to a host list that converts back to the same sequence. *)
Lemma vector_cast_load_round_trip_witness :
  let s := Ex.world [] [] in
  let nested := [[1; 2]; []; [70000]] in
  (Forall in_int32 [1; 2; 3] /\ Forall (Forall in_int32) nested
   /\ PyErr_Occurred s = false)
  /\ (exists p s1,
        Vector.cast (value_conv:=Int32.caster) [1; 2; 3] automatic nullptr s
        = (Returned p, s1)
        /\ Vector.load (value_conv:=Int32.caster) p false Vector.new s1
           = (true, Vector.mk_type_caster [1; 2; 3], s1)
        /\ cast_to_native (H:=Vector.caster (value_conv:=Int32.caster)) p s1
           = (Returned [1; 2; 3], s1))
  /\ (exists p s1,
        Vector.cast (value_conv:=Vector.caster (value_conv:=Int32.caster))
          nested automatic nullptr s = (Returned p, s1)
        /\ cast_to_native
             (H:=Vector.caster (value_conv:=Vector.caster (value_conv:=Int32.caster)))
             p s1
           = (Returned nested, s1)).
Proof.
  intros s nested.
  assert (H1 : Forall in_int32 [1; 2; 3])
    by (repeat constructor; unfold in_int32; lia).
  assert (H2 : Forall (Forall in_int32) nested)
    by (repeat constructor; unfold in_int32; lia).
  assert (H3 : PyErr_Occurred s = false) by reflexivity.
  split; [auto|]. split.
  - destruct (vector_cast_load_round_trip Int32.caster in_int32 holds_int32
                int32_loads_back [1; 2; 3] automatic nullptr false Vector.new s H1 H3)
      as (p & s1 & Hc & _ & Hl & Hn).
    exists p, s1. auto.
  - destruct (vector_cast_load_round_trip Vector.caster (Forall in_int32)
                (holds_list holds_int32)
                (vector_loads_back Int32.caster in_int32 holds_int32 int32_loads_back)
                nested automatic nullptr true Vector.new s H2 H3)
      as (p & s1 & Hc & _ & _ & Hn).
    exists p, s1. auto.
Defined.

(** Witness of X9: the [int32_t] caster round-trips the values of which the
    host makes a new object, hence so do the casters of [vector<int32_t>]
    and of [vector<vector<int32_t>>]. *)
Lemma vector_round_trips_witness :
  round_trips (Obj:=Z)
    (Vector.caster (value_conv:=Vector.caster (value_conv:=Int32.caster)))
    (Forall (Forall unshared_int32)) (holds_list (holds_list holds_int32)).
Proof.
  apply vector_round_trips, vector_round_trips, int32_round_trips.
Defined.

(** Witness of X10: the caster of [pair<int32_t, pair<int32_t, int32_t>>]
    round-trips. *)
Lemma pair_round_trips_witness :
  round_trips (Obj:=Z)
    (Pair.caster (first_conv:=Int32.caster)
       (second_conv:=Pair.caster (first_conv:=Int32.caster)
                       (second_conv:=Int32.caster)))
    (fun v => unshared_int32 (fst v)
              /\ unshared_int32 (fst (snd v)) /\ unshared_int32 (snd (snd v)))
    (holds_pair holds_int32 (holds_pair holds_int32 holds_int32)).
Proof.
  exact (pair_round_trips Int32.caster Pair.caster unshared_int32 holds_int32
           (fun w => unshared_int32 (fst w) /\ unshared_int32 (snd w))
           (holds_pair holds_int32 holds_int32) int32_round_trips
           (pair_round_trips Int32.caster Int32.caster unshared_int32 holds_int32
              unshared_int32 holds_int32 int32_round_trips int32_round_trips)).
Defined.

(** Witness of X11: the [int32_t] -7 is cast to a new integer object at
    101, and converting that object back gives -7. *)
Lemma round_trip_cast_load_witness :
  let s := Ex.world [] [] in
  (unshared_int32 (-7) /\ PyErr_Occurred s = false)
  /\ match Int32.cast (-7) automatic nullptr s with
     | (Returned p, s') =>
         p = 101 /\ cast_to_native (H:=Int32.caster) p s' = (Returned (-7), s')
     | _ => False
     end.
Proof.
  intros s.
  assert (Hv : unshared_int32 (-7)) by (unfold unshared_int32, in_int32, small_int; lia).
  assert (He : PyErr_Occurred s = false) by reflexivity.
  split; [auto|].
  destruct (round_trip_cast_load Int32.caster unshared_int32 holds_int32 (-7)
              automatic nullptr s int32_round_trips Hv He)
    as (p & s' & Hc & _ & _ & Hback).
  change (caster_cast (-7) automatic nullptr s)
    with (Int32.cast (-7) automatic nullptr s) in Hc.
  rewrite Hc. split; [|exact Hback].
  assert (H101 : fst (Int32.cast (-7) automatic nullptr s) = Returned 101)
    by (vm_compute; reflexivity).
  rewrite Hc in H101. injection H101 as ->. reflexivity.
Defined.


(** Witness of X12: a pair whose second component is of an unregistered
    class; both casters release the integer made for the first component and
    return null. *)
Lemma pair_cast_is_tuple_cast_witness :
  let s := Ex.world [] [] in
  let E2 := generic_pointer_caster (∅ : gmap string (type_info Z)) "Bar" None in
  let run :=
    TupleCast.cast
      [TupleCast.mk_component _ _ Int32.caster 700;
       TupleCast.mk_component _ _ E2 50] automatic nullptr s in
  fst (Pair.cast (first_conv:=Int32.caster) (second_conv:=E2) (700, 50)
         automatic nullptr s) = Returned nullptr
  /\ fst run = Returned nullptr
  /\ Py_REFCNT 101 (snd run) = 0.
Proof.
  intros s E2 run.
  rewrite (pair_cast_is_tuple_cast Int32.caster E2 700 50 automatic nullptr s).
  fold run. repeat split; vm_compute; reflexivity.
Defined.

(** Witness of X13: in the host tuple [("x", 5)] the first element is not an
    integer; both loads fail, the tuple caster has loaded the 5 into its
    second caster, and the pair caster has left its second caster alone. *)
Lemma pair_load_and_tuple_load_witness :
  let s := Ex.world Ex.mixed_tuple [] in
  let int32_elem v :=
    Tuple.mk_element (Obj:=Z) _ _ Int32.caster (Int32.mk_type_caster v) in
  (PyTuple_Check 40 s = true /\ PyTuple_Size 40 s = 2)
  /\ Tuple.load 40 true [int32_elem 0; int32_elem 0] s
     = (false, [int32_elem (-1); int32_elem 5], s)
  /\ Pair.load (first_conv:=Int32.caster) (second_conv:=Int32.caster) 40 true
       (Pair.mk_type_caster Int32.new Int32.new) s
     = (false,
        Pair.mk_type_caster (Int32.mk_type_caster (-1)) (Int32.mk_type_caster 0), s).
Proof.
  intros s int32_elem.
  assert (H1 : PyTuple_Check 40 s = true) by reflexivity.
  assert (H2 : PyTuple_Size 40 s = 2) by reflexivity.
  split; [auto|].
  destruct (pair_load_and_tuple_load Int32.caster Int32.caster 40 true
              Int32.new Int32.new s) as (_ & _ & Hboth).
  destruct (Hboth H1 H2 11 s false (Int32.mk_type_caster (-1)) s
              10 s true (Int32.mk_type_caster 5) s)
    as [Htuple Hpair]; try reflexivity.
  split; [exact Htuple|exact Hpair].
Defined.


(** Witness of X15: two integer arguments; the callable at 200 is invoked
    once, with the tuple at 103 that holds the two integers made. *)
Lemma call_invokes_once_witness :
  let s := Ex.world [] [] in
  let args_ : list (Handle.argument (Obj:=Z)) := [Int32.cast 70000; Int32.cast 500] in
  let run := Handle.call Ex.returns_none 200 args_ s in
  (args_ <> []
   /\ Handle.cast_arguments args_ s
      = (Returned [101; 102], snd (Handle.cast_arguments args_ s))
   /\ nullptr ∉ [101; 102])
  /\ fst run = Returned Py_None
  /\ invoked (snd run) = [(200, 103)].
Proof.
  intros s args_ run.
  assert (H0 : args_ <> []) by discriminate.
  assert (H1 : Handle.cast_arguments args_ s
               = (Returned [101; 102], snd (Handle.cast_arguments args_ s)))
    by (vm_compute; reflexivity).
  assert (H2 : nullptr ∉ [101; 102]).
  { intros Hin. apply list_elem_of_In in Hin. simpl in Hin. unfold nullptr in Hin. lia. }
  split; [auto|].
  destruct (call_invokes_once Ex.returns_none 200 args_ s _ _ H0 H1 H2)
    as (s3 & _ & _ & _ & Hinv & Hcall).
  subst run. rewrite Hcall. cbn [fst snd].
  split; [reflexivity|].
  change (invoked s3 = [(200, 103)]). rewrite Hinv. vm_compute. reflexivity.
Defined.

(** Witness of X16: the host list [[1, 3]] loads as the vector [[1; 3]]. *)
Lemma vector_load_succeeds_iff_witness :
  let s := Ex.world [(30, mk_PyObject 1 PyList_Type (V_List [31; 33]));
                     (31, mk_PyObject 1 PyLong_Type (V_Long 1));
                     (33, mk_PyObject 1 PyLong_Type (V_Long 3))] [] in
  PyList_Check 30 s = true
  /\ Vector.load (value_conv:=Int32.caster) 30 true Vector.new s
     = (true, Vector.mk_type_caster [1; 3], s)
  /\ elements_loaded (H:=Int32.caster) 30 true 2 s [1; 3] s.
Proof.
  intros s.
  assert (Hc : PyList_Check 30 s = true) by reflexivity.
  assert (Hl : Vector.load (value_conv:=Int32.caster) 30 true Vector.new s
               = (true, Vector.mk_type_caster [1; 3], s))
    by (vm_compute; reflexivity).
  split; [exact Hc|]. split; [exact Hl|].
  exact (proj1 (vector_load_succeeds_iff 30 true Vector.new s [1; 3] s Hc) Hl).
Defined.

(** Witness of X17: the host string with the code points 97, 0, 98 loads as
    the one-character string of 97. *)
Lemma string_load_outcomes_witness :
  let o := mk_PyObject 1 PyUnicode_Type (V_Unicode [97; 0; 98]) in
  let s := Ex.world [(13, o)] [] in
  (heap s !! 13 = Some o /\ ob_val o = V_Unicode [97; 0; 98])
  /\ Str.load 13 true Str.new s = (true, Str.mk_type_caster [97], s).
Proof.
  intros o s.
  assert (H1 : heap s !! 13 = Some o) by reflexivity.
  assert (H2 : ob_val o = V_Unicode [97; 0; 98]) by reflexivity.
  split; [auto|].
  destruct (string_load_outcomes 13 true Str.new s o _ H1 H2) as [_ Hok].
  destruct (Hok [97; 0; 98] eq_refl) as (Hload & _). exact Hload.
Defined.


(** Witness of X19: the largest [uint64_t] is cast to a new integer object,
    and converting that object back gives the same value. *)
Lemma integer_casters_round_trip_witness :
  let s := Ex.world [] [] in
  match @caster_cast Z _ _ uint64_t_caster (2 ^ 64 - 1) automatic nullptr s with
  | (Returned p, s') =>
      cast_to_native (H:=uint64_t_caster) p s' = (Returned (2 ^ 64 - 1), s')
  | _ => False
  end.
Proof.
  intros s.
  destruct (integer_casters_round_trip (Obj:=Z)) as (_ & _ & _ & _ & Hcast & Hload).
  destruct (Hcast (2 ^ 64 - 1) automatic nullptr s) as (p & s' & -> & Hp & He & _);
    [unfold in_uint64, small_int; lia|].
  unfold cast_to_native.
  destruct (Hload p (2 ^ 64 - 1) true (@caster_new Z _ _ uint64_t_caster) s' Hp) as (c' & -> & Hget).
  - unfold PyErr_Occurred. rewrite He. reflexivity.
  - simpl. simpl in Hget. rewrite Hget. reflexivity.
Defined.

(** Witness of X20: the integer 2^32 + 5 loads as the [uint32_t] 5; the
    integer 2^64 - 1 loads as a [uint64_t] when no host error is pending and
    fails to load, clearing the error, when one is. *)
Lemma integer_load_outcomes_witness :
  let o := mk_PyObject 1 PyLong_Type (V_Long (2 ^ 32 + 5)) in
  let m := mk_PyObject 1 PyLong_Type (V_Long (2 ^ 64 - 1)) in
  let s := Ex.world [(12, o); (13, m)] [] in
  let stale := PyErr_SetString PyExc_TypeError "stale" s in
  @caster_load Z _ _ uint32_t_caster 12 true Number.new s
  = (true, Number.mk_type_caster 5, s)
  /\ @caster_load Z _ _ uint64_t_caster 13 true Number.new s
     = (true, Number.mk_type_caster (2 ^ 64 - 1), s)
  /\ @caster_load Z _ _ uint64_t_caster 13 true Number.new stale
     = (false, Number.mk_type_caster (2 ^ 64 - 1), s).
Proof.
  intros o m s stale.
  destruct (integer_load_outcomes (Obj:=Z)) as (H32 & _ & H64 & _).
  split; [|split].
  - destruct (H32 12 true Number.new s o (2 ^ 32 + 5) eq_refl eq_refl) as (Hok & _).
    apply Hok; [unfold ULONG_MAX, LONG_BIT; lia|left; reflexivity].
  - destruct (H64 13 true Number.new s m (2 ^ 64 - 1) eq_refl eq_refl) as (Hok & _).
    apply Hok; [unfold ULLONG_MAX; lia|left; reflexivity].
  - destruct (H64 13 true Number.new stale m (2 ^ 64 - 1) eq_refl eq_refl)
      as (_ & Hstale & _).
    apply Hstale; [unfold ULLONG_MAX; lia|reflexivity|reflexivity].
Defined.
